(** * Group-health pricing engine and claims validation engine

    A shallow embedding of
      - [backend/services/claims-engine/src/pricing/models.py],
        [pricing_engine.py] and the T&C endpoint of [api.py], and
      - [init_desg/claims_validation_engine_v1.py],
    followed by the properties of the written specification that concern
    them.

    Modelling conventions.
      - A Python [Decimal] is modelled by the rational number it denotes;
        [+], [-], [*] and [/] are exact.  Python's decimal context (28
        significant digits) and the scale coercion a NUMERIC column applies
        on flush are not modelled.  Decimals are compared with [==].
      - [float(x)] is kept as the exact value of [x].
      - The SQLAlchemy session is an explicit record of tables, threaded
        through a state-and-exception monad.  A raised exception discards
        the pending changes, as the request handler closes its session
        without a commit.
      - [date.today()] is a field of the session record.
      - Foreign keys and uniqueness constraints of the database are not
        modelled.
      - The twenty-five validators run in worker threads but neither write
        shared state nor depend on each other; the task group gathers
        their results in task-creation order, so the run is modelled as a
        sequential map over the applicable rule codes. *)

From Stdlib Require Import ZArith QArith Qminmax Qabs Qround.
From Stdlib Require Import String List Lia Lqa DecimalString Sorted.
From stdpp Require Import gmap strings list.

Import ListNotations.
Local Open Scope string_scope.
Local Open Scope Z_scope.

(** ** Python values shared by both engines *)

(** [decimal.Decimal], by value. *)
Definition Decimal : Type := Q.

(** [Decimal(n)] for an [int] [n]. *)
Definition Decimal_of_int (n : Z) : Decimal := inject_Z n.

(** [float(d)]: the binary rounding is not modelled. *)
Definition float (d : Decimal) : Q := d.

(** Truth value of a [Decimal]: any non-zero number. *)
Definition Decimal_bool (d : Decimal) : bool := negb (Qeq_bool d 0).

(** Truth value of an [int]. *)
Definition int_bool (n : Z) : bool := negb (n =? 0).

(** Truth value of an [Optional[int]] and of an [Optional[Decimal]]:
    [None] and zero are both falsy. *)
Definition optional_int_bool (x : option Z) : bool :=
  match x with
  | Some n => int_bool n
  | None => false
  end.

Definition optional_Decimal_bool (x : option Decimal) : bool :=
  match x with
  | Some d => Decimal_bool d
  | None => false
  end.

(** [a < b] and [a <= b] on decimals. *)
Definition Decimal_ltb (a b : Decimal) : bool := negb (Qle_bool b a).
Definition Decimal_leb (a b : Decimal) : bool := Qle_bool a b.

(** Python's two-argument [max] and [min]: the first argument is kept
    unless the second is strictly larger (resp. smaller). *)
Definition py_max (a b : Decimal) : Decimal := if Decimal_ltb a b then b else a.
Definition py_min (a b : Decimal) : Decimal := if Decimal_ltb b a then b else a.

(** [x or y] where [x] is an [Optional[Decimal]]: [None] and zero are both
    falsy. *)
Definition Decimal_or (x : option Decimal) (y : Decimal) : Decimal :=
  match x with
  | Some d => if Decimal_bool d then d else y
  | None => y
  end.

(** [d.quantize(Decimal(10) ** -places, rounding=ROUND_HALF_UP)]: the
    nearest multiple of [10 ^ -places], ties going away from zero. *)
Definition quantize_ROUND_HALF_UP (places : nat) (d : Decimal) : Decimal :=
  let scale := 10 ^ Z.of_nat places in
  let n := Z.abs (Qnum d) * scale in
  let den := Z.pos (Qden d) in
  let q := (2 * n + den) / (2 * den) in
  Qmake (Z.sgn (Qnum d) * q) (Z.to_pos scale).

(** [str(n)] for an [int]. *)
Definition str_int (n : Z) : string := NilZero.string_of_int (Z.to_int n).

(** [datetime.date]. *)
Record date : Type := mk_date { year : Z; month : Z; day : Z }.

(** [(m1, d1) < (m2, d2)] on pairs of integers. *)
Definition pair_ltb (a b : Z * Z) : bool :=
  (fst a <? fst b) || ((fst a =? fst b) && (snd a <? snd b)).

(** [date.toordinal()]: day number in the proleptic Gregorian calendar,
    1 January of year 1 being day 1. *)
Definition is_leap (y : Z) : bool :=
  (y mod 4 =? 0) && (negb (y mod 100 =? 0) || (y mod 400 =? 0)).

Definition days_before_year (y : Z) : Z :=
  let y' := y - 1 in y' * 365 + y' / 4 - y' / 100 + y' / 400.

Definition days_before_month (y m : Z) : Z :=
  let cumulative :=
    nth (Z.to_nat (m - 1)) [0; 31; 59; 90; 120; 151; 181; 212; 243; 273; 304; 334] 0 in
  cumulative + (if (2 <? m) && is_leap y then 1 else 0).

Definition toordinal (d : date) : Z :=
  days_before_year (year d) + days_before_month (year d) (month d) + day d.

(** [(a - b).days]. *)
Definition days_between (a b : date) : Z := toordinal a - toordinal b.

(** [date.fromordinal(n)], after [datetime._ord2ymd]. *)
Definition fromordinal (n : Z) : date :=
  let n := n - 1 in
  let n400 := n / 146097 in
  let n := n mod 146097 in
  let n100 := n / 36524 in
  let n := n mod 36524 in
  let n4 := n / 1461 in
  let n := n mod 1461 in
  let n1 := n / 365 in
  let n := n mod 365 in
  let y := n400 * 400 + 1 + n100 * 100 + n4 * 4 + n1 in
  if (n1 =? 4) || (n100 =? 4) then mk_date (y - 1) 12 31
  else
    let m := (n + 50) / 32 in
    let preceding := days_before_month y m in
    let m' := if n <? preceding then m - 1 else m in
    mk_date y m' (n - days_before_month y m' + 1).

(** [d + timedelta(days=n)] and the order on dates. *)
Definition date_add_days (d : date) (n : Z) : date := fromordinal (toordinal d + n).
Definition date_ltb (a b : date) : bool := toordinal a <? toordinal b.

(** [l.sort(key=key, reverse=reverse)].  The sort is stable; with
    [reverse=True] the list is reversed, sorted and reversed again, so
    that equal keys keep their original order. *)
Fixpoint insert_by {A K : Type} (ltb : K -> K -> bool) (key : A -> K) (x : A)
    (l : list A) : list A :=
  match l with
  | [] => [x]
  | y :: rest =>
      if ltb (key y) (key x) then y :: insert_by ltb key x rest else x :: l
  end.

Definition stable_sort {A K : Type} (ltb : K -> K -> bool) (key : A -> K)
    (l : list A) : list A :=
  fold_right (insert_by ltb key) [] l.

Definition list_sort {A K : Type} (ltb : K -> K -> bool) (key : A -> K)
    (reverse : bool) (l : list A) : list A :=
  if reverse then rev (stable_sort ltb key (rev l)) else stable_sort ltb key l.

(** [<] on triples of [bool], with [False < True]. *)
Definition bool_ltb (a b : bool) : bool := negb a && b.

Definition bool3_ltb (a b : bool * bool * bool) : bool :=
  let '(a1, a2, a3) := a in
  let '(b1, b2, b3) := b in
  bool_ltb a1 b1
  || (Bool.eqb a1 b1 && (bool_ltb a2 b2 || (Bool.eqb a2 b2 && bool_ltb a3 b3))).

(** [rows.filter(p).first()], [rows.filter(p).count()] and an in-place
    attribute assignment on the first row that matches. *)
Definition first {A : Type} (p : A -> bool) (rows : list A) : option A :=
  List.find p rows.

Definition count {A : Type} (p : A -> bool) (rows : list A) : Z :=
  Z.of_nat (List.length (List.filter p rows)).

Fixpoint update_first {A : Type} (p : A -> bool) (f : A -> A) (rows : list A) : list A :=
  match rows with
  | [] => []
  | r :: rest => if p r then f r :: rest else r :: update_first p f rest
  end.

(** ** The pricing engine: [models.py], [pricing_engine.py], [api.py] *)

Module Pricing.

(** A [uuid.UUID], in its text form. *)
Definition UUID : Type := string.

(** *** Enumerations of [models.py] *)

Module Gender.
Inductive t : Type := MALE | FEMALE | CHILD.
#[global] Instance eq_dec : EqDecision t.
Proof. solve_decision. Defined.
End Gender.

Module MemberType.
Inductive t : Type := EMPLOYEE | SPOUSE | CHILD.
End MemberType.

Module PolicyStatus.
Inductive t : Type := DRAFT | QUOTED | APPROVED | ACTIVE | EXPIRED | CANCELLED.
#[global] Instance eq_dec : EqDecision t.
Proof. solve_decision. Defined.
End PolicyStatus.

Module BenefitCategory.
Inductive t : Type := INPATIENT | OUTPATIENT | DENTAL | MATERNITY | OPTICAL | ASO.
#[global] Instance eq_dec : EqDecision t.
Proof. solve_decision. Defined.
End BenefitCategory.

Module ApprovalStatus.
Inductive t : Type := PENDING | APPROVED | REJECTED | REVISION.
#[global] Instance eq_dec : EqDecision t.
Proof. solve_decision. Defined.
End ApprovalStatus.

(** The values of the [status] column of [policy_member]. *)
Module MemberStatus.
Inductive t : Type := ACTIVE | TERMINATED.
#[global] Instance eq_dec : EqDecision t.
Proof. solve_decision. Defined.
End MemberStatus.

(** *** Rows.  Surrogate keys that no code path reads are left out. *)

Module ProductTemplate.
Record t : Type := mk {
    template_id : UUID;
    template_name : string;
    product_category : BenefitCategory.t;
    base_premium_adult_male : option Decimal;
    base_premium_adult_female : option Decimal;
    base_premium_child : option Decimal }.

Definition get_base_premium (self : t) (gender : Gender.t) (age : Z) : Decimal :=
  if age <? 18 then Decimal_or (base_premium_child self) 0%Q
  else if bool_decide (gender = Gender.MALE) then
    Decimal_or (base_premium_adult_male self) 0%Q
  else Decimal_or (base_premium_adult_female self) 0%Q.
End ProductTemplate.

Module AgeBandMultiplier.
Record t : Type := mk {
    template_id : UUID;
    age_from : Z;
    age_to : Z;
    gender : Gender.t;
    multiplier : Decimal }.
End AgeBandMultiplier.

Module TCFactorConfig.
Record t : Type := mk {
    factor_id : UUID;
    factor_code : string;
    factor_category : string;
    factor_name : string;
    is_active : bool;
    display_order : Z }.
End TCFactorConfig.

Module TCFactorOption.
Record t : Type := mk {
    option_id : UUID;
    factor_id : UUID;
    option_value : string;
    option_label : string;
    multiplier : Decimal;
    is_default : bool;
    min_participants : option Z;
    max_participants : option Z;
    display_order : Z }.
End TCFactorOption.

Module PolicyConfig.
Record t : Type := mk {
    config_id : UUID;
    quote_number : string;
    company_name : string;
    participant_count : Z;
    coverage_start : date;
    coverage_end : date;
    status : PolicyStatus.t;
    total_base_premium : option Decimal;
    total_adjusted_premium : option Decimal;
    total_factor_multiplier : option Decimal }.

Definition coverage_days (self : t) : Z :=
    days_between (coverage_end self) (coverage_start self).

Definition set_status (v : PolicyStatus.t) (self : t) : t :=
    mk (config_id self) (quote_number self) (company_name self)
       (participant_count self) (coverage_start self) (coverage_end self) v
       (total_base_premium self) (total_adjusted_premium self)
       (total_factor_multiplier self).

Definition set_totals (base adjusted multiplier : Decimal) (self : t) : t :=
    mk (config_id self) (quote_number self) (company_name self)
       (participant_count self) (coverage_start self) (coverage_end self)
       (status self) (Some base) (Some adjusted) (Some multiplier).
End PolicyConfig.

Module BenefitSelection.
Record t : Type := mk {
    config_id : UUID;
    benefit_category : BenefitCategory.t;
    template_id : option UUID;
    is_selected : bool;
    category_factor : Decimal }.

Definition set_is_selected (v : bool) (self : t) : t :=
    mk (config_id self) (benefit_category self) (template_id self) v
       (category_factor self).

Definition set_category_factor (v : Decimal) (self : t) : t :=
    mk (config_id self) (benefit_category self) (template_id self)
       (is_selected self) v.
End BenefitSelection.

Module PolicyTCSelection.
Record t : Type := mk {
    config_id : UUID;
    factor_id : UUID;
    option_id : option UUID;
    applied_multiplier : Decimal }.
End PolicyTCSelection.

Module PolicyMember.
Record t : Type := mk {
    member_id : UUID;
    config_id : UUID;
    member_number : Z;
    full_name : string;
    date_of_birth : date;
    gender : Gender.t;
    member_type : MemberType.t;
    status : MemberStatus.t;
    base_premium : option Decimal }.

  (** The hybrid property [age], read against [date.today()]. *)
Definition age (today : date) (self : t) : Z :=
    let dob := date_of_birth self in
    year today - year dob
    - (if pair_ltb (month today, day today) (month dob, day dob) then 1 else 0).

Definition get_age_band (today : date) (self : t) : string :=
  let age := age today self in
  if age <? 18 then "CHILD"
  else if age <=? 55 then "0-55"
  else if age <=? 60 then "56-60"
  else if age <=? 65 then "61-65"
  else if age <=? 70 then "66-70"
  else if age <=? 75 then "71-75"
  else "76+".

Definition set_base_premium (v : Decimal) (self : t) : t :=
    mk (member_id self) (config_id self) (member_number self) (full_name self)
       (date_of_birth self) (gender self) (member_type self) (status self)
       (Some v).
End PolicyMember.

(** The [factor_breakdown] dictionary of a calculation. *)
Module FactorBreakdown.
Record tc_entry : Type := mk_tc_entry {
    name : string;
    option : string;
    multiplier : Q }.

Record t : Type := mk {
    benefit_factors : list (BenefitCategory.t * Q);
    tc_factors : list (string * tc_entry);
    total_multiplier : Decimal }.
End FactorBreakdown.

Module PremiumCalculationLog.
Record t : Type := mk {
    config_id : UUID;
    participant_count : Z;
    selected_benefits : list (BenefitCategory.t * bool);
    selected_factors : list (string * string);
    base_premium_total : Decimal;
    factor_details : FactorBreakdown.t;
    total_multiplier : Decimal;
    monthly_premium : Decimal;
    annual_premium : Decimal;
    admin_fee : Decimal;
    tpa_fee : Decimal;
    total_premium : Decimal }.
End PremiumCalculationLog.

Module ApprovalWorkflow.
Record t : Type := mk {
    config_id : UUID;
    step_name : string;
    step_order : Z;
    approval_status : ApprovalStatus.t;
    min_premium_threshold : Decimal }.
End ApprovalWorkflow.

Module RateTable.
Record t : Type := mk {
  rate_code : string;
  benefit_code : string;
  age_0_55_male : option Decimal;
  age_0_55_female : option Decimal;
  age_0_55_child : option Decimal;
  age_56_60_male : option Decimal;
  age_56_60_female : option Decimal;
  age_61_65_male : option Decimal;
  age_61_65_female : option Decimal;
  age_66_70_male : option Decimal;
  age_66_70_female : option Decimal;
  age_71_75_male : option Decimal;
  age_71_75_female : option Decimal;
  effective_date : date;
  expiry_date : option date }.

(** [get_rate(age, gender)]: an adult column is returned as stored, [None]
    included. *)
Definition get_rate (self : t) (age : Z) (gender : Gender.t) : option Decimal :=
  let male := bool_decide (gender = Gender.MALE) in
  if age <? 18 then Some (Decimal_or (age_0_55_child self) 0%Q)
  else if age <=? 55 then (if male then age_0_55_male self else age_0_55_female self)
  else if age <=? 60 then (if male then age_56_60_male self else age_56_60_female self)
  else if age <=? 65 then (if male then age_61_65_male self else age_61_65_female self)
  else if age <=? 70 then (if male then age_66_70_male self else age_66_70_female self)
  else if age <=? 75 then (if male then age_71_75_male self else age_71_75_female self)
  else Some 0%Q.
End RateTable.

(** *** The session: one list of rows per table, in storage order *)

Record Session : Type := mk_Session {
  today : date;
  policy_config : list PolicyConfig.t;
  product_template : list ProductTemplate.t;
  age_band_multiplier : list AgeBandMultiplier.t;
  tc_factor_config : list TCFactorConfig.t;
  tc_factor_option : list TCFactorOption.t;
  benefit_selection : list BenefitSelection.t;
  policy_tc_selection : list PolicyTCSelection.t;
  policy_member : list PolicyMember.t;
  premium_calculation_log : list PremiumCalculationLog.t;
  approval_workflow : list ApprovalWorkflow.t }.

Definition with_policy_config (f : list PolicyConfig.t -> list PolicyConfig.t)
    (s : Session) : Session :=
  mk_Session (today s) (f (policy_config s)) (product_template s)
    (age_band_multiplier s) (tc_factor_config s) (tc_factor_option s)
    (benefit_selection s) (policy_tc_selection s) (policy_member s)
    (premium_calculation_log s) (approval_workflow s).

Definition with_benefit_selection
    (f : list BenefitSelection.t -> list BenefitSelection.t) (s : Session) : Session :=
  mk_Session (today s) (policy_config s) (product_template s)
    (age_band_multiplier s) (tc_factor_config s) (tc_factor_option s)
    (f (benefit_selection s)) (policy_tc_selection s) (policy_member s)
    (premium_calculation_log s) (approval_workflow s).

Definition with_policy_tc_selection
    (f : list PolicyTCSelection.t -> list PolicyTCSelection.t) (s : Session) : Session :=
  mk_Session (today s) (policy_config s) (product_template s)
    (age_band_multiplier s) (tc_factor_config s) (tc_factor_option s)
    (benefit_selection s) (f (policy_tc_selection s)) (policy_member s)
    (premium_calculation_log s) (approval_workflow s).

Definition with_policy_member (f : list PolicyMember.t -> list PolicyMember.t)
    (s : Session) : Session :=
  mk_Session (today s) (policy_config s) (product_template s)
    (age_band_multiplier s) (tc_factor_config s) (tc_factor_option s)
    (benefit_selection s) (policy_tc_selection s) (f (policy_member s))
    (premium_calculation_log s) (approval_workflow s).

Definition with_premium_calculation_log
    (f : list PremiumCalculationLog.t -> list PremiumCalculationLog.t)
    (s : Session) : Session :=
  mk_Session (today s) (policy_config s) (product_template s)
    (age_band_multiplier s) (tc_factor_config s) (tc_factor_option s)
    (benefit_selection s) (policy_tc_selection s) (policy_member s)
    (f (premium_calculation_log s)) (approval_workflow s).

Definition with_approval_workflow
    (f : list ApprovalWorkflow.t -> list ApprovalWorkflow.t) (s : Session) : Session :=
  mk_Session (today s) (policy_config s) (product_template s)
    (age_band_multiplier s) (tc_factor_config s) (tc_factor_option s)
    (benefit_selection s) (policy_tc_selection s) (policy_member s)
    (premium_calculation_log s) (f (approval_workflow s)).

(** *** Exceptions and the state-and-exception monad *)

Inductive Exception : Type :=
  | ValueError (msg : string)
  | AttributeError (msg : string).

(** [str(e)]. *)
Definition str_exc (e : Exception) : string :=
  match e with
  | ValueError msg => msg
  | AttributeError msg => msg
  end.

Inductive Outcome (A : Type) : Type :=
  | Returned (value : A) (session : Session)
  | Raised (exc : Exception).
Arguments Returned {A} value session.
Arguments Raised {A} exc.

Definition M (A : Type) : Type := Session -> Outcome A.

#[global] Instance M_ret : MRet M := fun A (a : A) s => Returned a s.

#[global] Instance M_bind : MBind M := fun A B (k : A -> M B) (m : M A) s =>
  match m s with
  | Returned a s' => k a s'
  | Raised e => Raised e
  end.

Definition raise {A : Type} (e : Exception) : M A := fun _ => Raised e.
Definition query : M Session := fun s => Returned s s.
Definition modify (f : Session -> Session) : M unit := fun s => Returned tt (f s).

(** [session.add(row)] is folded into the table updates below;
    [session.commit()] makes the pending state the stored one. *)
Definition commit : M unit := mret tt.

(** Reading an attribute of an object that may be [None]. *)
Definition attr_of {A : Type} (o : option A) (attribute : string) : M A :=
  match o with
  | Some a => mret a
  | None =>
      raise (AttributeError
        ("'NoneType' object has no attribute '" +:+ attribute +:+ "'"))
  end.

(** [for x in xs: acc = body(x, acc)]. *)
Fixpoint for_each {A B : Type} (xs : list A) (body : A -> B -> M B) (acc : B) : M B :=
  match xs with
  | [] => mret acc
  | x :: rest => acc' ← body x acc; for_each rest body acc'
  end.

(** *** Primary-key lookup and ORM relationships *)

(** [session.query(PolicyConfig).get(config_id)]. *)
Definition get (config_id : UUID) (s : Session) : option PolicyConfig.t :=
  first (fun c => String.eqb (PolicyConfig.config_id c) config_id) (policy_config s).

(** [config.benefit_selections], [config.tc_selections], [config.members]. *)
Definition benefit_selections (s : Session) (config : PolicyConfig.t) :
    list BenefitSelection.t :=
  List.filter (fun r => String.eqb (BenefitSelection.config_id r) (PolicyConfig.config_id config))
    (benefit_selection s).

Definition tc_selections (s : Session) (config : PolicyConfig.t) :
    list PolicyTCSelection.t :=
  List.filter (fun r => String.eqb (PolicyTCSelection.config_id r) (PolicyConfig.config_id config))
    (policy_tc_selection s).

Definition members (s : Session) (config : PolicyConfig.t) : list PolicyMember.t :=
  List.filter (fun r => String.eqb (PolicyMember.config_id r) (PolicyConfig.config_id config))
    (policy_member s).

(** [selection.template], [tc_selection.factor], [tc_selection.option]. *)
Definition template (s : Session) (selection : BenefitSelection.t) :
    option ProductTemplate.t :=
  match BenefitSelection.template_id selection with
  | Some id => first (fun r => String.eqb (ProductTemplate.template_id r) id) (product_template s)
  | None => None
  end.

Definition factor (s : Session) (tc_selection : PolicyTCSelection.t) :
    option TCFactorConfig.t :=
  first (fun r => String.eqb (TCFactorConfig.factor_id r) (PolicyTCSelection.factor_id tc_selection))
    (tc_factor_config s).

Definition option_ (s : Session) (tc_selection : PolicyTCSelection.t) :
    option TCFactorOption.t :=
  match PolicyTCSelection.option_id tc_selection with
  | Some id => first (fun r => String.eqb (TCFactorOption.option_id r) id) (tc_factor_option s)
  | None => None
  end.

(** [factor.options]. *)
Definition options (s : Session) (f : TCFactorConfig.t) : list TCFactorOption.t :=
  List.filter (fun o => String.eqb (TCFactorOption.factor_id o) (TCFactorConfig.factor_id f))
    (tc_factor_option s).

(** [PolicyConfig.calculate_total_factor] of [models.py]. *)
Definition calculate_total_factor (s : Session) (self : PolicyConfig.t) : Decimal :=
  let total := 1.000%Q in
  let total :=
    fold_left (fun total selection =>
      if BenefitSelection.is_selected selection then
        (total * Decimal_or (Some (BenefitSelection.category_factor selection)) 1.000)%Q
      else total) (benefit_selections s self) total in
  fold_left (fun total tc_selection =>
    (total * Decimal_or (Some (PolicyTCSelection.applied_multiplier tc_selection)) 1.000)%Q)
    (tc_selections s self) total.

(** The dictionary returned by [calculate_premium]; [calculation_date], a
    wall-clock timestamp, is left out. *)
Module PremiumBreakdown.
Record t : Type := mk {
    base_premium : Q;
    total_multiplier : Q;
    adjusted_premium : Q;
    admin_fee : Q;
    tpa_fee : Q;
    total_premium : Q }.
End PremiumBreakdown.

Module MemberDetail.
Record t : Type := mk {
    member_id : string;
    name : string;
    age : Z;
    gender : Gender.t;
    base_premium : Q }.
End MemberDetail.

Module CalculationResult.
Record t : Type := mk {
    config_id : string;
    company_name : string;
    participant_count : Z;
    coverage_period : date * date * Z;
    premium_breakdown : PremiumBreakdown.t;
    monthly_premium : Q;
    per_member_average : Q;
    factor_breakdown : FactorBreakdown.t;
    member_details : list MemberDetail.t }.
End CalculationResult.

(** *** [class PricingEngine] *)

Module PricingEngine.

Definition _initialize_default_tc_factors (config : PolicyConfig.t) : M unit :=
  s ← query;
  let factors := List.filter TCFactorConfig.is_active (tc_factor_config s) in
  for_each factors (fun f _ =>
    (* the option flagged as default, else the first one, else None *)
    let default_option :=
      match first TCFactorOption.is_default (options s f) with
      | Some opt => Some opt
      | None => head (options s f)
      end in
    match default_option with
    | Some opt =>
        modify (with_policy_tc_selection (fun rows =>
          rows ++ [PolicyTCSelection.mk (PolicyConfig.config_id config)
                     (TCFactorConfig.factor_id f)
                     (Some (TCFactorOption.option_id opt))
                     (TCFactorOption.multiplier opt)])%list)
    | None => mret tt
    end) tt.

(** The member filter of [_calculate_category_factor]: same configuration,
    gender FEMALE, age between 18 and 45, the hybrid property [age] being
    read row by row.  The query carries no condition on [status]. *)
Definition female_18_45 (config_id : UUID) (today : date) (m : PolicyMember.t) : bool :=
  String.eqb (PolicyMember.config_id m) config_id
  && bool_decide (PolicyMember.gender m = Gender.FEMALE)
  && (18 <=? PolicyMember.age today m)
  && (PolicyMember.age today m <=? 45).

(** [female_count > config.participant_count * 0.4] is a comparison of an
    [int] with a binary float.  The product rounds to the integer
    [2 * participant_count / 5] whenever that is one and is otherwise at
    least 0.2 away from every integer, so the outcome is that of the exact
    comparison below. *)
Definition _calculate_category_factor (config_id : UUID)
    (category : BenefitCategory.t) : M Decimal :=
  s ← query;
  config ← attr_of (get config_id s) "participant_count";
  let participant_count := PolicyConfig.participant_count config in
  let base_factor := 1.000%Q in
  let base_factor :=
    if participant_count <? 15 then (base_factor * 1.500)%Q
    else if participant_count <? 25 then (base_factor * 1.250)%Q
    else if participant_count <? 50 then (base_factor * 1.100)%Q
    else base_factor in
  let base_factor :=
    if bool_decide (category = BenefitCategory.MATERNITY) then
      let female_count := count (female_18_45 config_id (today s)) (policy_member s) in
      if Decimal_ltb (inject_Z participant_count * 0.4)%Q (inject_Z female_count)
      then (base_factor * 1.150)%Q
      else base_factor
    else base_factor in
  mret base_factor.

Definition toggle_benefit_category (config_id : UUID)
    (category : BenefitCategory.t) (is_selected : bool) :
    M (option BenefitSelection.t) :=
  let this := fun r =>
    String.eqb (BenefitSelection.config_id r) config_id
    && bool_decide (BenefitSelection.benefit_category r = category) in
  s ← query;
  match first this (benefit_selection s) with
  | Some _ =>
      modify (with_benefit_selection
        (update_first this (BenefitSelection.set_is_selected is_selected)));;
      if is_selected then
        category_factor ← _calculate_category_factor config_id category;
        modify (with_benefit_selection
          (update_first this (BenefitSelection.set_category_factor category_factor)))
      else
        modify (with_benefit_selection
          (update_first this (BenefitSelection.set_category_factor 1.000%Q)))
  | None => mret tt
  end;;
  commit;;
  s' ← query;
  mret (first this (benefit_selection s')).

Definition update_tc_factor (config_id : UUID) (factor_code option_value : string) :
    M PolicyTCSelection.t :=
  s ← query;
  match first (fun f => String.eqb (TCFactorConfig.factor_code f) factor_code)
          (tc_factor_config s) with
  | None => raise (ValueError ("Invalid factor code: " +:+ factor_code))
  | Some factor =>
  match first (fun o =>
            String.eqb (TCFactorOption.factor_id o) (TCFactorConfig.factor_id factor)
            && String.eqb (TCFactorOption.option_value o) option_value)
          (tc_factor_option s) with
  | None => raise (ValueError ("Invalid option value: " +:+ option_value))
  | Some option =>
      (* check participant-based constraints; [config] is dereferenced only
         behind a bound that is truthy *)
      let config := get config_id s in
      let min_participants := default 0 (TCFactorOption.min_participants option) in
      let max_participants := default 0 (TCFactorOption.max_participants option) in
      below ←
        (if optional_int_bool (TCFactorOption.min_participants option) then
           config ← attr_of config "participant_count";
           mret (PolicyConfig.participant_count config <? min_participants)
         else mret false);
      if below : bool
      then raise (ValueError
             ("Minimum " +:+ str_int min_participants +:+ " participants required"))
      else
      above ←
        (if optional_int_bool (TCFactorOption.max_participants option) then
           config ← attr_of config "participant_count";
           mret (max_participants <? PolicyConfig.participant_count config)
         else mret false);
      if above : bool
      then raise (ValueError
             ("Maximum " +:+ str_int max_participants +:+ " participants allowed"))
      else
        let this := fun r =>
          String.eqb (PolicyTCSelection.config_id r) config_id
          && String.eqb (PolicyTCSelection.factor_id r) (TCFactorConfig.factor_id factor) in
        let assign := fun r =>
          PolicyTCSelection.mk (PolicyTCSelection.config_id r)
            (PolicyTCSelection.factor_id r)
            (Some (TCFactorOption.option_id option))
            (TCFactorOption.multiplier option) in
        (* a row created here receives both attributes before it is flushed *)
        let selection :=
          match first this (policy_tc_selection s) with
          | Some r => assign r
          | None =>
              PolicyTCSelection.mk config_id (TCFactorConfig.factor_id factor)
                (Some (TCFactorOption.option_id option))
                (TCFactorOption.multiplier option)
          end in
        modify (with_policy_tc_selection (fun rows =>
          match first this rows with
          | Some _ => update_first this assign rows
          | None => (rows ++ [selection])%list
          end));;
        commit;;
        mret selection
  end
  end.

(** The sibling query: here a bound is skipped only when it [is None].
    Rows of equal [display_order] are kept in storage order. *)
Definition get_applicable_tc_options (config_id : UUID) (factor_code : string) :
    M (list TCFactorOption.t) :=
  s ← query;
  match first (fun f => String.eqb (TCFactorConfig.factor_code f) factor_code)
          (tc_factor_config s) with
  | None => mret []
  | Some factor =>
      config ← attr_of (get config_id s) "participant_count";
      mret (list_sort Z.ltb TCFactorOption.display_order false
        (List.filter (fun o =>
              String.eqb (TCFactorOption.factor_id o) (TCFactorConfig.factor_id factor)
              && match TCFactorOption.min_participants o with
                 | None => true
                 | Some n => n <=? PolicyConfig.participant_count config
                 end
              && match TCFactorOption.max_participants o with
                 | None => true
                 | Some n => PolicyConfig.participant_count config <=? n
                 end)
            (tc_factor_option s)))
  end.

Definition _get_age_band_multiplier (s : Session) (template_id : UUID) (age : Z)
    (gender : Gender.t) : Decimal :=
  let multiplier :=
    first (fun r =>
             String.eqb (AgeBandMultiplier.template_id r) template_id
             && (AgeBandMultiplier.age_from r <=? age)
             && (age <=? AgeBandMultiplier.age_to r)
             && bool_decide (AgeBandMultiplier.gender r
                             = (if 18 <=? age then gender else Gender.CHILD)))
      (age_band_multiplier s) in
  match multiplier with
  | Some r => AgeBandMultiplier.multiplier r
  | None => 1.000%Q
  end.

Definition _calculate_member_premium (member : PolicyMember.t)
    (config : PolicyConfig.t) : M Decimal :=
  s ← query;
  let age := PolicyMember.age (today s) member in
  let premium :=
    fold_left (fun premium selection =>
      match BenefitSelection.is_selected selection, template s selection with
      | true, Some template =>
          let base_rate :=
            if age <? 18 then
              Decimal_or (ProductTemplate.base_premium_child template) 0%Q
            else if bool_decide (PolicyMember.gender member = Gender.MALE) then
              Decimal_or (ProductTemplate.base_premium_adult_male template) 0%Q
            else
              Decimal_or (ProductTemplate.base_premium_adult_female template) 0%Q in
          let age_multiplier :=
            _get_age_band_multiplier s (ProductTemplate.template_id template) age
              (PolicyMember.gender member) in
          (premium + base_rate * age_multiplier)%Q
      | _, _ => premium
      end) (benefit_selections s config) 0%Q in
  modify (with_policy_member
    (update_first
       (fun m => String.eqb (PolicyMember.member_id m) (PolicyMember.member_id member))
       (PolicyMember.set_base_premium premium)));;
  mret premium.

Definition _calculate_factor_breakdown (s : Session) (config : PolicyConfig.t) :
    FactorBreakdown.t :=
  let factors := FactorBreakdown.mk [] [] 1.000%Q in
  let factors :=
    fold_left (fun factors selection =>
      if BenefitSelection.is_selected selection then
        FactorBreakdown.mk
          (FactorBreakdown.benefit_factors factors
             ++ [(BenefitSelection.benefit_category selection,
                  float (BenefitSelection.category_factor selection))])%list
          (FactorBreakdown.tc_factors factors)
          (FactorBreakdown.total_multiplier factors
             * BenefitSelection.category_factor selection)%Q
      else factors) (benefit_selections s config) factors in
  fold_left (fun factors tc_selection =>
    match factor s tc_selection, option_ s tc_selection with
    | Some f, Some o =>
        FactorBreakdown.mk
          (FactorBreakdown.benefit_factors factors)
          (FactorBreakdown.tc_factors factors
             ++ [(TCFactorConfig.factor_code f,
                  FactorBreakdown.mk_tc_entry (TCFactorConfig.factor_name f)
                    (TCFactorOption.option_label o)
                    (float (PolicyTCSelection.applied_multiplier tc_selection)))])%list
          (FactorBreakdown.total_multiplier factors
             * PolicyTCSelection.applied_multiplier tc_selection)%Q
    | _, _ => factors
    end) (tc_selections s config) factors.

Definition _calculate_admin_fee (config : PolicyConfig.t) (premium : Decimal) : Decimal :=
  let base_fee := 100000%Q in
  let percentage_fee := (premium * 0.05)%Q in
  py_max base_fee percentage_fee.

Definition _calculate_tpa_fee (config : PolicyConfig.t) (premium : Decimal) : Decimal :=
  let per_member_fee := (10000 * inject_Z (PolicyConfig.participant_count config))%Q in
  let min_fee := 100000%Q in
  py_max per_member_fee min_fee.

(** Every number of the log row is rebuilt as [Decimal(str(x))] from a
    float of the result. *)
Definition _save_calculation_log (config : PolicyConfig.t)
    (result : CalculationResult.t) : M unit :=
  s ← query;
  let breakdown := CalculationResult.premium_breakdown result in
  let log :=
    PremiumCalculationLog.mk
      (PolicyConfig.config_id config)
      (PolicyConfig.participant_count config)
      (map (fun r => (BenefitSelection.benefit_category r, BenefitSelection.is_selected r))
         (benefit_selections s config))
      (omap (fun tc =>
               match factor s tc, option_ s tc with
               | Some f, Some o =>
                   Some (TCFactorConfig.factor_code f, TCFactorOption.option_value o)
               | _, _ => None
               end) (tc_selections s config))
      (PremiumBreakdown.base_premium breakdown)
      (CalculationResult.factor_breakdown result)
      (PremiumBreakdown.total_multiplier breakdown)
      (CalculationResult.monthly_premium result)
      (PremiumBreakdown.total_premium breakdown)
      (PremiumBreakdown.admin_fee breakdown)
      (PremiumBreakdown.tpa_fee breakdown)
      (PremiumBreakdown.total_premium breakdown) in
  modify (with_premium_calculation_log (fun rows => rows ++ [log])%list).

Definition calculate_premium (config_id : UUID) (save_calculation : bool) :
    M CalculationResult.t :=
  s ← query;
  match get config_id s with
  | None => raise (ValueError ("Configuration " +:+ config_id +:+ " not found"))
  | Some config =>
      (* Step 1: base premium of every ACTIVE member *)
      '(base_premium_total, member_details) ←
        for_each (members s config) (fun member acc =>
          if bool_decide (PolicyMember.status member <> MemberStatus.ACTIVE) then mret acc
          else
            member_base ← _calculate_member_premium member config;
            mret ((fst acc + member_base)%Q,
                  (snd acc ++
                     [MemberDetail.mk (PolicyMember.member_id member)
                        (PolicyMember.full_name member)
                        (PolicyMember.age (today s) member)
                        (PolicyMember.gender member)
                        (float member_base)])%list))
          (0%Q, []);
      (* Step 2: total factor multiplier *)
      s ← query;
      let factor_breakdown := _calculate_factor_breakdown s config in
      let total_multiplier := FactorBreakdown.total_multiplier factor_breakdown in
      (* Step 3: adjusted premium *)
      let adjusted_premium := (base_premium_total * total_multiplier)%Q in
      (* Step 4: administrative fees *)
      let admin_fee := _calculate_admin_fee config adjusted_premium in
      let tpa_fee := _calculate_tpa_fee config adjusted_premium in
      (* Step 5: final premium, rounded to 2 decimal places *)
      let total_premium := (adjusted_premium + admin_fee + tpa_fee)%Q in
      let total_premium := quantize_ROUND_HALF_UP 2 total_premium in
      (* Step 6: update the configuration *)
      modify (with_policy_config
        (update_first (fun c => String.eqb (PolicyConfig.config_id c) config_id)
           (PolicyConfig.set_totals base_premium_total adjusted_premium total_multiplier)));;
      (* Step 7: the calculation result *)
      let participant_count := PolicyConfig.participant_count config in
      let result :=
        CalculationResult.mk config_id
          (PolicyConfig.company_name config)
          participant_count
          (PolicyConfig.coverage_start config, PolicyConfig.coverage_end config,
           PolicyConfig.coverage_days config)
          (PremiumBreakdown.mk (float base_premium_total) (float total_multiplier)
             (float adjusted_premium) (float admin_fee) (float tpa_fee)
             (float total_premium))
          (float (total_premium / 12)%Q)
          (if 0 <? participant_count
           then float (total_premium / inject_Z participant_count)%Q
           else 0%Q)
          factor_breakdown
          member_details in
      (* Step 8: save the calculation log *)
      (if save_calculation then _save_calculation_log config result else mret tt);;
      commit;;
      mret result
  end.

Definition _validate_configuration (config : PolicyConfig.t) : M unit :=
  s ← query;
  if PolicyConfig.participant_count config <? 5 then
    raise (ValueError "Minimum 5 participants required")
  else
    let has_benefits := existsb BenefitSelection.is_selected (benefit_selections s config) in
    if negb has_benefits then
      raise (ValueError "At least one benefit must be selected")
    else
      let member_count :=
        count (fun m =>
                 String.eqb (PolicyMember.config_id m) (PolicyConfig.config_id config)
                 && bool_decide (PolicyMember.status m = MemberStatus.ACTIVE))
          (policy_member s) in
      if member_count =? 0 then raise (ValueError "No members enrolled")
      else mret tt.

Definition _create_approval_workflow (config : PolicyConfig.t) : M unit :=
  let steps :=
    [("UNDERWRITING", 1, 1000000%Q);
     ("ACTUARIAL", 2, 5000000%Q);
     ("MANAGEMENT", 3, 10000000%Q)] in
  for_each steps (fun '(step_name, step_order, threshold) _ =>
    match PolicyConfig.total_adjusted_premium config with
    | Some total =>
        if Decimal_bool total && Decimal_leb threshold total then
          modify (with_approval_workflow (fun rows =>
            rows ++ [ApprovalWorkflow.mk (PolicyConfig.config_id config) step_name
                       step_order ApprovalStatus.PENDING threshold])%list)
        else mret tt
    | None => mret tt
    end) tt.

(** [config] names one row of the identity map throughout the method, so
    it is read again after [calculate_premium] has written its totals. *)
Definition submit_for_approval (config_id : UUID) (submitted_by : string) :
    M PolicyConfig.t :=
  s ← query;
  config ← attr_of (get config_id s) "status";
  if bool_decide (PolicyConfig.status config <> PolicyStatus.DRAFT) then
    raise (ValueError "Only draft configurations can be submitted for approval")
  else
    _validate_configuration config;;
    calculate_premium config_id true;;
    modify (with_policy_config
      (update_first (fun c => String.eqb (PolicyConfig.config_id c) config_id)
         (PolicyConfig.set_status PolicyStatus.QUOTED)));;
    s ← query;
    config ← attr_of (get config_id s) "total_adjusted_premium";
    _create_approval_workflow config;;
    commit;;
    mret config.

End PricingEngine.

(** *** The T&C endpoint of [api.py] *)

Module Api.

Inductive Response (A : Type) : Type :=
  | OK (body : A)
  | HTTPException (status_code : Z) (detail : string).
Arguments OK {A} body.
Arguments HTTPException {A} status_code detail.

Record TCFactorUpdate : Type := mk_TCFactorUpdate {
  factor_code : string;
  selected_option : string;
  multiplier : Q;
  premium_update : PremiumBreakdown.t }.

(** [POST /configurations/{config_id}/factors/update]: any exception of
    the handler body becomes a 400 carrying [str(e)]. *)
Definition update_tc_factor (config_id : UUID) (factor_code option_value : string)
    (db : Session) : Response TCFactorUpdate * Session :=
  let body : M TCFactorUpdate :=
    selection ← PricingEngine.update_tc_factor config_id factor_code option_value;
    premium_result ← PricingEngine.calculate_premium config_id true;
    s ← query;
    f ← attr_of (factor s selection) "factor_code";
    o ← attr_of (option_ s selection) "option_label";
    mret (mk_TCFactorUpdate (TCFactorConfig.factor_code f)
            (TCFactorOption.option_label o)
            (float (PolicyTCSelection.applied_multiplier selection))
            (CalculationResult.premium_breakdown premium_result)) in
  match body db with
  | Returned response db' => (OK response, db')
  | Raised e => (HTTPException 400 (str_exc e), db)
  end.

End Api.
End Pricing.

(** ** The claims validation engine: [claims_validation_engine_v1.py] *)

Module Validation.

Module ValidationStatus.
Inductive t : Type := PASSED | FAILED | WARNING | PENDING.
#[global] Instance eq_dec : EqDecision t.
Proof. solve_decision. Defined.
End ValidationStatus.

Module BenefitCategory.
Inductive t : Type :=
    | INPATIENT | OUTPATIENT | DENTAL | OPTICAL | MATERNITY
    | EMERGENCY | PREVENTIVE | MENTAL_HEALTH | REHABILITATION.
#[global] Instance eq_dec : EqDecision t.
Proof. solve_decision. Defined.
End BenefitCategory.

Module CoverageType.
Inductive t : Type :=
    | NOT_COVERED | COVERED_STANDARD | COVERED_PER_CASE | COVERED_PER_YEAR
    | COVERED_PER_VISIT | COVERED_PER_DAY | COVERED_IN_SURGERY
    | COVERED_IN_HOSPITAL | COVERED_SEPARATE | COVERED_MEDICAL_IND | COVERED_TC.
End CoverageType.

Module ClaimChannel.
Inductive t : Type := CASHLESS | REIMBURSEMENT.
End ClaimChannel.

(** An f-string, kept as its literal pieces and the values it formats. *)
Inductive Fragment : Type :=
  | Lit (s : string)
  | FStr (s : string)
  | FInt (n : Z)
  | FDecimal (d : Decimal)
  | FDate (d : date)
  | FNone.

Definition fstring : Type := list Fragment.

(** A value of a [details] dictionary; [VStr [FDecimal d]] is [str(d)]. *)
Inductive Value : Type :=
  | VInt (n : Z)
  | VBool (b : bool)
  | VDecimal (d : Decimal)
  | VStr (s : fstring)
  | VList (l : list string)
  | VNone.

Module ValidationResult.
Record t : Type := mk {
    rule_code : string;
    rule_name : string;
    status : ValidationStatus.t;
    message : fstring;
    details : list (string * Value);
    can_override : bool;
    required_authority_level : Z }.

Definition set_rule (code name : string) (self : t) : t :=
    mk code name (status self) (message self) (details self) (can_override self)
       (required_authority_level self).
End ValidationResult.

Module BenefitConfiguration.
Record t : Type := mk {
    benefit_code : string;
    benefit_name : string;
    category : BenefitCategory.t;
    coverage_type : CoverageType.t;
    claim_settlement_pct : Z;
    coinsurance_pct : Z;
    limit_value : option Decimal;
    max_days_per_year : option Z;
    max_visits_per_year : option Z;
    max_cases_per_year : option Z;
    requires_preauth : bool;
    min_age_years : option Z;
    max_age_years : option Z;
    requires_medical_indication : bool;
    waiting_period_days : Z;
    pre_hospitalization_days : option Z;
    post_hospitalization_days : option Z;
    exclusions : list string;
    prerequisites : list string;
    special_conditions : list (string * Value) }.
End BenefitConfiguration.

(** An entry of [previous_claims]: the three keys the engine reads, each
    absent or present. *)
Module PreviousClaim.
Record t : Type := mk {
    hash : option string;
    service_date : option date;
    claim_id : option string }.
End PreviousClaim.

Module ClaimContext.
Record t : Type := mk {
    claim_id : string;
    member_id : string;
    member_age_years : Z;
    plan_id : string;
    benefit_code : string;
    service_date : date;
    admission_date : option date;
    discharge_date : option date;
    provider_id : string;
    diagnosis_codes : list string;
    procedure_codes : list string;
    claimed_amount : Decimal;
    channel : ClaimChannel.t;
    has_preauth : bool;
    preauth_number : option string;
    is_emergency : bool;
    member_since_date : option date;
    previous_claims : list PreviousClaim.t;
    accumulator_balances : gmap string Decimal }.
End ClaimContext.

(** What a call of a validator yields: a value, or the [str(e)] of the
    exception it raised. *)
Inductive Raises (A : Type) : Type :=
  | Return (value : A)
  | Raise (e : string).
Arguments Return {A} value.
Arguments Raise {A} e.

Definition Validator : Type :=
  ClaimContext.t -> BenefitConfiguration.t -> Raises (option ValidationResult.t).

(** An entry of [validation_rules]. *)
Module Rule.
Record t : Type := mk { name : string; function : Validator }.
End Rule.

Module ClaimsValidationEngine.

Section WithDigest.

(** [hashlib.sha256(s.encode()).hexdigest()]. *)
Variable sha256_hexdigest : fstring -> string.

(** *** Helper functions *)

Definition _generate_claim_hash (context : ClaimContext.t) : string :=
  let hash_input :=
    [FStr (ClaimContext.member_id context); Lit "_";
     FStr (ClaimContext.benefit_code context); Lit "_";
     FDate (ClaimContext.service_date context); Lit "_";
     FDecimal (ClaimContext.claimed_amount context)] in
  sha256_hexdigest hash_input.

Definition _check_prerequisite_met (context : ClaimContext.t) (prerequisite : string) :
    bool := true.

Definition calculate_allowed_amount (context : ClaimContext.t)
    (benefit : BenefitConfiguration.t) : Decimal :=
  let allowed :=
    py_min (ClaimContext.claimed_amount context)
      (Decimal_or (BenefitConfiguration.limit_value benefit)
         (ClaimContext.claimed_amount context)) in
  (allowed * Decimal_of_int (BenefitConfiguration.claim_settlement_pct benefit)
   / Decimal_of_int 100)%Q.

Definition is_failed_or_pending (r : ValidationResult.t) : bool :=
  bool_decide (ValidationResult.status r = ValidationStatus.FAILED)
  || bool_decide (ValidationResult.status r = ValidationStatus.PENDING).

Definition get_pend_reasons (validation_results : list ValidationResult.t) :
    list fstring :=
  map ValidationResult.message (List.filter is_failed_or_pending validation_results).

Definition can_auto_adjudicate (validation_results : list ValidationResult.t) : bool :=
  negb (existsb is_failed_or_pending validation_results).

(** *** Validation functions *)

Definition result (status : ValidationStatus.t) (message : fstring)
    (details : list (string * Value)) (can_override : bool)
    (required_authority_level : Z) : ValidationResult.t :=
  ValidationResult.mk "" "" status message details can_override
    required_authority_level.

Definition _validate_age_eligibility (context : ClaimContext.t)
    (benefit : BenefitConfiguration.t) : option ValidationResult.t :=
  let age := ClaimContext.member_age_years context in
  let min_age := default 0 (BenefitConfiguration.min_age_years benefit) in
  let max_age := default 0 (BenefitConfiguration.max_age_years benefit) in
  if optional_int_bool (BenefitConfiguration.min_age_years benefit) && (age <? min_age)
  then Some (result ValidationStatus.FAILED
         [Lit "Member age "; FInt age; Lit " is below minimum age "; FInt min_age]
         [("member_age", VInt age); ("min_age", VInt min_age)] false 0)
  else if optional_int_bool (BenefitConfiguration.max_age_years benefit)
          && (max_age <? age)
  then Some (result ValidationStatus.FAILED
         [Lit "Member age "; FInt age; Lit " exceeds maximum age "; FInt max_age]
         [("member_age", VInt age); ("max_age", VInt max_age)] false 0)
  else None.

Definition _validate_waiting_period (context : ClaimContext.t)
    (benefit : BenefitConfiguration.t) : option ValidationResult.t :=
  let waiting := BenefitConfiguration.waiting_period_days benefit in
  match ClaimContext.member_since_date context with
  | Some member_since =>
      if 0 <? waiting then
        let days_as_member :=
          days_between (ClaimContext.service_date context) member_since in
        if days_as_member <? waiting then
          Some (result ValidationStatus.FAILED
            [Lit "Waiting period not met. Required: "; FInt waiting;
             Lit " days, Actual: "; FInt days_as_member; Lit " days"]
            [("waiting_period_days", VInt waiting);
             ("days_as_member", VInt days_as_member)] false 0)
        else None
      else None
  | None => None
  end.

Definition _validate_annual_limit (context : ClaimContext.t)
    (benefit : BenefitConfiguration.t) : option ValidationResult.t :=
  match BenefitConfiguration.limit_value benefit with
  | Some limit_value =>
      if Decimal_bool limit_value then
        let used_amount :=
          default 0%Q
            (ClaimContext.accumulator_balances context
               !! (BenefitConfiguration.benefit_code benefit +:+ "_annual")) in
        let remaining := (limit_value - used_amount)%Q in
        let claimed := ClaimContext.claimed_amount context in
        if Decimal_ltb remaining claimed then
          Some (result
            (if Decimal_leb remaining 0%Q then ValidationStatus.FAILED
             else ValidationStatus.WARNING)
            [Lit "Annual limit ";
             Lit (if Decimal_leb remaining 0%Q then "exceeded" else "will be exceeded");
             Lit ". Limit: "; FDecimal limit_value; Lit ", Used: "; FDecimal used_amount;
             Lit ", Claimed: "; FDecimal claimed]
            [("annual_limit", VStr [FDecimal limit_value]);
             ("used_amount", VStr [FDecimal used_amount]);
             ("remaining", VStr [FDecimal remaining]);
             ("claimed_amount", VStr [FDecimal claimed])]
            true 2)
        else None
      else None
  | None => None
  end.

Definition _validate_preauthorization (context : ClaimContext.t)
    (benefit : BenefitConfiguration.t) : option ValidationResult.t :=
  if BenefitConfiguration.requires_preauth benefit
     && negb (ClaimContext.is_emergency context)
  then
    if negb (ClaimContext.has_preauth context) then
      Some (result ValidationStatus.FAILED
        [Lit "Pre-authorization required but not provided"]
        [("requires_preauth", VBool true); ("has_preauth", VBool false)] true 3)
    else None
  else None.

Definition _validate_medical_indication (context : ClaimContext.t)
    (benefit : BenefitConfiguration.t) : option ValidationResult.t :=
  if BenefitConfiguration.requires_medical_indication benefit then
    match ClaimContext.diagnosis_codes context with
    | [] =>
        Some (result ValidationStatus.FAILED
          [Lit "Medical indication required but no diagnosis provided"]
          [("requires_medical_indication", VBool true)] false 0)
    | _ =>
        if String.prefix "CIRC" (BenefitConfiguration.benefit_code benefit) then
          let valid_diagnoses := ["N47.0"; "N47.1"; "Z41.2"] in
          if negb (existsb (fun diag => existsb (String.eqb diag) valid_diagnoses)
                     (ClaimContext.diagnosis_codes context))
          then
            Some (result ValidationStatus.FAILED
              [Lit "Medical indication not met for circumcision"]
              [("diagnosis_codes", VList (ClaimContext.diagnosis_codes context));
               ("required_diagnoses", VList valid_diagnoses)] false 0)
          else None
        else None
    end
  else None.

Definition _validate_exclusions (context : ClaimContext.t)
    (benefit : BenefitConfiguration.t) : option ValidationResult.t :=
  match first (fun diagnosis =>
                 existsb (String.eqb diagnosis) (BenefitConfiguration.exclusions benefit))
          (ClaimContext.diagnosis_codes context) with
  | Some diagnosis =>
      Some (result ValidationStatus.FAILED
        [Lit "Diagnosis "; FStr diagnosis; Lit " is excluded from coverage"]
        [("excluded_diagnosis", VStr [FStr diagnosis])] false 0)
  | None => None
  end.

Definition _validate_channel (context : ClaimContext.t)
    (benefit : BenefitConfiguration.t) : option ValidationResult.t := None.

Definition optional_string (o : option string) : Fragment :=
  match o with
  | Some s => FStr s
  | None => FNone
  end.

Definition _validate_duplicate (context : ClaimContext.t)
    (benefit : BenefitConfiguration.t) : option ValidationResult.t :=
  let claim_hash := _generate_claim_hash context in
  let days_diff := fun prev_claim =>
    days_between (ClaimContext.service_date context)
      (default (ClaimContext.service_date context)
         (PreviousClaim.service_date prev_claim)) in
  match first (fun prev_claim =>
                 match PreviousClaim.hash prev_claim with
                 | Some h => String.eqb h claim_hash
                 | None => false
                 end
                 && (Z.abs (days_diff prev_claim) <? 30))
          (ClaimContext.previous_claims context) with
  | Some prev_claim =>
      Some (result ValidationStatus.WARNING
        [Lit "Potential duplicate claim detected. Previous claim: ";
         optional_string (PreviousClaim.claim_id prev_claim)]
        [("previous_claim_id", VStr [optional_string (PreviousClaim.claim_id prev_claim)]);
         ("days_difference", VInt (days_diff prev_claim))] true 2)
  | None => None
  end.

Definition _validate_prerequisites (context : ClaimContext.t)
    (benefit : BenefitConfiguration.t) : option ValidationResult.t :=
  match first (fun prereq => negb (_check_prerequisite_met context prereq))
          (BenefitConfiguration.prerequisites benefit) with
  | Some prereq =>
      Some (result ValidationStatus.FAILED
        [Lit "Prerequisite benefit "; FStr prereq; Lit " not met"]
        [("missing_prerequisite", VStr [FStr prereq])] false 0)
  | None => None
  end.

(** The validators the source leaves as placeholders return [None]. *)
Definition _validate_accumulators (context : ClaimContext.t)
    (benefit : BenefitConfiguration.t) : option ValidationResult.t := None.
Definition _validate_room_upgrade (context : ClaimContext.t)
    (benefit : BenefitConfiguration.t) : option ValidationResult.t := None.
Definition _validate_surgery_class (context : ClaimContext.t)
    (benefit : BenefitConfiguration.t) : option ValidationResult.t := None.
Definition _validate_icu_limits (context : ClaimContext.t)
    (benefit : BenefitConfiguration.t) : option ValidationResult.t := None.
Definition _validate_recovery_period (context : ClaimContext.t)
    (benefit : BenefitConfiguration.t) : option ValidationResult.t := None.
Definition _validate_package_benefits (context : ClaimContext.t)
    (benefit : BenefitConfiguration.t) : option ValidationResult.t := None.
Definition _validate_referral (context : ClaimContext.t)
    (benefit : BenefitConfiguration.t) : option ValidationResult.t := None.
Definition _validate_maternity (context : ClaimContext.t)
    (benefit : BenefitConfiguration.t) : option ValidationResult.t := None.
Definition _validate_dental_class (context : ClaimContext.t)
    (benefit : BenefitConfiguration.t) : option ValidationResult.t := None.
Definition _validate_optical_cycle (context : ClaimContext.t)
    (benefit : BenefitConfiguration.t) : option ValidationResult.t := None.
Definition _validate_mental_health (context : ClaimContext.t)
    (benefit : BenefitConfiguration.t) : option ValidationResult.t := None.
Definition _validate_aso_funds (context : ClaimContext.t)
    (benefit : BenefitConfiguration.t) : option ValidationResult.t := None.
Definition _validate_buffer_funds (context : ClaimContext.t)
    (benefit : BenefitConfiguration.t) : option ValidationResult.t := None.

Definition _validate_pre_post_hosp (context : ClaimContext.t)
    (benefit : BenefitConfiguration.t) : option ValidationResult.t :=
  let service_date := ClaimContext.service_date context in
  let pre :=
    match BenefitConfiguration.pre_hospitalization_days benefit,
          ClaimContext.admission_date context with
    | Some days, Some admission_date =>
        if int_bool days then
          let pre_hosp_start := date_add_days admission_date (- days) in
          if date_ltb service_date pre_hosp_start then
            Some (result ValidationStatus.FAILED
              [Lit "Service date outside pre-hospitalization window (";
               FInt days; Lit " days)"]
              [("service_date", VStr [FDate service_date]);
               ("admission_date", VStr [FDate admission_date]);
               ("window_start", VStr [FDate pre_hosp_start])] false 0)
          else None
        else None
    | _, _ => None
    end in
  match pre with
  | Some r => Some r
  | None =>
      match BenefitConfiguration.post_hospitalization_days benefit,
            ClaimContext.discharge_date context with
      | Some days, Some discharge_date =>
          if int_bool days then
            let post_hosp_end := date_add_days discharge_date days in
            if date_ltb post_hosp_end service_date then
              Some (result ValidationStatus.FAILED
                [Lit "Service date outside post-hospitalization window (";
                 FInt days; Lit " days)"]
                [("service_date", VStr [FDate service_date]);
                 ("discharge_date", VStr [FDate discharge_date]);
                 ("window_end", VStr [FDate post_hosp_end])] false 0)
            else None
          else None
      | _, _ => None
      end
  end.

Definition _validate_visit_limits (context : ClaimContext.t)
    (benefit : BenefitConfiguration.t) : option ValidationResult.t :=
  match BenefitConfiguration.max_visits_per_year benefit with
  | Some max_visits =>
      if int_bool max_visits then
        let used_visits :=
          default 0%Q
            (ClaimContext.accumulator_balances context
               !! (BenefitConfiguration.benefit_code benefit +:+ "_visits")) in
        if Decimal_leb (inject_Z max_visits) used_visits then
          Some (result ValidationStatus.FAILED
            [Lit "Annual visit limit exceeded. Max: "; FInt max_visits;
             Lit ", Used: "; FDecimal used_visits]
            [("max_visits", VInt max_visits); ("used_visits", VDecimal used_visits)]
            false 0)
        else None
      else None
  | None => None
  end.

Definition _validate_coinsurance (context : ClaimContext.t)
    (benefit : BenefitConfiguration.t) : option ValidationResult.t :=
  let coinsurance_pct := BenefitConfiguration.coinsurance_pct benefit in
  if 0 <? coinsurance_pct then
    let claimed := ClaimContext.claimed_amount context in
    let member_liability :=
      (claimed * Decimal_of_int coinsurance_pct / Decimal_of_int 100)%Q in
    let payer_liability := (claimed - member_liability)%Q in
    Some (result ValidationStatus.PASSED
      [Lit "Coinsurance calculated: Member pays "; FInt coinsurance_pct; Lit "%"]
      [("coinsurance_pct", VInt coinsurance_pct);
       ("member_liability", VStr [FDecimal member_liability]);
       ("payer_liability", VStr [FDecimal payer_liability])] false 0)
  else None.

(** *** The engine *)

Record t : Type := mk { validation_rules : gmap string Rule.t }.

Definition register_rule (self : t) (rule_code rule_name : string)
    (validator_func : Validator) : t :=
  mk (<[rule_code := Rule.mk rule_name validator_func]> (validation_rules self)).

(** A bound method of the engine, as a registered callable. *)
Definition method
    (f : ClaimContext.t -> BenefitConfiguration.t -> option ValidationResult.t) :
    Validator :=
  fun context benefit => Return (f context benefit).

Definition _initialize_rules (self : t) : t :=
  (* Core validations *)
  let self := register_rule self "VAL001" "Age Eligibility" (method _validate_age_eligibility) in
  let self := register_rule self "VAL002" "Waiting Period" (method _validate_waiting_period) in
  let self := register_rule self "VAL003" "Annual Limit" (method _validate_annual_limit) in
  let self := register_rule self "VAL004" "Pre-Authorization" (method _validate_preauthorization) in
  let self := register_rule self "VAL005" "Medical Indication" (method _validate_medical_indication) in
  let self := register_rule self "VAL006" "Exclusions" (method _validate_exclusions) in
  let self := register_rule self "VAL007" "Channel Eligibility" (method _validate_channel) in
  let self := register_rule self "VAL008" "Duplicate Claim" (method _validate_duplicate) in
  let self := register_rule self "VAL009" "Prerequisites" (method _validate_prerequisites) in
  let self := register_rule self "VAL010" "Accumulator Limits" (method _validate_accumulators) in
  (* Inpatient specific *)
  let self := register_rule self "VAL011" "Room Upgrade" (method _validate_room_upgrade) in
  let self := register_rule self "VAL012" "Surgery Classification" (method _validate_surgery_class) in
  let self := register_rule self "VAL013" "Pre/Post Hospitalization" (method _validate_pre_post_hosp) in
  let self := register_rule self "VAL014" "ICU Limits" (method _validate_icu_limits) in
  let self := register_rule self "VAL015" "Recovery Period" (method _validate_recovery_period) in
  (* Outpatient specific *)
  let self := register_rule self "VAL016" "Visit Limits" (method _validate_visit_limits) in
  let self := register_rule self "VAL017" "Package Benefits" (method _validate_package_benefits) in
  let self := register_rule self "VAL018" "Referral Required" (method _validate_referral) in
  (* Special benefits *)
  let self := register_rule self "VAL019" "Maternity Eligibility" (method _validate_maternity) in
  let self := register_rule self "VAL020" "Dental Classification" (method _validate_dental_class) in
  let self := register_rule self "VAL021" "Optical Cycle" (method _validate_optical_cycle) in
  let self := register_rule self "VAL022" "Mental Health Sessions" (method _validate_mental_health) in
  (* Financial controls *)
  let self := register_rule self "VAL023" "ASO Fund Availability" (method _validate_aso_funds) in
  let self := register_rule self "VAL024" "Buffer Fund Check" (method _validate_buffer_funds) in
  register_rule self "VAL025" "Coinsurance Calculation" (method _validate_coinsurance).

(** [ClaimsValidationEngine()]. *)
Definition __init__ : t := _initialize_rules (mk ∅).

Definition _get_applicable_rules (category : BenefitCategory.t)
    (context : ClaimContext.t) : list string :=
  let rules :=
    ["VAL001"; "VAL002"; "VAL003"; "VAL004"; "VAL005"; "VAL006";
     "VAL007"; "VAL008"; "VAL009"; "VAL010"; "VAL023"; "VAL024"; "VAL025"] in
  match category with
  | BenefitCategory.INPATIENT =>
      (rules ++ ["VAL011"; "VAL012"; "VAL013"; "VAL014"; "VAL015"])%list
  | BenefitCategory.OUTPATIENT => (rules ++ ["VAL016"; "VAL017"; "VAL018"])%list
  | BenefitCategory.MATERNITY => (rules ++ ["VAL019"])%list
  | BenefitCategory.DENTAL => (rules ++ ["VAL020"])%list
  | BenefitCategory.OPTICAL => (rules ++ ["VAL021"])%list
  | BenefitCategory.MENTAL_HEALTH => (rules ++ ["VAL022"])%list
  | _ => rules
  end.

(** The validators of the source build a new result on every call, so the
    assignments to [rule_code] and [rule_name] are a record update. *)
Definition _run_validation (rule_code : string) (rule : Rule.t)
    (context : ClaimContext.t) (benefit : BenefitConfiguration.t) :
    option ValidationResult.t :=
  match Rule.function rule context benefit with
  | Return (Some result) =>
      Some (ValidationResult.set_rule rule_code (Rule.name rule) result)
  | Return None => None
  | Raise e =>
      Some (ValidationResult.mk rule_code (Rule.name rule) ValidationStatus.FAILED
              [Lit "Validation error: "; FStr e] [] false 0)
  end.

(** The sort key of [validate_claim]. *)
Definition severity_key (x : ValidationResult.t) : bool * bool * bool :=
  (bool_decide (ValidationResult.status x = ValidationStatus.FAILED),
   bool_decide (ValidationResult.status x = ValidationStatus.WARNING),
   bool_decide (ValidationResult.status x = ValidationStatus.PENDING)).

Definition validate_claim (self : t) (context : ClaimContext.t)
    (benefit : BenefitConfiguration.t) : list ValidationResult.t :=
  let applicable_rules :=
    _get_applicable_rules (BenefitConfiguration.category benefit) context in
  (* one task per applicable rule that is registered *)
  let tasks :=
    omap (fun rule_code =>
            match validation_rules self !! rule_code with
            | Some rule => Some (_run_validation rule_code rule context benefit)
            | None => None
            end) applicable_rules in
  (* collect the results that are not None *)
  let results := omap (fun task => task) tasks in
  (* sort by severity *)
  list_sort bool3_ltb severity_key true results.

End WithDigest.

End ClaimsValidationEngine.
End Validation.

(** * Vocabulary of the properties *)

(** "[y] is [x] rounded half-up to two decimal places": [y] is a whole
    number of hundredths, no further than half a hundredth from [x], and a
    tie is resolved away from zero. *)
Definition rounded_half_up_2dp (x y : Q) : Prop :=
  (exists k : Z, y = k # 100)
  /\ (Qabs (y - x) <= 1 # 200)%Q
  /\ ((Qabs (y - x) == 1 # 200)%Q -> (Qabs x < Qabs y)%Q).

(** Two sessions that differ at most in the [policy_member] table. *)
Definition same_but_members (s s' : Pricing.Session) : Prop :=
  s' = Pricing.with_policy_member (fun _ => Pricing.policy_member s') s.

(** What a successful [calculate_premium] on [config] leaves behind: the
    relations between the numbers of the result, the totals cached on the
    configuration row, and the tables it does not touch. *)
Definition premium_post (config_id : Pricing.UUID) (config : Pricing.PolicyConfig.t)
    (r : Pricing.CalculationResult.t) (s s' : Pricing.Session) : Prop :=
  let pb := Pricing.CalculationResult.premium_breakdown r in
  let pc := Pricing.PolicyConfig.participant_count config in
  Pricing.CalculationResult.participant_count r = pc
  /\ Pricing.PremiumBreakdown.adjusted_premium pb
     = (Pricing.PremiumBreakdown.base_premium pb
        * Pricing.PremiumBreakdown.total_multiplier pb)%Q
  /\ Pricing.PremiumBreakdown.admin_fee pb
     = Pricing.PricingEngine._calculate_admin_fee config
         (Pricing.PremiumBreakdown.adjusted_premium pb)
  /\ Pricing.PremiumBreakdown.tpa_fee pb
     = Pricing.PricingEngine._calculate_tpa_fee config
         (Pricing.PremiumBreakdown.adjusted_premium pb)
  /\ Pricing.PremiumBreakdown.total_premium pb
     = quantize_ROUND_HALF_UP 2
         (Pricing.PremiumBreakdown.adjusted_premium pb
          + Pricing.PremiumBreakdown.admin_fee pb
          + Pricing.PremiumBreakdown.tpa_fee pb)%Q
  /\ Pricing.CalculationResult.monthly_premium r
     = (Pricing.PremiumBreakdown.total_premium pb / 12)%Q
  /\ Pricing.CalculationResult.per_member_average r
     = (if 0 <? pc
        then (Pricing.PremiumBreakdown.total_premium pb / inject_Z pc)%Q
        else 0%Q)
  /\ Pricing.get config_id s'
     = Some (Pricing.PolicyConfig.set_totals
               (Pricing.PremiumBreakdown.base_premium pb)
               (Pricing.PremiumBreakdown.adjusted_premium pb)
               (Pricing.PremiumBreakdown.total_multiplier pb) config)
  /\ Pricing.today s' = Pricing.today s
  /\ Pricing.tc_factor_config s' = Pricing.tc_factor_config s
  /\ Pricing.tc_factor_option s' = Pricing.tc_factor_option s
  /\ Pricing.benefit_selection s' = Pricing.benefit_selection s
  /\ Pricing.policy_tc_selection s' = Pricing.policy_tc_selection s
  /\ Pricing.approval_workflow s' = Pricing.approval_workflow s.

(** The conditions of the submission gate, read off the tables. *)
Definition has_selected_benefit (s : Pricing.Session) (config_id : Pricing.UUID) : Prop :=
  exists r, In r (Pricing.benefit_selection s)
            /\ Pricing.BenefitSelection.config_id r = config_id
            /\ Pricing.BenefitSelection.is_selected r = true.

Definition has_active_member (s : Pricing.Session) (config_id : Pricing.UUID) : Prop :=
  exists m, In m (Pricing.policy_member s)
            /\ Pricing.PolicyMember.config_id m = config_id
            /\ Pricing.PolicyMember.status m = Pricing.MemberStatus.ACTIVE.

Definition submission_violation (s : Pricing.Session) (config : Pricing.PolicyConfig.t) :
    Prop :=
  Pricing.PolicyConfig.status config <> Pricing.PolicyStatus.DRAFT
  \/ Pricing.PolicyConfig.participant_count config < 5
  \/ ~ has_selected_benefit s (Pricing.PolicyConfig.config_id config)
  \/ ~ has_active_member s (Pricing.PolicyConfig.config_id config).

(** ** Sample data *)

(** Scenario S1 of the specification: ten ACTIVE employees aged 30 to 40,
    INPATIENT and OUTPATIENT selected with the small-group factor, every
    base rate 1 000 000 and no age-band row. *)
Module S1.
Import Pricing.

Definition config : PolicyConfig.t :=
  PolicyConfig.mk "cfg-1" "Q202506010001" "Acme" 10 (mk_date 2025 1 1)
    (mk_date 2025 12 31) PolicyStatus.DRAFT None None None.

Definition a_template (id : UUID) (category : BenefitCategory.t) : ProductTemplate.t :=
  ProductTemplate.mk id id category (Some 1000000.00%Q) (Some 1000000.00%Q)
    (Some 1000000.00%Q).

Definition employee (n : Z) (gender : Gender.t) (birth_year : Z)
    (status : MemberStatus.t) : PolicyMember.t :=
  PolicyMember.mk ("m-" +:+ str_int n) "cfg-1" n ("Member " +:+ str_int n)
    (mk_date birth_year 3 15) gender MemberType.EMPLOYEE status None.

Definition selections : list BenefitSelection.t :=
  [BenefitSelection.mk "cfg-1" BenefitCategory.INPATIENT (Some "IP-1000") true 1.500%Q;
   BenefitSelection.mk "cfg-1" BenefitCategory.OUTPATIENT (Some "OP-500") true 1.500%Q;
   BenefitSelection.mk "cfg-1" BenefitCategory.DENTAL None false 1.000%Q;
   BenefitSelection.mk "cfg-1" BenefitCategory.MATERNITY None false 1.000%Q;
   BenefitSelection.mk "cfg-1" BenefitCategory.OPTICAL None false 1.000%Q;
   BenefitSelection.mk "cfg-1" BenefitCategory.ASO None false 1.000%Q].

Definition session : Session :=
  mk_Session (mk_date 2025 6 1) [config]
    [a_template "IP-1000" BenefitCategory.INPATIENT;
     a_template "OP-500" BenefitCategory.OUTPATIENT]
    [] [] [] selections []
    [employee 1 Gender.MALE 1990 MemberStatus.ACTIVE;
     employee 2 Gender.MALE 1991 MemberStatus.ACTIVE;
     employee 3 Gender.MALE 1992 MemberStatus.ACTIVE;
     employee 4 Gender.MALE 1993 MemberStatus.ACTIVE;
     employee 5 Gender.MALE 1994 MemberStatus.ACTIVE;
     employee 6 Gender.FEMALE 1986 MemberStatus.ACTIVE;
     employee 7 Gender.FEMALE 1987 MemberStatus.ACTIVE;
     employee 8 Gender.FEMALE 1988 MemberStatus.ACTIVE;
     employee 9 Gender.FEMALE 1989 MemberStatus.ACTIVE;
     employee 10 Gender.FEMALE 1990 MemberStatus.ACTIVE]
    [] [].

(** A configuration that nobody has joined yet. *)
Definition empty_config : PolicyConfig.t :=
  PolicyConfig.mk "cfg-0" "Q202506010002" "Nobody" 0 (mk_date 2025 1 1)
    (mk_date 2025 12 31) PolicyStatus.DRAFT None None None.

Definition empty_session : Session :=
  mk_Session (mk_date 2025 6 1) [empty_config] [] [] [] [] [] [] [] [] [].

End S1.

(** Ten ACTIVE men and five TERMINATED women aged 30, MATERNITY not yet
    selected: no ACTIVE woman is enrolled. *)
Module TerminatedWomen.
Import Pricing.

Definition session : Session :=
  mk_Session (mk_date 2025 6 1) [S1.config] [] [] [] [] S1.selections []
    (map (fun n => S1.employee n Gender.MALE 1985 MemberStatus.ACTIVE)
       [1; 2; 3; 4; 5; 6; 7; 8; 9; 10]
     ++ map (fun n => S1.employee n Gender.FEMALE 1995 MemberStatus.TERMINATED)
          [11; 12; 13; 14; 15])%list
    [] [].

(** The members the specification counts for the maternity loading. *)
Definition active_female_18_45 (config_id : UUID) (today : date)
    (m : PolicyMember.t) : bool :=
  PricingEngine.female_18_45 config_id today m
  && bool_decide (PolicyMember.status m = MemberStatus.ACTIVE).

End TerminatedWomen.

(** A twenty-participant configuration and a T&C factor with three
    options: one without bounds, one for fifty participants and more
    (scenario S3), and one whose upper bound is stored as zero. *)
Module Network.
Import Pricing.

Definition config : PolicyConfig.t :=
  PolicyConfig.mk "cfg-20" "Q202506010020" "Twenty" 20 (mk_date 2025 1 1)
    (mk_date 2025 12 31) PolicyStatus.DRAFT None None None.

Definition tc_factor : TCFactorConfig.t :=
  TCFactorConfig.mk "F-NET" "NETWORK" "PROVIDER" "Provider network" true 1.

Definition standard : TCFactorOption.t :=
  TCFactorOption.mk "O-STD" "F-NET" "STANDARD" "Standard network" 1.100%Q true
    None None 1.

Definition large_group : TCFactorOption.t :=
  TCFactorOption.mk "O-LRG" "F-NET" "LARGE" "Large-group network" 0.950%Q false
    (Some 50) None 2.

Definition zero_max : TCFactorOption.t :=
  TCFactorOption.mk "O-ZERO" "F-NET" "CLOSED" "Closed network" 0.900%Q false
    None (Some 0) 3.

Definition session : Session :=
  mk_Session (mk_date 2025 6 1) [config] [] [] [tc_factor]
    [standard; large_group; zero_max] [] [] [] [] [].

End Network.

(** The upper bound of a T&C option as the specification words it: a
    change to [option] is refused whenever max_participants is set and
    participant_count exceeds it. *)
Definition upper_bound_enforced (s : Pricing.Session) (config_id : Pricing.UUID)
    (factor_code : string) (option : Pricing.TCFactorOption.t)
    (config : Pricing.PolicyConfig.t) : Prop :=
  forall max_participants,
    Pricing.TCFactorOption.max_participants option = Some max_participants ->
    max_participants < Pricing.PolicyConfig.participant_count config ->
    exists msg,
      Pricing.PricingEngine.update_tc_factor config_id factor_code
        (Pricing.TCFactorOption.option_value option) s
      = Pricing.Raised (Pricing.ValueError msg).

(** The selection row that [update_tc_factor] writes for [option]. *)
Definition selects (selection : Pricing.PolicyTCSelection.t)
    (config_id : Pricing.UUID) (factor : Pricing.TCFactorConfig.t)
    (option : Pricing.TCFactorOption.t) : Prop :=
  Pricing.PolicyTCSelection.config_id selection = config_id
  /\ Pricing.PolicyTCSelection.factor_id selection = Pricing.TCFactorConfig.factor_id factor
  /\ Pricing.PolicyTCSelection.option_id selection
     = Some (Pricing.TCFactorOption.option_id option)
  /\ Pricing.PolicyTCSelection.applied_multiplier selection
     = Pricing.TCFactorOption.multiplier option.

(** The key of a T&C selection: configuration and factor. *)
Definition this_tc (config_id : Pricing.UUID) (factor : Pricing.TCFactorConfig.t)
    (r : Pricing.PolicyTCSelection.t) : bool :=
  String.eqb (Pricing.PolicyTCSelection.config_id r) config_id
  && String.eqb (Pricing.PolicyTCSelection.factor_id r)
       (Pricing.TCFactorConfig.factor_id factor).

(** The order the specification gives to results: FAILED, then WARNING,
    then PENDING, then PASSED, and by rule code within a status. *)
Definition tier (status : Validation.ValidationStatus.t) : nat :=
  match status with
  | Validation.ValidationStatus.FAILED => 0
  | Validation.ValidationStatus.WARNING => 1
  | Validation.ValidationStatus.PENDING => 2
  | Validation.ValidationStatus.PASSED => 3
  end.

Definition result_order (r1 r2 : Validation.ValidationResult.t) : Prop :=
  (tier (Validation.ValidationResult.status r1)
   < tier (Validation.ValidationResult.status r2))%nat
  \/ (Validation.ValidationResult.status r1 = Validation.ValidationResult.status r2
      /\ String.ltb (Validation.ValidationResult.rule_code r1)
           (Validation.ValidationResult.rule_code r2) = true).

(** Results of one status come in the order of their codes. *)
Definition code_order (r1 r2 : Validation.ValidationResult.t) : Prop :=
  Validation.ValidationResult.status r1 = Validation.ValidationResult.status r2 ->
  String.ltb (Validation.ValidationResult.rule_code r1)
    (Validation.ValidationResult.rule_code r2) = true.

Definition has_status (status : Validation.ValidationStatus.t)
    (r : Validation.ValidationResult.t) : bool :=
  bool_decide (Validation.ValidationResult.status r = status).

(** The statuses a validator of the source can return, by rule code; a
    placeholder returns nothing. *)
Definition outcomes (rule_code : string) : list Validation.ValidationStatus.t :=
  if existsb (String.eqb rule_code)
       ["VAL001"; "VAL002"; "VAL004"; "VAL005"; "VAL006"; "VAL009"; "VAL013"; "VAL016"]
  then [Validation.ValidationStatus.FAILED]
  else if String.eqb rule_code "VAL003"
  then [Validation.ValidationStatus.FAILED; Validation.ValidationStatus.WARNING]
  else if String.eqb rule_code "VAL008" then [Validation.ValidationStatus.WARNING]
  else if String.eqb rule_code "VAL025" then [Validation.ValidationStatus.PASSED]
  else [].

(** No two rules of [codes] that can return the same status are listed
    against the order of their codes. *)
Fixpoint codes_compatible (codes : list string) : bool :=
  match codes with
  | [] => true
  | c :: rest =>
      forallb (fun c' =>
                 forallb (fun status =>
                            negb (existsb (fun status' => bool_decide (status = status'))
                                    (outcomes c'))
                            || String.ltb c c')
                   (outcomes c))
        rest
      && codes_compatible rest
  end.

(** The results of [validate_claim] before they are sorted: one per
    registered rule of [codes] that returns or raises. *)
Definition collected (self : Validation.ClaimsValidationEngine.t)
    (ctx : Validation.ClaimContext.t) (b : Validation.BenefitConfiguration.t)
    (codes : list string) : list Validation.ValidationResult.t :=
  omap (fun task => task)
    (omap (fun rule_code =>
             match Validation.ClaimsValidationEngine.validation_rules self !! rule_code with
             | Some rule =>
                 Some (Validation.ClaimsValidationEngine._run_validation rule_code rule
                         ctx b)
             | None => None
             end) codes).

(** The claim and the benefit of the usage example that closes the
    source file, and variations of them. *)
Module Sample.
Import Validation.

Definition benefit_with (limit_value : option Decimal) : BenefitConfiguration.t :=
  BenefitConfiguration.mk "IP_ROOM" "Room & Board" BenefitCategory.INPATIENT
    CoverageType.COVERED_PER_DAY 100 20 limit_value (Some 365) None None true
    (Some 0) (Some 65) false 30 None None [] [] [].

Definition benefit : BenefitConfiguration.t := benefit_with (Some 2000000%Q).

Definition context_with (claimed_amount : Decimal) (used_annual : Decimal) :
    ClaimContext.t :=
  ClaimContext.mk "CLM-2025-001234" "MEM-001" 35 "PLAN-GOLD-2025" "IP_ROOM"
    (mk_date 2025 8 15) None None "PROV-001" ["J18.9"] [] claimed_amount
    ClaimChannel.CASHLESS true (Some "PA-2025-001") false (Some (mk_date 2025 1 1)) []
    (<["IP_ROOM_annual" := used_annual]> (<["IP_ROOM_visits" := 10%Q]> ∅)).

Definition context : ClaimContext.t := context_with 1500000%Q 5000000%Q.

(** A stand-in for SHA-256 where a digest has to be computed. *)
Definition no_digest (input : fstring) : string := "".

(** The engine of the source with the channel rule replaced by one that
    raises. *)
Definition raising_rule : Validator := fun _ _ => Raise "facility_mode".

Definition engine_with_raising_rule : ClaimsValidationEngine.t :=
  ClaimsValidationEngine.register_rule (ClaimsValidationEngine.__init__ no_digest)
    "VAL007" "Channel Eligibility" raising_rule.

(** The engine of the source with the ASO placeholder replaced by a rule
    that fails. *)
Definition failing_rule : Validator := fun _ _ =>
  Return (Some (ClaimsValidationEngine.result ValidationStatus.FAILED
                  [Lit "ASO fund exhausted"] [] false 0)).

Definition engine_with_failing_aso : ClaimsValidationEngine.t :=
  ClaimsValidationEngine.register_rule (ClaimsValidationEngine.__init__ no_digest)
    "VAL023" "ASO Fund Availability" failing_rule.

End Sample.

(** The annual-limit rule as the specification words it: with a limit
    set, FAILED whenever used_amount >= limit_value, and otherwise WARNING
    with override at authority level 2 whenever claimed_amount exceeds
    the remainder. *)
Definition annual_limit_as_stated (ctx : Validation.ClaimContext.t)
    (b : Validation.BenefitConfiguration.t) : Prop :=
  forall limit_value,
    Validation.BenefitConfiguration.limit_value b = Some limit_value ->
    let used_amount :=
      default 0%Q
        (Validation.ClaimContext.accumulator_balances ctx
           !! (Validation.BenefitConfiguration.benefit_code b +:+ "_annual")) in
    let rule := Validation.ClaimsValidationEngine._validate_annual_limit ctx b in
    ((limit_value <= used_amount)%Q ->
     exists r, rule = Some r
               /\ Validation.ValidationResult.status r = Validation.ValidationStatus.FAILED)
    /\ ((used_amount < limit_value)%Q ->
        (limit_value - used_amount < Validation.ClaimContext.claimed_amount ctx)%Q ->
        exists r, rule = Some r
                  /\ Validation.ValidationResult.status r
                     = Validation.ValidationStatus.WARNING
                  /\ Validation.ValidationResult.can_override r = true
                  /\ Validation.ValidationResult.required_authority_level r = 2).

(** ** Vocabulary of the further properties *)

(** The premium [_calculate_member_premium] computes for [member] in
    session [s]. *)
Definition member_premium (s : Pricing.Session) (config : Pricing.PolicyConfig.t)
    (member : Pricing.PolicyMember.t) : Decimal :=
  match Pricing.PricingEngine._calculate_member_premium member config s with
  | Pricing.Returned premium _ => premium
  | Pricing.Raised _ => 0%Q
  end.

(** A member row with status ACTIVE. *)
Definition is_active (m : Pricing.PolicyMember.t) : bool :=
  bool_decide (Pricing.PolicyMember.status m = Pricing.MemberStatus.ACTIVE).

(** The ACTIVE members of a configuration, in storage order. *)
Definition active_members (s : Pricing.Session) (config : Pricing.PolicyConfig.t) :
    list Pricing.PolicyMember.t :=
  List.filter is_active (Pricing.members s config).

(** Sum of [f] over a list, accumulated from the left as a Python loop
    does. *)
Definition sum_of {A : Type} (f : A -> Decimal) (l : list A) : Decimal :=
  fold_left (fun acc x => (acc + f x)%Q) l 0%Q.

(** Product of a list of factors, accumulated from the right. *)
Definition product_of (l : list Decimal) : Decimal :=
  fold_right Qmult 1%Q l.

(** Two member rows that differ at most in the stored premium. *)
Definition same_person (m m' : Pricing.PolicyMember.t) : Prop :=
  Pricing.PolicyMember.set_base_premium 0%Q m
  = Pricing.PolicyMember.set_base_premium 0%Q m'.

(** A T&C selection whose factor and option both resolve. *)
Definition resolves (s : Pricing.Session) (tc : Pricing.PolicyTCSelection.t) : bool :=
  match Pricing.factor s tc, Pricing.option_ s tc with
  | Some _, Some _ => true
  | _, _ => false
  end.

(** Two sessions with the same clock and the same catalog and selection
    tables. *)
Definition same_pricing_inputs (s s' : Pricing.Session) : Prop :=
  Pricing.today s' = Pricing.today s
  /\ Pricing.product_template s' = Pricing.product_template s
  /\ Pricing.age_band_multiplier s' = Pricing.age_band_multiplier s
  /\ Pricing.tc_factor_config s' = Pricing.tc_factor_config s
  /\ Pricing.tc_factor_option s' = Pricing.tc_factor_option s
  /\ Pricing.benefit_selection s' = Pricing.benefit_selection s
  /\ Pricing.policy_tc_selection s' = Pricing.policy_tc_selection s.

(** The entry of [member_details] that [calculate_premium] builds for
    [member]. *)
Definition member_detail (s : Pricing.Session) (config : Pricing.PolicyConfig.t)
    (member : Pricing.PolicyMember.t) : Pricing.MemberDetail.t :=
  Pricing.MemberDetail.mk (Pricing.PolicyMember.member_id member)
    (Pricing.PolicyMember.full_name member)
    (Pricing.PolicyMember.age (Pricing.today s) member)
    (Pricing.PolicyMember.gender member)
    (float (member_premium s config member)).

(** The write of [_calculate_member_premium] to the member table, done for
    the ACTIVE members only: the first row with the member's id receives
    the premium. *)
Definition store_premium (s : Pricing.Session) (config : Pricing.PolicyConfig.t)
    (rows : list Pricing.PolicyMember.t) (member : Pricing.PolicyMember.t) :
    list Pricing.PolicyMember.t :=
  if is_active member then
    update_first
      (fun m => String.eqb (Pricing.PolicyMember.member_id m)
                  (Pricing.PolicyMember.member_id member))
      (Pricing.PolicyMember.set_base_premium (member_premium s config member)) rows
  else rows.

(** The values and the writes of a successful [calculate_premium], beyond
    [premium_post]: where the two factors of the adjusted premium come
    from, and what happens to each table. *)
Definition premium_effects (config_id : Pricing.UUID) (save_calculation : bool)
    (config : Pricing.PolicyConfig.t) (r : Pricing.CalculationResult.t)
    (s s' : Pricing.Session) : Prop :=
  let pb := Pricing.CalculationResult.premium_breakdown r in
  Pricing.CalculationResult.config_id r = config_id
  /\ Pricing.CalculationResult.company_name r = Pricing.PolicyConfig.company_name config
  /\ Pricing.CalculationResult.coverage_period r
     = (Pricing.PolicyConfig.coverage_start config, Pricing.PolicyConfig.coverage_end config,
        Pricing.PolicyConfig.coverage_days config)
  /\ Pricing.CalculationResult.factor_breakdown r
     = Pricing.PricingEngine._calculate_factor_breakdown s config
  /\ Pricing.CalculationResult.member_details r
     = map (member_detail s config) (active_members s config)
  /\ Pricing.PremiumBreakdown.base_premium pb
     = sum_of (member_premium s config) (active_members s config)
  /\ Pricing.PremiumBreakdown.total_multiplier pb
     = Pricing.FactorBreakdown.total_multiplier
         (Pricing.PricingEngine._calculate_factor_breakdown s config)
  /\ same_pricing_inputs s s'
  /\ List.Forall2 same_person (Pricing.policy_member s) (Pricing.policy_member s')
  /\ Pricing.policy_member s'
     = fold_left (store_premium s config) (Pricing.members s config)
         (Pricing.policy_member s)
  /\ Pricing.policy_config s'
     = update_first (fun c => String.eqb (Pricing.PolicyConfig.config_id c) config_id)
         (Pricing.PolicyConfig.set_totals
            (Pricing.PremiumBreakdown.base_premium pb)
            (Pricing.PremiumBreakdown.adjusted_premium pb)
            (Pricing.PremiumBreakdown.total_multiplier pb))
         (Pricing.policy_config s)
  /\ Pricing.approval_workflow s' = Pricing.approval_workflow s
  /\ (if save_calculation
      then exists row,
             Pricing.premium_calculation_log s'
             = (Pricing.premium_calculation_log s ++ [row])%list
             /\ Pricing.PremiumCalculationLog.config_id row
                = Pricing.PolicyConfig.config_id config
             /\ Pricing.PremiumCalculationLog.total_premium row
                = Pricing.PremiumBreakdown.total_premium pb
      else Pricing.premium_calculation_log s' = Pricing.premium_calculation_log s).

(** The templates a member is priced on: those of the selected benefit
    rows of the configuration that have one, in storage order. *)
Definition priced_templates (s : Pricing.Session) (config : Pricing.PolicyConfig.t) :
    list Pricing.ProductTemplate.t :=
  omap (fun selection =>
          if Pricing.BenefitSelection.is_selected selection
          then Pricing.template s selection else None)
    (Pricing.benefit_selections s config).

(** What one template contributes to the premium of [member]: the rate
    [ProductTemplate.get_base_premium] gives, times the age-band
    multiplier. *)
Definition member_rate (s : Pricing.Session) (member : Pricing.PolicyMember.t)
    (template : Pricing.ProductTemplate.t) : Decimal :=
  let age := Pricing.PolicyMember.age (Pricing.today s) member in
  let gender := Pricing.PolicyMember.gender member in
  (Pricing.ProductTemplate.get_base_premium template gender age
   * Pricing.PricingEngine._get_age_band_multiplier s
       (Pricing.ProductTemplate.template_id template) age gender)%Q.

(** The category factors of the selected benefit rows. *)
Definition selected_factors (s : Pricing.Session) (config : Pricing.PolicyConfig.t) :
    list Decimal :=
  map Pricing.BenefitSelection.category_factor
    (List.filter Pricing.BenefitSelection.is_selected (Pricing.benefit_selections s config)).

(** The multipliers of the T&C selections that resolve. *)
Definition applied_multipliers (s : Pricing.Session) (config : Pricing.PolicyConfig.t) :
    list Decimal :=
  map Pricing.PolicyTCSelection.applied_multiplier
    (List.filter (resolves s) (Pricing.tc_selections s config)).

(** The member row after [calculate_premium]: an ACTIVE member of the
    configuration has its premium stored, any other row is as before. *)
Definition stores_premium (s : Pricing.Session) (config : Pricing.PolicyConfig.t)
    (member : Pricing.PolicyMember.t) : Pricing.PolicyMember.t :=
  if String.eqb (Pricing.PolicyMember.config_id member) (Pricing.PolicyConfig.config_id config)
     && is_active member
  then Pricing.PolicyMember.set_base_premium (member_premium s config member) member
  else member.

(** Every configuration but [config_id] reads the same in both sessions. *)
Definition others_untouched (config_id : Pricing.UUID) (s s' : Pricing.Session) : Prop :=
  forall id, id <> config_id -> Pricing.get id s' = Pricing.get id s.

(** The approval steps a premium calls for: underwriting from 1,000,000,
    actuarial from 5,000,000 and management from 10,000,000, each PENDING. *)
Definition approval_steps (config_id : Pricing.UUID) (total : Decimal) :
    list Pricing.ApprovalWorkflow.t :=
  (if Decimal_leb 1000000%Q total
   then [Pricing.ApprovalWorkflow.mk config_id "UNDERWRITING" 1
           Pricing.ApprovalStatus.PENDING 1000000%Q]
   else [])
  ++ (if Decimal_leb 5000000%Q total
      then [Pricing.ApprovalWorkflow.mk config_id "ACTUARIAL" 2
              Pricing.ApprovalStatus.PENDING 5000000%Q]
      else [])
  ++ (if Decimal_leb 10000000%Q total
      then [Pricing.ApprovalWorkflow.mk config_id "MANAGEMENT" 3
              Pricing.ApprovalStatus.PENDING 10000000%Q]
      else []).

(** An option the configuration may choose for [factor]: it belongs to the
    factor and each bound that is set, zero included, holds for the
    participant count. *)
Definition offered (s : Pricing.Session) (config : Pricing.PolicyConfig.t)
    (factor : Pricing.TCFactorConfig.t) (o : Pricing.TCFactorOption.t) : Prop :=
  In o (Pricing.tc_factor_option s)
  /\ Pricing.TCFactorOption.factor_id o = Pricing.TCFactorConfig.factor_id factor
  /\ (forall n, Pricing.TCFactorOption.min_participants o = Some n ->
                n <= Pricing.PolicyConfig.participant_count config)
  /\ (forall n, Pricing.TCFactorOption.max_participants o = Some n ->
                Pricing.PolicyConfig.participant_count config <= n).

(** Ascending [display_order]. *)
Definition by_display_order (a b : Pricing.TCFactorOption.t) : Prop :=
  Pricing.TCFactorOption.display_order a <= Pricing.TCFactorOption.display_order b.

(** The factor a code names, and the option a value names within it. *)
Definition factor_of_code (s : Pricing.Session) (factor_code : string) :
    option Pricing.TCFactorConfig.t :=
  first (fun f => String.eqb (Pricing.TCFactorConfig.factor_code f) factor_code)
    (Pricing.tc_factor_config s).

Definition option_of_value (s : Pricing.Session) (factor : Pricing.TCFactorConfig.t)
    (option_value : string) : option Pricing.TCFactorOption.t :=
  first (fun o => String.eqb (Pricing.TCFactorOption.factor_id o)
                    (Pricing.TCFactorConfig.factor_id factor)
                  && String.eqb (Pricing.TCFactorOption.option_value o) option_value)
    (Pricing.tc_factor_option s).

(** The key of a benefit selection: configuration and category. *)
Definition this_benefit (config_id : Pricing.UUID) (category : Pricing.BenefitCategory.t)
    (r : Pricing.BenefitSelection.t) : bool :=
  String.eqb (Pricing.BenefitSelection.config_id r) config_id
  && bool_decide (Pricing.BenefitSelection.benefit_category r = category).

(** The selection [_initialize_default_tc_factors] creates for an active
    factor: of the option flagged as default, else of the first option
    loaded; none when the factor has no option. *)
Definition default_selection (s : Pricing.Session) (config : Pricing.PolicyConfig.t)
    (f : Pricing.TCFactorConfig.t) : option Pricing.PolicyTCSelection.t :=
  match match first Pricing.TCFactorOption.is_default (Pricing.options s f) with
        | Some opt => Some opt
        | None => head (Pricing.options s f)
        end with
  | Some opt =>
      Some (Pricing.PolicyTCSelection.mk (Pricing.PolicyConfig.config_id config)
              (Pricing.TCFactorConfig.factor_id f)
              (Some (Pricing.TCFactorOption.option_id opt))
              (Pricing.TCFactorOption.multiplier opt))
  | None => None
  end.

(** A selection of the configuration that names an option of its factor,
    carries that option's multiplier, and names a default-flagged option
    whenever the factor has one. *)
Definition chosen_default (s : Pricing.Session) (config : Pricing.PolicyConfig.t)
    (selection : Pricing.PolicyTCSelection.t) : Prop :=
  Pricing.PolicyTCSelection.config_id selection = Pricing.PolicyConfig.config_id config
  /\ exists opt,
       In opt (Pricing.tc_factor_option s)
       /\ Pricing.TCFactorOption.factor_id opt
          = Pricing.PolicyTCSelection.factor_id selection
       /\ Pricing.PolicyTCSelection.option_id selection
          = Some (Pricing.TCFactorOption.option_id opt)
       /\ Pricing.PolicyTCSelection.applied_multiplier selection
          = Pricing.TCFactorOption.multiplier opt
       /\ (Pricing.TCFactorOption.is_default opt = true
           \/ forall o, In o (Pricing.tc_factor_option s) ->
                        Pricing.TCFactorOption.factor_id o
                        = Pricing.PolicyTCSelection.factor_id selection ->
                        Pricing.TCFactorOption.is_default o = false).

(** A rate table with every column filled. *)
Definition sample_rate_table : Pricing.RateTable.t :=
  Pricing.RateTable.mk "RT-2025" "IP-1000"
    (Some 1200000.00%Q) (Some 1300000.00%Q) (Some 600000.00%Q)
    (Some 1800000.00%Q) (Some 1900000.00%Q)
    (Some 2400000.00%Q) (Some 2500000.00%Q)
    (Some 3000000.00%Q) (Some 3100000.00%Q)
    (Some 3600000.00%Q) (Some 3700000.00%Q)
    (mk_date 2025 1 1) None.

(** The twenty-participant configuration with the standard network
    chosen. *)
Definition standard_selection : Pricing.PolicyTCSelection.t :=
  Pricing.PolicyTCSelection.mk "cfg-20" "F-NET" (Some "O-STD") 1.100%Q.

Definition network_with_standard : Pricing.Session :=
  Pricing.with_policy_tc_selection (fun _ => [standard_selection]) Network.session.

(** A custom rule that always fails. *)
Definition always_failing : Validation.Validator := fun _ _ =>
  Validation.Return
    (Some (Validation.ClaimsValidationEngine.result Validation.ValidationStatus.FAILED
             [Validation.Lit "Provider is blacklisted"] [] false 0)).

(** *** When a claim is adjudicated without review *)

(** The conditions the stock rules put on a claim, read off the claim and
    the benefit.  A bound, limit or window stored as zero is not
    enforced. *)
Definition age_eligible (ctx : Validation.ClaimContext.t)
    (b : Validation.BenefitConfiguration.t) : Prop :=
  let age := Validation.ClaimContext.member_age_years ctx in
  (forall n, Validation.BenefitConfiguration.min_age_years b = Some n -> n <> 0 -> n <= age)
  /\ (forall n, Validation.BenefitConfiguration.max_age_years b = Some n -> n <> 0 ->
                age <= n).

(** A member without [member_since_date] is not held to the waiting
    period. *)
Definition waiting_period_served (ctx : Validation.ClaimContext.t)
    (b : Validation.BenefitConfiguration.t) : Prop :=
  forall member_since,
    Validation.ClaimContext.member_since_date ctx = Some member_since ->
    0 < Validation.BenefitConfiguration.waiting_period_days b ->
    Validation.BenefitConfiguration.waiting_period_days b
    <= days_between (Validation.ClaimContext.service_date ctx) member_since.

Definition used_annual (ctx : Validation.ClaimContext.t)
    (b : Validation.BenefitConfiguration.t) : Decimal :=
  default 0%Q
    (Validation.ClaimContext.accumulator_balances ctx
       !! (Validation.BenefitConfiguration.benefit_code b +:+ "_annual")).

Definition used_visits (ctx : Validation.ClaimContext.t)
    (b : Validation.BenefitConfiguration.t) : Decimal :=
  default 0%Q
    (Validation.ClaimContext.accumulator_balances ctx
       !! (Validation.BenefitConfiguration.benefit_code b +:+ "_visits")).

(** The annual limit blocks only once it is used up: a claim that
    overruns a limit with something left draws a warning. *)
Definition annual_limit_left (ctx : Validation.ClaimContext.t)
    (b : Validation.BenefitConfiguration.t) : Prop :=
  forall limit_value,
    Validation.BenefitConfiguration.limit_value b = Some limit_value ->
    ~ (limit_value == 0)%Q ->
    (Validation.ClaimContext.claimed_amount ctx <= limit_value - used_annual ctx b)%Q
    \/ (0 < limit_value - used_annual ctx b)%Q.

Definition preauthorized (ctx : Validation.ClaimContext.t)
    (b : Validation.BenefitConfiguration.t) : Prop :=
  Validation.BenefitConfiguration.requires_preauth b = true ->
  Validation.ClaimContext.is_emergency ctx = true
  \/ Validation.ClaimContext.has_preauth ctx = true.

Definition medically_indicated (ctx : Validation.ClaimContext.t)
    (b : Validation.BenefitConfiguration.t) : Prop :=
  Validation.BenefitConfiguration.requires_medical_indication b = true ->
  Validation.ClaimContext.diagnosis_codes ctx <> []
  /\ (String.prefix "CIRC" (Validation.BenefitConfiguration.benefit_code b) = true ->
      exists diagnosis,
        In diagnosis (Validation.ClaimContext.diagnosis_codes ctx)
        /\ In diagnosis ["N47.0"; "N47.1"; "Z41.2"]).

Definition not_excluded (ctx : Validation.ClaimContext.t)
    (b : Validation.BenefitConfiguration.t) : Prop :=
  forall diagnosis,
    In diagnosis (Validation.ClaimContext.diagnosis_codes ctx) ->
    ~ In diagnosis (Validation.BenefitConfiguration.exclusions b).

(** The service date lies at most [pre_hospitalization_days] days before
    the admission and at most [post_hospitalization_days] days after the
    discharge, where these are known. *)
Definition in_hospitalization_window (ctx : Validation.ClaimContext.t)
    (b : Validation.BenefitConfiguration.t) : Prop :=
  let service_date := Validation.ClaimContext.service_date ctx in
  (forall days admission_date,
     Validation.BenefitConfiguration.pre_hospitalization_days b = Some days ->
     days <> 0 ->
     Validation.ClaimContext.admission_date ctx = Some admission_date ->
     days_between admission_date service_date <= days)
  /\ (forall days discharge_date,
        Validation.BenefitConfiguration.post_hospitalization_days b = Some days ->
        days <> 0 ->
        Validation.ClaimContext.discharge_date ctx = Some discharge_date ->
        days_between service_date discharge_date <= days).

Definition visits_left (ctx : Validation.ClaimContext.t)
    (b : Validation.BenefitConfiguration.t) : Prop :=
  forall max_visits,
    Validation.BenefitConfiguration.max_visits_per_year b = Some max_visits ->
    max_visits <> 0 ->
    (used_visits ctx b < inject_Z max_visits)%Q.

(** The ends of the two windows are dates [datetime.date] can hold: the
    ordinals 1 to 3652059, 0001-01-01 to 9999-12-31. *)
Definition window_dates_representable (ctx : Validation.ClaimContext.t)
    (b : Validation.BenefitConfiguration.t) : Prop :=
  (forall days admission_date,
     Validation.BenefitConfiguration.pre_hospitalization_days b = Some days ->
     Validation.ClaimContext.admission_date ctx = Some admission_date ->
     1 <= toordinal admission_date - days <= 3652059)
  /\ (forall days discharge_date,
        Validation.BenefitConfiguration.post_hospitalization_days b = Some days ->
        Validation.ClaimContext.discharge_date ctx = Some discharge_date ->
        1 <= toordinal discharge_date + days <= 3652059).

(** A validator whose result, if any, does not hold the claim back. *)
Definition passes
    (f : Validation.ClaimContext.t -> Validation.BenefitConfiguration.t ->
         option Validation.ValidationResult.t)
    (ctx : Validation.ClaimContext.t) (b : Validation.BenefitConfiguration.t) : Prop :=
  forall r, f ctx b = Some r ->
            Validation.ClaimsValidationEngine.is_failed_or_pending r = false.

(** A previous claim that [_validate_duplicate] takes for the same claim:
    its hash is the claim's and its service date, when it has one, is
    less than 30 days away. *)
Definition looks_like_duplicate (sha256_hexdigest : Validation.fstring -> string)
    (ctx : Validation.ClaimContext.t) (prev_claim : Validation.PreviousClaim.t) : Prop :=
  Validation.PreviousClaim.hash prev_claim
  = Some (Validation.ClaimsValidationEngine._generate_claim_hash sha256_hexdigest ctx)
  /\ forall service_date,
       Validation.PreviousClaim.service_date prev_claim = Some service_date ->
       Z.abs (days_between (Validation.ClaimContext.service_date ctx) service_date) < 30.

(** * Properties *)

Local Open Scope list_scope.

(** ** Decimal comparisons and rounding *)

Section DecimalFacts.

Lemma Decimal_ltb_lt (a b : Decimal) : Decimal_ltb a b = true <-> (a < b)%Q.
Proof.
  unfold Decimal_ltb. rewrite negb_true_iff.
  destruct (Qle_bool b a) eqn:E.
  - apply Qle_bool_iff in E. split; [discriminate | intros H; exfalso; lra].
  - split; [intros _ | reflexivity].
    apply Qnot_le_lt. intros H. apply Qle_bool_iff in H. congruence.
Qed.

Lemma Decimal_ltb_ge (a b : Decimal) : Decimal_ltb a b = false <-> (b <= a)%Q.
Proof.
  unfold Decimal_ltb. rewrite negb_false_iff. apply Qle_bool_iff.
Qed.

Lemma Decimal_leb_le (a b : Decimal) : Decimal_leb a b = true <-> (a <= b)%Q.
Proof. apply Qle_bool_iff. Qed.

Lemma Decimal_leb_gt (a b : Decimal) : Decimal_leb a b = false <-> (b < a)%Q.
Proof.
  unfold Decimal_leb. destruct (Qle_bool a b) eqn:E.
  - apply Qle_bool_iff in E. split; [discriminate | intros H; exfalso; lra].
  - split; [intros _ | reflexivity].
    apply Qnot_le_lt. intros H. apply Qle_bool_iff in H. congruence.
Qed.

Lemma Decimal_bool_true (d : Decimal) : Decimal_bool d = true <-> ~ (d == 0)%Q.
Proof.
  unfold Decimal_bool. rewrite negb_true_iff.
  destruct (Qeq_bool d 0) eqn:E.
  - apply Qeq_bool_iff in E. split; [discriminate | tauto].
  - split; [intros _ H | reflexivity].
    apply Qeq_bool_iff in H. congruence.
Qed.

Lemma Decimal_bool_false (d : Decimal) : Decimal_bool d = false <-> (d == 0)%Q.
Proof.
  unfold Decimal_bool. rewrite negb_false_iff. apply Qeq_bool_iff.
Qed.

(** Python's [max] and [min] compute the mathematical ones. *)
Lemma py_max_Qmax (a b : Decimal) : (py_max a b == Qmax a b)%Q.
Proof.
  unfold py_max. destruct (Decimal_ltb a b) eqn:E.
  - apply Decimal_ltb_lt in E. symmetry. apply Q.max_r. lra.
  - apply Decimal_ltb_ge in E. symmetry. apply Q.max_l. exact E.
Qed.

Lemma py_min_Qmin (a b : Decimal) : (py_min a b == Qmin a b)%Q.
Proof.
  unfold py_min. destruct (Decimal_ltb b a) eqn:E.
  - apply Decimal_ltb_lt in E. symmetry. apply Q.min_r. lra.
  - apply Decimal_ltb_ge in E. symmetry. apply Q.min_l. exact E.
Qed.

Lemma half_up_quotient (n den : Z) :
  0 <= n -> 0 < den ->
  let q := (2 * n + den) / (2 * den) in
  0 <= q /\ 2 * den * q <= 2 * n + den < 2 * den * q + 2 * den.
Proof.
  intros Hn Hd q.
  assert (H2d : 0 < 2 * den) by lia.
  pose proof (Z.div_mod (2 * n + den) (2 * den) ltac:(lia)) as Hdm.
  pose proof (Z.mod_pos_bound (2 * n + den) (2 * den) H2d) as Hmod.
  fold q in Hdm.
  split; [apply Z.div_pos; lia | lia].
Qed.

Lemma quantize_ROUND_HALF_UP_2dp (x : Decimal) :
  rounded_half_up_2dp x (quantize_ROUND_HALF_UP 2 x).
Proof.
  destruct x as [p d]. unfold rounded_half_up_2dp, quantize_ROUND_HALF_UP.
  cbn [Qnum Qden]. change (10 ^ Z.of_nat 2) with 100. change (Z.to_pos 100) with 100%positive.
  set (q := (2 * (Z.abs p * 100) + Z.pos d) / (2 * Z.pos d)).
  destruct (half_up_quotient (Z.abs p * 100) (Z.pos d) ltac:(lia) ltac:(lia))
    as [Hq0 [Hlo Hhi]].
  fold q in Hq0, Hlo, Hhi.
  split; [eexists; reflexivity |].
  assert (Hdiff : Z.abs (Z.sgn p * q * Z.pos d - p * 100)
                  = Z.abs (q * Z.pos d - Z.abs p * 100)).
  { clearbody q. destruct (Z.lt_trichotomy p 0) as [Hp | [Hp | Hp]].
    - rewrite (Z.sgn_neg p Hp). lia.
    - subst p. assert (q = 0) by nia. subst q. reflexivity.
    - rewrite (Z.sgn_pos p Hp). lia. }
  split.
  - unfold Qabs, Qminus, Qplus, Qopp, Qle. cbn [Qnum Qden].
    rewrite !Pos2Z.inj_mul.
    replace (Z.sgn p * q * Z.pos d + - p * 100) with (Z.sgn p * q * Z.pos d - p * 100) by lia.
    rewrite Hdiff. nia.
  - unfold Qabs, Qminus, Qplus, Qopp, Qeq, Qlt. cbn [Qnum Qden].
    rewrite !Pos2Z.inj_mul.
    replace (Z.sgn p * q * Z.pos d + - p * 100) with (Z.sgn p * q * Z.pos d - p * 100) by lia.
    rewrite Hdiff. intros Htie.
    assert (Hsq : Z.abs (Z.sgn p * q) = q).
    { clearbody q. destruct (Z.lt_trichotomy p 0) as [Hp | [Hp | Hp]].
      - rewrite (Z.sgn_neg p Hp). lia.
      - subst p. assert (q = 0) by nia. subst q. reflexivity.
      - rewrite (Z.sgn_pos p Hp). lia. }
    rewrite Hsq. clearbody q. nia.
Qed.

End DecimalFacts.

(** ** The pricing engine *)

Import Pricing.

Lemma bind_eq {A B} (m : M A) (k : A -> M B) s :
  (x ← m; k x) s = match m s with Returned a s' => k a s' | Raised e => Raised e end.
Proof. reflexivity. Qed.

(** Runs the straight-line part of a method. *)
Ltac run_monad :=
  repeat first
    [ rewrite bind_eq
    | progress cbn [mret M_ret commit query modify raise attr_of] ].

Lemma for_each_returns {A B} (P : Session -> Session -> Prop) (xs : list A) (body : A -> B -> M B) :
  (forall s, P s s) ->
  (forall s1 s2 s3, P s1 s2 -> P s2 s3 -> P s1 s3) ->
  (forall x acc s, exists acc' s', body x acc s = Returned acc' s' /\ P s s') ->
  forall acc s, exists acc' s', for_each xs body acc s = Returned acc' s' /\ P s s'.
Proof.
  intros Hrefl Htrans Hbody. induction xs as [| x xs IH]; intros acc s.
  - exists acc, s. split; [reflexivity | apply Hrefl].
  - cbn [for_each]. rewrite bind_eq.
    destruct (Hbody x acc s) as (acc1 & s1 & E1 & P1). rewrite E1.
    destruct (IH acc1 s1) as (acc2 & s2 & E2 & P2).
    exists acc2, s2. split; [exact E2 | eapply Htrans; eassumption].
Qed.

Lemma same_but_members_refl s : same_but_members s s.
Proof. destruct s; reflexivity. Qed.

Lemma same_but_members_trans s1 s2 s3 : same_but_members s1 s2 -> same_but_members s2 s3 -> same_but_members s1 s3.
Proof. unfold same_but_members. intros H1 H2. rewrite H2 at 1. rewrite H1 at 1. destruct s1; reflexivity. Qed.

Lemma _calculate_member_premium_returns member config s :
  exists premium s', PricingEngine._calculate_member_premium member config s = Returned premium s' /\ same_but_members s s'.
Proof.
  unfold PricingEngine._calculate_member_premium. rewrite bind_eq. cbn [query].
  eexists _, _. split; [reflexivity|]. destruct s; reflexivity.
Qed.

Lemma first_update_first {A} (p : A -> bool) (f : A -> A) (rows : list A) x :
  (forall r, p (f r) = p r) ->
  first p rows = Some x -> first p (update_first p f rows) = Some (f x).
Proof.
  intros Hp. unfold first. induction rows as [| r rows IH]; cbn; [discriminate |].
  destruct (p r) eqn:E.
  - intros [= ->]. cbn. rewrite Hp, E. reflexivity.
  - intros H. cbn. rewrite E. auto.
Qed.

Lemma calculate_premium_returns config_id save s config :
  get config_id s = Some config ->
  exists r s',
    PricingEngine.calculate_premium config_id save s = Returned r s'
    /\ premium_post config_id config r s s'.
Proof.
  intros Hget. unfold PricingEngine.calculate_premium.
  rewrite bind_eq. cbn [query]. rewrite Hget. rewrite bind_eq.
  match goal with |- context [for_each ?xs ?body ?a0 s] =>
    assert (Hloop : exists acc' s', for_each xs body a0 s = Returned acc' s'
                                    /\ same_but_members s s')
  end.
  { apply (for_each_returns same_but_members);
      [apply same_but_members_refl | apply same_but_members_trans |].
    intros member acc s0.
    destruct (bool_decide _).
    - exists acc, s0. split; [reflexivity | apply same_but_members_refl].
    - rewrite bind_eq.
      destruct (_calculate_member_premium_returns member config s0) as (pr & s0' & E & P).
      rewrite E. eexists _, _. split; [reflexivity | exact P]. }
  destruct Hloop as ([base details] & s1 & E1 & P1).
  rewrite E1. rewrite bind_eq. cbn [query]. rewrite bind_eq. cbn [modify].
  rewrite bind_eq.
  assert (Hget1 : get config_id s1 = Some config).
  { rewrite P1. exact Hget. }
  destruct save.
  - unfold PricingEngine._save_calculation_log. rewrite bind_eq. cbn [query modify].
    rewrite bind_eq. cbn [commit mret M_ret].
    eexists _, _. split; [reflexivity |].
    unfold premium_post, float. cbn.
    repeat split; try reflexivity; try (rewrite P1; reflexivity).
    unfold get in *. cbn. apply first_update_first; [reflexivity | exact Hget1].
  - cbn [mret M_ret]. rewrite bind_eq. cbn [commit mret M_ret].
    eexists _, _. split; [reflexivity |].
    unfold premium_post, float. cbn.
    repeat split; try reflexivity; try (rewrite P1; reflexivity).
    unfold get in *. cbn. apply first_update_first; [reflexivity | exact Hget1].
Qed.

Lemma get_config_id config_id s config :
  get config_id s = Some config -> PolicyConfig.config_id config = config_id.
Proof.
  unfold get, first. intros H. apply find_some in H as [_ H].
  apply String.eqb_eq in H. exact H.
Qed.

Lemma existsb_is_selected s config :
  existsb BenefitSelection.is_selected (benefit_selections s config) = true
  <-> has_selected_benefit s (PolicyConfig.config_id config).
Proof.
  unfold has_selected_benefit, benefit_selections. rewrite existsb_exists. split.
  - intros (r & Hin & Hsel). apply filter_In in Hin as [Hin Hid].
    apply String.eqb_eq in Hid. eauto.
  - intros (r & Hin & Hid & Hsel). exists r. split; [| exact Hsel].
    apply filter_In. split; [exact Hin |]. apply String.eqb_eq. exact Hid.
Qed.

Lemma count_zero {A} (p : A -> bool) (rows : list A) :
  count p rows = 0 <-> forall x, In x rows -> p x = false.
Proof.
  unfold count. split.
  - intros H x Hin. destruct (p x) eqn:E; [| reflexivity].
    assert (Hf : In x (List.filter p rows)) by (apply filter_In; auto).
    destruct (List.filter p rows); [destruct Hf | discriminate].
  - intros H. induction rows as [| r rows IH]; [reflexivity |].
    cbn [List.filter]. rewrite (H r (or_introl eq_refl)). apply IH.
    intros x Hx. apply H. right. exact Hx.
Qed.

Lemma count_active_zero s config_id :
  count (fun m => String.eqb (PolicyMember.config_id m) config_id
                  && bool_decide (PolicyMember.status m = MemberStatus.ACTIVE))
    (policy_member s) = 0
  <-> ~ has_active_member s config_id.
Proof.
  rewrite count_zero. unfold has_active_member. split.
  - intros H (m & Hin & Hid & Hst). specialize (H m Hin).
    rewrite Hid, String.eqb_refl, bool_decide_eq_true_2 in H by exact Hst. discriminate.
  - intros H m Hin. apply not_true_is_false. intros E.
    apply andb_true_iff in E as [E1 E2].
    apply String.eqb_eq in E1. apply bool_decide_eq_true_1 in E2. apply H. eauto.
Qed.

Lemma classic_active s config_id :
  has_active_member s config_id \/ ~ has_active_member s config_id.
Proof.
  destruct (count (fun m => String.eqb (PolicyMember.config_id m) config_id
                  && bool_decide (PolicyMember.status m = MemberStatus.ACTIVE))
              (policy_member s) =? 0) eqn:E.
  - right. apply count_active_zero. apply Z.eqb_eq. exact E.
  - left. apply Z.eqb_neq in E.
    assert (H : exists m, In m (policy_member s)
                /\ (String.eqb (PolicyMember.config_id m) config_id
                    && bool_decide (PolicyMember.status m = MemberStatus.ACTIVE)) = true).
    { induction (policy_member s) as [| m rows IH].
      - exfalso. apply E. reflexivity.
      - destruct (String.eqb (PolicyMember.config_id m) config_id
                  && bool_decide (PolicyMember.status m = MemberStatus.ACTIVE)) eqn:Em.
        + exists m. split; [left; reflexivity | exact Em].
        + destruct IH as (m' & Hin & Hm').
          * intros H. apply E. unfold count in *. cbn [List.filter]. rewrite Em. exact H.
          * exists m'. split; [right; exact Hin | exact Hm']. }
    destruct H as (m & Hin & Hm). apply andb_true_iff in Hm as [H1 H2].
    apply String.eqb_eq in H1. apply bool_decide_eq_true_1 in H2.
    exists m. auto.
Qed.

Lemma _validate_configuration_cases config s :
  let id := PolicyConfig.config_id config in
  PricingEngine._validate_configuration config s =
    if PolicyConfig.participant_count config <? 5
    then Raised (ValueError "Minimum 5 participants required")
    else if negb (existsb BenefitSelection.is_selected (benefit_selections s config))
    then Raised (ValueError "At least one benefit must be selected")
    else if count (fun m => String.eqb (PolicyMember.config_id m) id
                  && bool_decide (PolicyMember.status m = MemberStatus.ACTIVE))
              (policy_member s) =? 0
    then Raised (ValueError "No members enrolled")
    else Returned tt s.
Proof.
  unfold PricingEngine._validate_configuration. rewrite bind_eq. cbn [query].
  repeat (match goal with |- context [if ?b then _ else _] => destruct b end; try reflexivity).
Qed.

Lemma _create_approval_workflow_returns config s :
  exists s', PricingEngine._create_approval_workflow config s = Returned tt s'
             /\ policy_config s' = policy_config s.
Proof.
  unfold PricingEngine._create_approval_workflow.
  match goal with |- context [for_each ?xs ?body ?a0 s] =>
    destruct (for_each_returns (fun s s' => policy_config s' = policy_config s) xs body)
      with (acc := a0) (s := s) as ([] & s' & E & P)
  end.
  - reflexivity.
  - intros s1 s2 s3 H1 H2. congruence.
  - intros [[step_name step_order] threshold] [] s0.
    destruct (PolicyConfig.total_adjusted_premium config) as [total |].
    + destruct (Decimal_bool total && Decimal_leb threshold total).
      * eexists _, _. split; reflexivity.
      * eexists _, _. split; reflexivity.
    + eexists _, _. split; reflexivity.
  - exists s'. split; assumption.
Qed.

Lemma submit_not_draft config_id submitted_by s config :
  get config_id s = Some config ->
  PolicyConfig.status config <> PolicyStatus.DRAFT ->
  PricingEngine.submit_for_approval config_id submitted_by s
  = Raised (ValueError "Only draft configurations can be submitted for approval").
Proof.
  intros Hget Hst. unfold PricingEngine.submit_for_approval.
  rewrite bind_eq. cbn [query]. rewrite Hget. rewrite bind_eq. cbn [attr_of mret M_ret].
  rewrite bool_decide_eq_true_2 by exact Hst. reflexivity.
Qed.

Lemma submit_draft config_id submitted_by s config :
  get config_id s = Some config ->
  PolicyConfig.status config = PolicyStatus.DRAFT ->
  match PricingEngine._validate_configuration config s with
  | Raised e => PricingEngine.submit_for_approval config_id submitted_by s = Raised e
  | Returned _ _ =>
      exists config' s',
        PricingEngine.submit_for_approval config_id submitted_by s = Returned config' s'
        /\ PolicyConfig.status config' = PolicyStatus.QUOTED
        /\ get config_id s' = Some config'
  end.
Proof.
  intros Hget Hst. unfold PricingEngine.submit_for_approval.
  rewrite bind_eq. cbn [query]. rewrite Hget. rewrite bind_eq. cbn [attr_of mret M_ret].
  rewrite bool_decide_eq_false_2 by (intros H; apply H; exact Hst).
  rewrite bind_eq.
  rewrite _validate_configuration_cases.
  repeat (match goal with |- context [if ?b then _ else _] => destruct b end; try reflexivity).
  rewrite bind_eq.
  destruct (calculate_premium_returns config_id true s config Hget) as (r & s1 & E1 & P1).
  rewrite E1. rewrite bind_eq. cbn [modify]. rewrite bind_eq. cbn [query]. 
  destruct P1 as (_ & _ & _ & _ & _ & _ & _ & Hget1 & _).
  set (s2 := with_policy_config _ s1).
  assert (Hget2 : get config_id s2 = Some (PolicyConfig.set_status PolicyStatus.QUOTED
            (PolicyConfig.set_totals
               (PremiumBreakdown.base_premium (CalculationResult.premium_breakdown r))
               (PremiumBreakdown.adjusted_premium (CalculationResult.premium_breakdown r))
               (PremiumBreakdown.total_multiplier (CalculationResult.premium_breakdown r))
               config))).
  { unfold get in *. subst s2. cbn. apply first_update_first; [reflexivity | exact Hget1]. }
  rewrite Hget2. rewrite bind_eq. cbn [attr_of mret M_ret]. rewrite bind_eq.
  match goal with |- context [PricingEngine._create_approval_workflow ?c s2] =>
    destruct (_create_approval_workflow_returns c s2) as (s3 & E3 & P3); rewrite E3
  end.
  rewrite bind_eq. cbn [commit mret M_ret].
  eexists _, _. split; [reflexivity |]. split; [reflexivity |].
  unfold get in *. rewrite P3. exact Hget2.
Qed.


(** ** Premium calculation *)

(** Scenario S1 of the specification, run on the model. *)
Example scenario_S1 :
  match Pricing.PricingEngine.calculate_premium "cfg-1" true S1.session with
  | Pricing.Returned r _ =>
      let pb := Pricing.CalculationResult.premium_breakdown r in
      Qeq_bool (Pricing.PremiumBreakdown.base_premium pb) 20000000
      && Qeq_bool (Pricing.PremiumBreakdown.total_multiplier pb) 2.250
      && Qeq_bool (Pricing.PremiumBreakdown.adjusted_premium pb) 45000000
      && Qeq_bool (Pricing.PremiumBreakdown.admin_fee pb) 2250000
      && Qeq_bool (Pricing.PremiumBreakdown.tpa_fee pb) 100000
      && Qeq_bool (Pricing.PremiumBreakdown.total_premium pb) 47350000.00
  | Pricing.Raised _ => false
  end = true.
Proof. vm_compute. reflexivity. Qed.





(** ** Submission for approval *)



(** Scenario S4: four participants are refused. *)
Example scenario_S4_refused :
  Pricing.PricingEngine.submit_for_approval "cfg-4" "underwriter"
    (Pricing.with_policy_config
       (fun _ => [Pricing.PolicyConfig.mk "cfg-4" "Q202506010004" "Four" 4
                    (mk_date 2025 1 1) (mk_date 2025 12 31)
                    Pricing.PolicyStatus.DRAFT None None None])
       S1.session)
  = Pricing.Raised (Pricing.ValueError "Minimum 5 participants required").
Proof. reflexivity. Qed.

(** ** Benefit categories *)

Lemma first_None {A} (p : A -> bool) (rows : list A) :
  first p rows = None <-> forall x, In x rows -> p x = false.
Proof.
  unfold first. split; [apply find_none |].
  induction rows as [| r rows IH]; [reflexivity |].
  intros H. cbn. rewrite (H r (or_introl eq_refl)). apply IH.
  intros x Hx. apply H. right. exact Hx.
Qed.

(** C9.  When the configuration has no BenefitSelection row for the
    category, [toggle_benefit_category] returns None and the session is
    left as it was; nothing is raised. *)
Theorem toggle_benefit_category_without_row
    (s : Pricing.Session) (config_id : Pricing.UUID)
    (category : Pricing.BenefitCategory.t) (is_selected : bool) :
  (forall r, In r (Pricing.benefit_selection s) ->
             Pricing.BenefitSelection.config_id r = config_id ->
             Pricing.BenefitSelection.benefit_category r <> category) ->
  Pricing.PricingEngine.toggle_benefit_category config_id category is_selected s
  = Pricing.Returned None s.
Proof.
  intros Hnone. unfold Pricing.PricingEngine.toggle_benefit_category.
  rewrite bind_eq. cbn [Pricing.query].
  match goal with |- context [first ?p (Pricing.benefit_selection s)] =>
    assert (E : first p (Pricing.benefit_selection s) = None)
  end.
  { apply first_None. intros r Hin. apply andb_false_iff.
    destruct (String.eqb_spec (Pricing.BenefitSelection.config_id r) config_id) as [Hid | Hid];
      [right | left; reflexivity].
    apply bool_decide_eq_false_2. apply Hnone; assumption. }
  rewrite E. run_monad. rewrite E. reflexivity.
Qed.

Lemma toggle_benefit_category_without_row_witness :
  Pricing.PricingEngine.toggle_benefit_category "cfg-0"
    Pricing.BenefitCategory.MATERNITY true S1.empty_session
  = Pricing.Returned None S1.empty_session.
Proof.
  apply (toggle_benefit_category_without_row S1.empty_session "cfg-0"
           Pricing.BenefitCategory.MATERNITY true).
  intros r Hin. destruct Hin.
Defined.

(** What [_calculate_category_factor] computes: the small-group loading,
    times 1.150 for MATERNITY when the women aged 18 to 45 of the
    configuration, of any status, outnumber 0.4 * participant_count. *)
Lemma _calculate_category_factor_value config_id category s config :
  Pricing.get config_id s = Some config ->
  exists factor,
    Pricing.PricingEngine._calculate_category_factor config_id category s
    = Pricing.Returned factor s
    /\ let pc := Pricing.PolicyConfig.participant_count config in
       let loading :=
         if pc <? 15 then 1.500%Q else if pc <? 25 then 1.250%Q
         else if pc <? 50 then 1.100%Q else 1.000%Q in
       let women :=
         count (Pricing.PricingEngine.female_18_45 config_id (Pricing.today s))
           (Pricing.policy_member s) in
       (factor ==
        if bool_decide (category = Pricing.BenefitCategory.MATERNITY)
           && (2 * pc <? 5 * women)
        then loading * 1.150 else loading)%Q.
Proof.
  intros Hget. unfold Pricing.PricingEngine._calculate_category_factor.
  rewrite bind_eq. cbn [Pricing.query]. rewrite Hget. rewrite bind_eq.
  cbn [Pricing.attr_of mret Pricing.M_ret].
  eexists. split; [reflexivity |]. cbv zeta.
  set (pc := Pricing.PolicyConfig.participant_count config).
  set (women := count _ _).
  assert (Hcmp : Decimal_ltb (inject_Z pc * 0.4)%Q (inject_Z women) = (2 * pc <? 5 * women)).
  { destruct (2 * pc <? 5 * women) eqn:E.
    - apply Z.ltb_lt in E. apply Decimal_ltb_lt.
      unfold Qlt, Qmult, inject_Z. cbn [Qnum Qden]. lia.
    - apply Z.ltb_ge in E. apply Decimal_ltb_ge.
      unfold Qle, Qmult, inject_Z. cbn [Qnum Qden]. lia. }
  rewrite Hcmp.
  destruct (bool_decide _); cbn [andb];
    destruct (pc <? 15); [| destruct (pc <? 25); [| destruct (pc <? 50)] | |
                            destruct (pc <? 25); [| destruct (pc <? 50)]];
    try destruct (2 * pc <? 5 * women); ring.
Qed.

(** When a category is toggled off, its factor is reset to 1.000. *)
Lemma toggle_benefit_category_off config_id category s row :
  first (fun r => String.eqb (Pricing.BenefitSelection.config_id r) config_id
                  && bool_decide (Pricing.BenefitSelection.benefit_category r = category))
    (Pricing.benefit_selection s) = Some row ->
  exists s',
    Pricing.PricingEngine.toggle_benefit_category config_id category false s
    = Pricing.Returned
        (Some (Pricing.BenefitSelection.set_category_factor 1.000%Q
                 (Pricing.BenefitSelection.set_is_selected false row))) s'.
Proof.
  intros Hrow. unfold Pricing.PricingEngine.toggle_benefit_category.
  rewrite bind_eq. cbn [Pricing.query]. rewrite Hrow. run_monad.
  eexists. f_equal. cbn [Pricing.benefit_selection Pricing.with_benefit_selection].
  erewrite first_update_first; [reflexivity | reflexivity |].
  erewrite first_update_first; [reflexivity | reflexivity | exact Hrow].
Qed.


(** ** T&C factors *)

Lemma update_tc_factor_cases config_id factor_code option_value s factor option config :
  first (fun f => String.eqb (TCFactorConfig.factor_code f) factor_code)
    (tc_factor_config s) = Some factor ->
  first (fun o => String.eqb (TCFactorOption.factor_id o) (TCFactorConfig.factor_id factor)
                  && String.eqb (TCFactorOption.option_value o) option_value)
    (tc_factor_option s) = Some option ->
  get config_id s = Some config ->
  let pc := PolicyConfig.participant_count config in
  let mn := default 0 (TCFactorOption.min_participants option) in
  let mx := default 0 (TCFactorOption.max_participants option) in
  if optional_int_bool (TCFactorOption.min_participants option) && (pc <? mn) then
    PricingEngine.update_tc_factor config_id factor_code option_value s
    = Raised (ValueError ("Minimum " +:+ str_int mn +:+ " participants required"))
  else if optional_int_bool (TCFactorOption.max_participants option) && (mx <? pc) then
    PricingEngine.update_tc_factor config_id factor_code option_value s
    = Raised (ValueError ("Maximum " +:+ str_int mx +:+ " participants allowed"))
  else
    exists selection s',
      PricingEngine.update_tc_factor config_id factor_code option_value s
      = Returned selection s'
      /\ selects selection config_id factor option
      /\ first (this_tc config_id factor) (policy_tc_selection s') = Some selection
      /\ s' = with_policy_tc_selection (fun _ => policy_tc_selection s') s.
Proof.
  intros Hf Ho Hc pc mn mx. unfold PricingEngine.update_tc_factor.
  rewrite bind_eq. cbn [query]. rewrite Hf, Ho, Hc. cbv zeta. fold pc mn mx.
  assert (Hmin : forall k : bool -> M PolicyTCSelection.t,
            ((below ← (if optional_int_bool (TCFactorOption.min_participants option)
                       then config0 ← attr_of (Some config) "participant_count";
                            mret (PolicyConfig.participant_count config0 <? mn)
                       else mret false); k below) s)
            = k (optional_int_bool (TCFactorOption.min_participants option) && (pc <? mn)) s).
  { intros k. destruct (optional_int_bool (TCFactorOption.min_participants option));
      reflexivity. }
  assert (Hmax : forall k : bool -> M PolicyTCSelection.t,
            ((above ← (if optional_int_bool (TCFactorOption.max_participants option)
                       then config0 ← attr_of (Some config) "participant_count";
                            mret (mx <? PolicyConfig.participant_count config0)
                       else mret false); k above) s)
            = k (optional_int_bool (TCFactorOption.max_participants option) && (mx <? pc)) s).
  { intros k. destruct (optional_int_bool (TCFactorOption.max_participants option));
      reflexivity. }
  rewrite Hmin.
  destruct (optional_int_bool (TCFactorOption.min_participants option) && (pc <? mn));
    [reflexivity |].
  rewrite Hmax.
  destruct (optional_int_bool (TCFactorOption.max_participants option) && (mx <? pc));
    [reflexivity |].
  clear Hmin Hmax.
  fold (this_tc config_id factor).
  destruct (first (this_tc config_id factor) (policy_tc_selection s)) as [row |] eqn:Erow.
  - run_monad. eexists _, _. split; [reflexivity |].
    pose proof Erow as Hrow. unfold first in Hrow. apply find_some in Hrow as [_ Hrow].
    unfold this_tc in Hrow. apply andb_true_iff in Hrow as [H1 H2].
    apply String.eqb_eq in H1, H2.
    split; [repeat split; cbn; assumption |].
    split; [| destruct s; reflexivity].
    cbn [policy_tc_selection with_policy_tc_selection]. rewrite Erow.
    apply (first_update_first (this_tc config_id factor)
             (fun r => PolicyTCSelection.mk (PolicyTCSelection.config_id r)
                         (PolicyTCSelection.factor_id r)
                         (Some (TCFactorOption.option_id option))
                         (TCFactorOption.multiplier option)) _ row);
      [reflexivity | exact Erow].
  - run_monad. eexists _, _. split; [reflexivity |].
    split; [repeat split |].
    split; [| destruct s; reflexivity].
    cbn [policy_tc_selection with_policy_tc_selection]. rewrite Erow.
    unfold first in *. clear -Erow.
    induction (policy_tc_selection s) as [| r rows IH]; cbn in *.
    + unfold this_tc. cbn. rewrite !String.eqb_refl. reflexivity.
    + destruct (this_tc config_id factor r); [discriminate | auto].
Qed.

Lemma first_of_In {A} (p : A -> bool) (rows : list A) x :
  In x rows -> p x = true -> exists y, first p rows = Some y.
Proof.
  intros Hin Hp. destruct (first p rows) as [y |] eqn:E; [eauto |].
  apply first_None with (x := x) in E; [congruence | exact Hin].
Qed.

Lemma api_update_tc_factor_raised config_id factor_code option_value s e :
  PricingEngine.update_tc_factor config_id factor_code option_value s = Raised e ->
  Api.update_tc_factor config_id factor_code option_value s
  = (Api.HTTPException 400 (str_exc e), s).
Proof.
  intros E. unfold Api.update_tc_factor. rewrite bind_eq, E. reflexivity.
Qed.

Lemma api_update_tc_factor_returned config_id factor_code option_value s factor option
    config selection s1 :
  first (fun f => String.eqb (TCFactorConfig.factor_code f) factor_code)
    (tc_factor_config s) = Some factor ->
  first (fun o => String.eqb (TCFactorOption.factor_id o) (TCFactorConfig.factor_id factor)
                  && String.eqb (TCFactorOption.option_value o) option_value)
    (tc_factor_option s) = Some option ->
  get config_id s = Some config ->
  PricingEngine.update_tc_factor config_id factor_code option_value s
  = Returned selection s1 ->
  selects selection config_id factor option ->
  s1 = with_policy_tc_selection (fun _ => policy_tc_selection s1) s ->
  exists r s2 body,
    PricingEngine.calculate_premium config_id true s1 = Returned r s2
    /\ Api.update_tc_factor config_id factor_code option_value s = (Api.OK body, s2)
    /\ Api.premium_update body = CalculationResult.premium_breakdown r
    /\ Api.multiplier body = TCFactorOption.multiplier option
    /\ policy_tc_selection s2 = policy_tc_selection s1.
Proof.
  intros Hf Ho Hc E (Hcid & Hfid & Hoid & Hmul) Hs1.
  assert (Hc1 : get config_id s1 = Some config) by (rewrite Hs1; exact Hc).
  destruct (calculate_premium_returns config_id true s1 config Hc1)
    as (r & s2 & E2 & P2).
  destruct P2 as (_ & _ & _ & _ & _ & _ & _ & _ & _ & Hfc & Hfo & _ & Htc & _).
  assert (Hfc' : tc_factor_config s2 = tc_factor_config s) by (rewrite Hfc, Hs1; reflexivity).
  assert (Hfo' : tc_factor_option s2 = tc_factor_option s) by (rewrite Hfo, Hs1; reflexivity).
  destruct (first_of_In
              (fun r => String.eqb (TCFactorConfig.factor_id r)
                          (PolicyTCSelection.factor_id selection))
              (tc_factor_config s) factor) as [f' Ef'].
  { unfold first in Hf. apply find_some in Hf. tauto. }
  { rewrite Hfid. apply String.eqb_refl. }
  destruct (first_of_In
              (fun r => String.eqb (TCFactorOption.option_id r)
                          (TCFactorOption.option_id option))
              (tc_factor_option s) option) as [o' Eo'].
  { unfold first in Ho. apply find_some in Ho. tauto. }
  { apply String.eqb_refl. }
  exists r, s2. eexists. split; [exact E2 |].
  unfold Api.update_tc_factor. rewrite bind_eq, E. rewrite bind_eq, E2.
  run_monad. unfold Pricing.factor, Pricing.option_. rewrite Hfc', Hfo', Hoid, Ef', Eo'. run_monad.
  split; [reflexivity |]. cbn. rewrite Hmul. auto.
Qed.

(** The option whose upper bound is stored as zero is not offered by
    [get_applicable_tc_options] to a twenty-participant configuration, yet
    [update_tc_factor] accepts it. *)
Example zero_max_not_offered :
  PricingEngine.get_applicable_tc_options "cfg-20" "NETWORK" Network.session
  = Returned [Network.standard] Network.session.
Proof. reflexivity. Qed.




(** A valid change on the same configuration. *)
Example update_tc_factor_standard :
  exists body s',
    Api.update_tc_factor "cfg-20" "NETWORK" "STANDARD" Network.session = (Api.OK body, s')
    /\ policy_tc_selection s'
       = [PolicyTCSelection.mk "cfg-20" "F-NET" (Some "O-STD") 1.100%Q]
    /\ Qeq_bool (PremiumBreakdown.total_multiplier (Api.premium_update body)) 1.100 = true.
Proof. eexists _, _. split; [vm_compute; reflexivity | split; reflexivity]. Qed.

(** ** The validation engine *)

Import Validation.

Section SortFacts.
Context {A K : Type} (ltb : K -> K -> bool) (key : A -> K).

Lemma insert_by_app (x : A) (l1 l2 : list A) :
  Forall (fun y => ltb (key y) (key x) = true) l1 ->
  Forall (fun y => ltb (key y) (key x) = false) l2 ->
  insert_by ltb key x (l1 ++ l2) = l1 ++ x :: l2.
Proof.
  intros H1 H2. induction H1 as [| y l1 Hy _ IH]; cbn.
  - destruct H2 as [| y l2 Hy _]; cbn; [reflexivity |]. rewrite Hy. reflexivity.
  - rewrite Hy, IH. reflexivity.
Qed.

Lemma In_insert_by (x y : A) (l : list A) :
  In y (insert_by ltb key x l) <-> y = x \/ In y l.
Proof.
  induction l as [| z l IH]; cbn; [intuition |].
  destruct (ltb (key z) (key x)); cbn; rewrite ?IH; intuition.
Qed.

Lemma In_stable_sort (y : A) (l : list A) : In y (stable_sort ltb key l) <-> In y l.
Proof.
  induction l as [| x l IH]; cbn; [reflexivity |].
  rewrite In_insert_by, IH. intuition.
Qed.

Lemma In_list_sort (reverse : bool) (y : A) (l : list A) :
  In y (list_sort ltb key reverse l) <-> In y l.
Proof.
  unfold list_sort. destruct reverse.
  - rewrite <- in_rev, In_stable_sort, <- in_rev. reflexivity.
  - apply In_stable_sort.
Qed.

End SortFacts.

Local Abbreviation F := (has_status ValidationStatus.FAILED).
Local Abbreviation W := (has_status ValidationStatus.WARNING).
Local Abbreviation Pn := (has_status ValidationStatus.PENDING).
Local Abbreviation Ps := (has_status ValidationStatus.PASSED).

Lemma stable_sort_by_severity (l : list ValidationResult.t) :
  stable_sort bool3_ltb ClaimsValidationEngine.severity_key l
  = (List.filter Ps l ++ List.filter Pn l ++ List.filter W l ++ List.filter F l)%list.
Proof.
  induction l as [| x l IH]; [reflexivity |].
  cbn [stable_sort fold_right]. fold (stable_sort bool3_ltb ClaimsValidationEngine.severity_key l).
  rewrite IH.
  assert (Hlt : forall y, bool3_ltb (ClaimsValidationEngine.severity_key y)
                            (ClaimsValidationEngine.severity_key x)
                          = (tier (ValidationResult.status x) <? tier (ValidationResult.status y))%nat).
  { intros y. unfold ClaimsValidationEngine.severity_key.
    destruct (ValidationResult.status x), (ValidationResult.status y); reflexivity. }
  assert (Hseg : forall s (m : list ValidationResult.t),
            Forall (fun y => ValidationResult.status y = s) (List.filter (has_status s) m)).
  { intros s m. apply List.Forall_forall. intros y Hy. apply filter_In in Hy as [_ Hy].
    apply bool_decide_eq_true_1 in Hy. exact Hy. }
  assert (Hall : forall s (m : list ValidationResult.t) b,
            (tier (ValidationResult.status x) <? tier s)%nat = b ->
            Forall (fun y => bool3_ltb (ClaimsValidationEngine.severity_key y)
                               (ClaimsValidationEngine.severity_key x) = b)
              (List.filter (has_status s) m)).
  { intros s m b Hb. eapply List.Forall_impl; [| apply Hseg].
    cbn beta. intros y Hy. rewrite Hlt, Hy. exact Hb. }
  assert (Hcons : forall s, List.filter (has_status s) (x :: l)
                  = if bool_decide (ValidationResult.status x = s)
                    then x :: List.filter (has_status s) l
                    else List.filter (has_status s) l) by reflexivity.
  rewrite !Hcons. clear Hcons.
  destruct (ValidationResult.status x) eqn:Ex;
    repeat (case_bool_decide; try congruence).
  - (* PASSED: in front of everything *)
    apply (insert_by_app _ _ x []); [constructor |].
    repeat apply Forall_app_2; apply Hall; reflexivity.
  - (* FAILED: in front of the FAILED results *)
    rewrite !app_assoc. rewrite insert_by_app; [reflexivity | | apply Hall; reflexivity].
    repeat apply Forall_app_2; apply Hall; reflexivity.
  - (* WARNING *)
    rewrite (app_assoc (List.filter _ l) (List.filter _ l)).
    rewrite insert_by_app;
      [rewrite <- app_assoc; reflexivity | |];
      repeat apply Forall_app_2; apply Hall; reflexivity.
  - (* PENDING *)
    rewrite insert_by_app; [reflexivity | |];
      repeat apply Forall_app_2; apply Hall; reflexivity.
Qed.

Lemma list_sort_by_severity (l : list ValidationResult.t) :
  list_sort bool3_ltb ClaimsValidationEngine.severity_key true l
  = List.filter F l ++ List.filter W l ++ List.filter Pn l ++ List.filter Ps l.
Proof.
  unfold list_sort. rewrite stable_sort_by_severity.
  rewrite !rev_app_distr, <- !filter_rev, !rev_involutive, <- !app_assoc. reflexivity.
Qed.

Lemma StronglySorted_app_2 {A} (R : A -> A -> Prop) (l1 l2 : list A) :
  StronglySorted R l1 -> StronglySorted R l2 ->
  (forall x y, In x l1 -> In y l2 -> R x y) ->
  StronglySorted R (l1 ++ l2).
Proof.
  intros H1 H2 H12. induction H1 as [| x l1 Hs IH Hx]; [exact H2 |].
  cbn. constructor.
  - apply IH. intros a b Ha Hb. apply H12; [right; exact Ha | exact Hb].
  - apply List.Forall_forall. intros y Hy. apply in_app_or in Hy as [Hy | Hy].
    + rewrite List.Forall_forall in Hx. apply Hx. exact Hy.
    + apply H12; [left; reflexivity | exact Hy].
Qed.

Lemma StronglySorted_filter {A} (R : A -> A -> Prop) (p : A -> bool) (l : list A) :
  StronglySorted R l -> StronglySorted R (List.filter p l).
Proof.
  induction 1 as [| x l Hs IH Hx]; cbn; [constructor |].
  destruct (p x); [| exact IH]. constructor; [exact IH |].
  rewrite List.Forall_forall in *. intros y Hy. apply filter_In in Hy as [Hy _]. auto.
Qed.

Lemma one_status_sorted (s : ValidationStatus.t) (m : list ValidationResult.t) :
  StronglySorted code_order m ->
  Forall (fun y => ValidationResult.status y = s) m ->
  StronglySorted result_order m.
Proof.
  induction 1 as [| x m Hm IH Hx]; intros Hs; [constructor |].
  apply List.Forall_cons_iff in Hs as [Hxs Hms].
  constructor; [apply IH; exact Hms |].
  rewrite List.Forall_forall in *. intros y Hy. right.
  assert (E : ValidationResult.status x = ValidationResult.status y).
  { rewrite (Hms y Hy). exact Hxs. }
  split; [exact E | apply Hx; assumption].
Qed.

Lemma tier_segment (s : ValidationStatus.t) (l : list ValidationResult.t) :
  StronglySorted code_order l ->
  StronglySorted result_order (List.filter (has_status s) l).
Proof.
  intros H. apply (one_status_sorted s).
  - apply StronglySorted_filter. exact H.
  - apply List.Forall_forall. intros y Hy. apply filter_In in Hy as [_ Hy].
    apply bool_decide_eq_true_1 in Hy. exact Hy.
Qed.

Lemma In_has_status s (l : list ValidationResult.t) x :
  In x (List.filter (has_status s) l) -> ValidationResult.status x = s.
Proof.
  intros H. apply filter_In in H as [_ H]. apply bool_decide_eq_true_1 in H. exact H.
Qed.

(** Sorting by severity turns a list in code order within each status
    into a list in the order of the specification. *)
Lemma sorted_by_severity (l : list ValidationResult.t) :
  StronglySorted code_order l ->
  StronglySorted result_order
    (list_sort bool3_ltb ClaimsValidationEngine.severity_key true l).
Proof.
  intros H. rewrite list_sort_by_severity.
  repeat apply StronglySorted_app_2; try (apply tier_segment; exact H).
  all: intros x y Hx Hy; left.
  all: repeat match goal with
       | H : In _ (_ ++ _) |- _ => apply in_app_or in H as [H | H]
       end.
  all: apply In_has_status in Hx, Hy; rewrite Hx, Hy; cbn; lia.
Qed.

Lemma _run_validation_rule_code code rule ctx b r :
  ClaimsValidationEngine._run_validation code rule ctx b = Some r ->
  ValidationResult.rule_code r = code.
Proof.
  unfold ClaimsValidationEngine._run_validation.
  destruct (Rule.function rule ctx b) as [[r0 |] | e]; intros [= <-]; reflexivity.
Qed.

Section Collected.
Variables (self : ClaimsValidationEngine.t) (ctx : ClaimContext.t)
  (b : BenefitConfiguration.t).

Lemma In_collected codes r :
  In r (collected self ctx b codes) <->
  exists code rule,
    In code codes
    /\ ClaimsValidationEngine.validation_rules self !! code = Some rule
    /\ ClaimsValidationEngine._run_validation code rule ctx b = Some r.
Proof.
  unfold collected. rewrite <- list_elem_of_In, list_elem_of_omap. split.
  - intros (task & Htask & ->). apply list_elem_of_omap in Htask as (code & Hcode & Hrun).
    apply list_elem_of_In in Hcode.
    destruct (ClaimsValidationEngine.validation_rules self !! code) as [rule |] eqn:E;
      [| discriminate].
    injection Hrun as <-. eauto.
  - intros (code & rule & Hcode & Hrule & Hrun).
    exists (Some r). split; [| reflexivity].
    apply list_elem_of_omap. exists code. split; [apply list_elem_of_In; exact Hcode |].
    rewrite Hrule, Hrun. reflexivity.
Qed.

Lemma collected_cons code codes :
  collected self ctx b (code :: codes)
  = match ClaimsValidationEngine.validation_rules self !! code with
    | Some rule =>
        match ClaimsValidationEngine._run_validation code rule ctx b with
        | Some r => r :: collected self ctx b codes
        | None => collected self ctx b codes
        end
    | None => collected self ctx b codes
    end.
Proof.
  unfold collected. cbn [omap list_omap].
  destruct (ClaimsValidationEngine.validation_rules self !! code) as [rule |];
    [| reflexivity].
  cbn [omap list_omap]. destruct (ClaimsValidationEngine._run_validation code rule ctx b);
    reflexivity.
Qed.

Lemma collected_code_order codes :
  (forall code rule r,
     In code codes ->
     ClaimsValidationEngine.validation_rules self !! code = Some rule ->
     ClaimsValidationEngine._run_validation code rule ctx b = Some r ->
     In (ValidationResult.status r) (outcomes code)) ->
  codes_compatible codes = true ->
  StronglySorted code_order (collected self ctx b codes).
Proof.
  induction codes as [| c codes IH]; intros Hout Hok; [constructor |].
  cbn [codes_compatible] in Hok. apply andb_true_iff in Hok as [Hc Hok].
  assert (IH' : StronglySorted code_order (collected self ctx b codes)).
  { apply IH; [| exact Hok]. intros code rule r Hin. apply Hout. right. exact Hin. }
  rewrite collected_cons.
  destruct (ClaimsValidationEngine.validation_rules self !! c) as [rule |] eqn:Erule;
    [| exact IH'].
  destruct (ClaimsValidationEngine._run_validation c rule ctx b) as [r |] eqn:Erun;
    [| exact IH'].
  constructor; [exact IH' |].
  apply List.Forall_forall. intros r' Hr'.
  apply In_collected in Hr' as (c' & rule' & Hc' & Hrule' & Hrun').
  intros Hsame.
  rewrite (_run_validation_rule_code _ _ _ _ _ Erun),
          (_run_validation_rule_code _ _ _ _ _ Hrun').
  pose proof (Hout c rule r (or_introl eq_refl) Erule Erun) as Hs.
  pose proof (Hout c' rule' r' (or_intror Hc') Hrule' Hrun') as Hs'.
  rewrite forallb_forall in Hc. specialize (Hc c' Hc').
  rewrite forallb_forall in Hc. specialize (Hc _ Hs).
  apply orb_true_iff in Hc as [Hc | Hc]; [| exact Hc].
  apply negb_true_iff in Hc. exfalso.
  assert (Hex : existsb (fun status' => bool_decide (ValidationResult.status r = status'))
                  (outcomes c') = true).
  { apply existsb_exists. exists (ValidationResult.status r').
    split; [exact Hs' | apply bool_decide_eq_true_2; exact Hsame]. }
  congruence.
Qed.

End Collected.

Create HintDb validators.
#[local] Hint Unfold
  ClaimsValidationEngine._validate_age_eligibility
  ClaimsValidationEngine._validate_waiting_period
  ClaimsValidationEngine._validate_annual_limit
  ClaimsValidationEngine._validate_preauthorization
  ClaimsValidationEngine._validate_medical_indication
  ClaimsValidationEngine._validate_exclusions
  ClaimsValidationEngine._validate_channel
  ClaimsValidationEngine._validate_duplicate
  ClaimsValidationEngine._validate_prerequisites
  ClaimsValidationEngine._validate_accumulators
  ClaimsValidationEngine._validate_room_upgrade
  ClaimsValidationEngine._validate_surgery_class
  ClaimsValidationEngine._validate_pre_post_hosp
  ClaimsValidationEngine._validate_icu_limits
  ClaimsValidationEngine._validate_recovery_period
  ClaimsValidationEngine._validate_visit_limits
  ClaimsValidationEngine._validate_package_benefits
  ClaimsValidationEngine._validate_referral
  ClaimsValidationEngine._validate_maternity
  ClaimsValidationEngine._validate_dental_class
  ClaimsValidationEngine._validate_optical_cycle
  ClaimsValidationEngine._validate_mental_health
  ClaimsValidationEngine._validate_aso_funds
  ClaimsValidationEngine._validate_buffer_funds
  ClaimsValidationEngine._validate_coinsurance
  ClaimsValidationEngine.result : validators.

(** A validator of the source, run under its code, yields one of
    [outcomes]. *)
Ltac validator_outcome Hrun :=
  unfold ClaimsValidationEngine._run_validation, ClaimsValidationEngine.method in Hrun;
  cbn [Rule.function Rule.name] in Hrun;
  autounfold with validators in Hrun;
  repeat case_match; try discriminate;
  simplify_eq; cbn [ValidationResult.status ValidationResult.set_rule]; vm_compute; tauto.

Lemma builtin_outcomes sha256_hexdigest ctx b code rule r :
  ClaimsValidationEngine.validation_rules (ClaimsValidationEngine.__init__ sha256_hexdigest)
    !! code = Some rule ->
  ClaimsValidationEngine._run_validation code rule ctx b = Some r ->
  In (ValidationResult.status r) (outcomes code).
Proof.
  unfold ClaimsValidationEngine.__init__, ClaimsValidationEngine._initialize_rules,
    ClaimsValidationEngine.register_rule.
  cbn [ClaimsValidationEngine.validation_rules].
  intros Hrule Hrun.
  repeat (apply lookup_insert_Some in Hrule as [[<- <-] | [_ Hrule]];
          [validator_outcome Hrun |]).
  rewrite lookup_empty in Hrule. discriminate.
Qed.

(** The usage example of the source: the exhausted annual limit fails, the
    coinsurance rule passes, and the failure comes first. *)
Example usage_example :
  map (fun r => (ValidationResult.rule_code r, ValidationResult.status r))
    (ClaimsValidationEngine.validate_claim
       (ClaimsValidationEngine.__init__ Sample.no_digest) Sample.context Sample.benefit)
  = [("VAL003", ValidationStatus.FAILED); ("VAL025", ValidationStatus.PASSED)].
Proof. vm_compute. reflexivity. Qed.


(** The sort key is the status alone: results of one status keep the
    order of the rule list, in which VAL023 to VAL025 precede VAL011 to
    VAL022.  The order of codes therefore rests on what the validators of
    the source return; a failing rule registered under VAL023 comes out
    before the failed VAL003. *)
Example reregistered_rule_order :
  map (fun r => (ValidationResult.rule_code r, ValidationResult.status r))
    (ClaimsValidationEngine.validate_claim Sample.engine_with_failing_aso
       (Sample.context_with 1500000%Q 5000000%Q)
       (Sample.benefit_with (Some 2000000%Q)))
  = [("VAL003", ValidationStatus.FAILED); ("VAL023", ValidationStatus.FAILED);
     ("VAL025", ValidationStatus.PASSED)].
Proof. vm_compute. reflexivity. Qed.

(** C5.  When the function of an applicable rule raises, the list returned
    by [validate_claim] contains a FAILED result with the code and name of
    that rule and the message of the exception, and it contains the result
    of every other applicable rule that returned one. *)
Theorem validate_claim_survives_raise
    (self : ClaimsValidationEngine.t) (ctx : ClaimContext.t)
    (b : BenefitConfiguration.t) (rule_code : string) (rule : Rule.t) (e : string) :
  let applicable :=
    ClaimsValidationEngine._get_applicable_rules (BenefitConfiguration.category b) ctx in
  In rule_code applicable ->
  ClaimsValidationEngine.validation_rules self !! rule_code = Some rule ->
  Rule.function rule ctx b = Raise e ->
  In (ValidationResult.mk rule_code (Rule.name rule) ValidationStatus.FAILED
        [Lit "Validation error: "; FStr e] [] false 0)
     (ClaimsValidationEngine.validate_claim self ctx b)
  /\ (forall rule_code' rule' result',
        In rule_code' applicable ->
        ClaimsValidationEngine.validation_rules self !! rule_code' = Some rule' ->
        Rule.function rule' ctx b = Return (Some result') ->
        In (ValidationResult.set_rule rule_code' (Rule.name rule') result')
           (ClaimsValidationEngine.validate_claim self ctx b)).
Proof.
  intros applicable Hin Hrule Hraise.
  assert (Hsorted : forall r,
            In r (ClaimsValidationEngine.validate_claim self ctx b)
            <-> In r (collected self ctx b applicable)).
  { intros r. unfold ClaimsValidationEngine.validate_claim. apply In_list_sort. }
  split.
  - apply Hsorted, In_collected. exists rule_code, rule.
    split; [exact Hin | split; [exact Hrule |]].
    unfold ClaimsValidationEngine._run_validation. rewrite Hraise. reflexivity.
  - intros rule_code' rule' result' Hin' Hrule' Hret.
    apply Hsorted, In_collected. exists rule_code', rule'.
    split; [exact Hin' | split; [exact Hrule' |]].
    unfold ClaimsValidationEngine._run_validation. rewrite Hret. reflexivity.
Qed.

Lemma validate_claim_survives_raise_witness :
  In (ValidationResult.mk "VAL007" "Channel Eligibility" ValidationStatus.FAILED
        [Lit "Validation error: "; FStr "facility_mode"] [] false 0)
     (ClaimsValidationEngine.validate_claim Sample.engine_with_raising_rule
        Sample.context Sample.benefit).
Proof.
  assert (Happlicable :
            In "VAL007"
              (ClaimsValidationEngine._get_applicable_rules
                 (BenefitConfiguration.category Sample.benefit) Sample.context))
    by (cbn; tauto).
  assert (Hrule :
            ClaimsValidationEngine.validation_rules Sample.engine_with_raising_rule
              !! "VAL007"
            = Some (Rule.mk "Channel Eligibility" Sample.raising_rule))
    by reflexivity.
  destruct (validate_claim_survives_raise Sample.engine_with_raising_rule Sample.context
              Sample.benefit "VAL007"
              (Rule.mk "Channel Eligibility" Sample.raising_rule) "facility_mode"
              Happlicable Hrule eq_refl) as [Hsynthetic _].
  exact Hsynthetic.
Defined.

(** With the raising rule in place the other rules still report. *)
Example raising_rule_and_the_others :
  map (fun r => (ValidationResult.rule_code r, ValidationResult.status r))
    (ClaimsValidationEngine.validate_claim Sample.engine_with_raising_rule
       Sample.context Sample.benefit)
  = [("VAL003", ValidationStatus.FAILED); ("VAL007", ValidationStatus.FAILED);
     ("VAL025", ValidationStatus.PASSED)].
Proof. vm_compute. reflexivity. Qed.

(** ** The annual limit and the allowed amount *)

(** C2, as the specification states it, fails twice over: a claim of zero
    against an exhausted limit yields no result, and a limit of zero counts
    as no limit at all. *)
Lemma annual_limit_not_as_stated :
  ~ annual_limit_as_stated (Sample.context_with 0%Q 2000000%Q) Sample.benefit
  /\ ~ annual_limit_as_stated (Sample.context_with 500000%Q 0%Q)
         (Sample.benefit_with (Some 0%Q)).
Proof.
  split; intros H.
  - destruct (H 2000000%Q eq_refl) as [Hfailed _].
    destruct Hfailed as (r & Hr & _); [vm_compute; discriminate |].
    vm_compute in Hr. discriminate Hr.
  - destruct (H 0%Q eq_refl) as [Hfailed _].
    destruct Hfailed as (r & Hr & _); [vm_compute; discriminate |].
    vm_compute in Hr. discriminate Hr.
Qed.

(** C2, amended.  With a limit that is set and not zero, the annual-limit
    rule yields a result exactly when claimed_amount exceeds remaining =
    limit_value - used_amount: FAILED when used_amount >= limit_value and
    WARNING otherwise, in both cases with can_override = true and
    required_authority_level = 2; when claimed_amount does not exceed the
    remainder it yields none. *)
Theorem annual_limit_rule
    (ctx : ClaimContext.t) (b : BenefitConfiguration.t) (limit_value : Decimal) :
  BenefitConfiguration.limit_value b = Some limit_value ->
  ~ (limit_value == 0)%Q ->
  let used_amount :=
    default 0%Q
      (ClaimContext.accumulator_balances ctx
         !! (BenefitConfiguration.benefit_code b +:+ "_annual")) in
  let remaining := (limit_value - used_amount)%Q in
  let claimed_amount := ClaimContext.claimed_amount ctx in
  let rule := ClaimsValidationEngine._validate_annual_limit ctx b in
  ((remaining < claimed_amount)%Q -> (limit_value <= used_amount)%Q ->
   exists r, rule = Some r
             /\ ValidationResult.status r = ValidationStatus.FAILED
             /\ ValidationResult.can_override r = true
             /\ ValidationResult.required_authority_level r = 2)
  /\ ((remaining < claimed_amount)%Q -> (used_amount < limit_value)%Q ->
      exists r, rule = Some r
                /\ ValidationResult.status r = ValidationStatus.WARNING
                /\ ValidationResult.can_override r = true
                /\ ValidationResult.required_authority_level r = 2)
  /\ ((claimed_amount <= remaining)%Q -> rule = None).
Proof.
  intros Hlimit Hnonzero used_amount remaining claimed_amount rule.
  subst rule. unfold ClaimsValidationEngine._validate_annual_limit.
  rewrite Hlimit. rewrite (proj2 (Decimal_bool_true limit_value) Hnonzero).
  fold used_amount. fold remaining. fold claimed_amount.
  split; [| split].
  - intros Hexceeds Hused.
    rewrite (proj2 (Decimal_ltb_lt remaining claimed_amount) Hexceeds).
    assert (Hle : (remaining <= 0)%Q) by (unfold remaining; lra).
    rewrite (proj2 (Decimal_leb_le remaining 0%Q) Hle).
    eexists. split; [reflexivity |]. repeat split.
  - intros Hexceeds Hused.
    rewrite (proj2 (Decimal_ltb_lt remaining claimed_amount) Hexceeds).
    assert (Hgt : (0 < remaining)%Q) by (unfold remaining; lra).
    rewrite (proj2 (Decimal_leb_gt remaining 0%Q) Hgt).
    eexists. split; [reflexivity |]. repeat split.
  - intros Hwithin.
    rewrite (proj2 (Decimal_ltb_ge remaining claimed_amount) Hwithin). reflexivity.
Qed.

(** Scenario S6: 1 800 000 used of 2 000 000 and 500 000 claimed is a
    WARNING that authority level 2 may override. *)
Lemma annual_limit_rule_witness :
  exists r,
    ClaimsValidationEngine._validate_annual_limit
      (Sample.context_with 500000%Q 1800000%Q) Sample.benefit = Some r
    /\ ValidationResult.status r = ValidationStatus.WARNING
    /\ ValidationResult.can_override r = true
    /\ ValidationResult.required_authority_level r = 2.
Proof.
  assert (Hnonzero : ~ (2000000 == 0)%Q) by discriminate.
  destruct (annual_limit_rule (Sample.context_with 500000%Q 1800000%Q) Sample.benefit
              2000000%Q eq_refl Hnonzero) as (_ & Hwarning & _).
  apply Hwarning; vm_compute; reflexivity.
Defined.

(** C10.  When limit_value is exactly zero, [calculate_allowed_amount]
    takes the benefit as unlimited: it returns claimed_amount *
    claim_settlement_pct / 100. *)
Theorem calculate_allowed_amount_zero_limit
    (ctx : ClaimContext.t) (b : BenefitConfiguration.t) (limit_value : Decimal) :
  BenefitConfiguration.limit_value b = Some limit_value ->
  (limit_value == 0)%Q ->
  (ClaimsValidationEngine.calculate_allowed_amount ctx b
   == ClaimContext.claimed_amount ctx
      * inject_Z (BenefitConfiguration.claim_settlement_pct b) / 100)%Q.
Proof.
  intros Hlimit Hzero. unfold ClaimsValidationEngine.calculate_allowed_amount.
  rewrite Hlimit. unfold Decimal_or.
  rewrite (proj2 (Decimal_bool_false limit_value) Hzero).
  rewrite py_min_Qmin, Q.min_id. reflexivity.
Qed.

Lemma calculate_allowed_amount_zero_limit_witness :
  (ClaimsValidationEngine.calculate_allowed_amount Sample.context
     (Sample.benefit_with (Some 0.00%Q))
   == 1500000)%Q.
Proof.
  rewrite (calculate_allowed_amount_zero_limit Sample.context
             (Sample.benefit_with (Some 0.00%Q)) 0.00%Q eq_refl);
    reflexivity.
Defined.

(** Scenario S5: with the limit of 2 000 000 in place, 1 500 000 claimed
    at 100 % is allowed in full. *)
Example scenario_S5_allowed_amount :
  (ClaimsValidationEngine.calculate_allowed_amount Sample.context Sample.benefit
   == 1500000)%Q.
Proof. reflexivity. Qed.

(** * Further properties *)

(** ** More on the pricing engine *)

Import Pricing.

(** *** What a calculation computes and writes *)

Lemma _calculate_member_premium_eq member config s :
  PricingEngine._calculate_member_premium member config s
  = Returned (member_premium s config member)
      (with_policy_member
         (update_first
            (fun m => String.eqb (PolicyMember.member_id m) (PolicyMember.member_id member))
            (PolicyMember.set_base_premium (member_premium s config member))) s).
Proof. reflexivity. Qed.

Lemma member_premium_inputs s s' config m m' :
  same_pricing_inputs s s' -> same_person m m' ->
  member_premium s' config m' = member_premium s config m.
Proof.
  intros (Ht & Hpt & Hab & _ & _ & Hbs & _) Hm.
  unfold member_premium, PricingEngine._calculate_member_premium.
  rewrite !bind_eq. cbn [query]. rewrite !bind_eq. cbn [modify mret M_ret].
  unfold benefit_selections, template, PricingEngine._get_age_band_multiplier,
    PolicyMember.age.
  rewrite Ht, Hpt, Hab, Hbs.
  assert (Hdob : PolicyMember.date_of_birth m' = PolicyMember.date_of_birth m).
  { unfold same_person, PolicyMember.set_base_premium in Hm.
    injection Hm. intros. congruence. }
  assert (Hg : PolicyMember.gender m' = PolicyMember.gender m).
  { unfold same_person, PolicyMember.set_base_premium in Hm.
    injection Hm. intros. congruence. }
  rewrite Hdob, Hg. reflexivity.
Qed.

Lemma same_person_refl m : same_person m m.
Proof. reflexivity. Qed.

Lemma same_person_trans m1 m2 m3 : same_person m1 m2 -> same_person m2 m3 -> same_person m1 m3.
Proof. unfold same_person. congruence. Qed.

Lemma same_person_set v m : same_person m (PolicyMember.set_base_premium v m).
Proof. reflexivity. Qed.

Lemma Forall2_same_person_refl (T : list PolicyMember.t) : List.Forall2 same_person T T.
Proof. induction T; constructor; [reflexivity | assumption]. Qed.

Lemma Forall2_same_person_trans (T1 T2 T3 : list PolicyMember.t) :
  List.Forall2 same_person T1 T2 -> List.Forall2 same_person T2 T3 ->
  List.Forall2 same_person T1 T3.
Proof.
  intros H12. revert T3. induction H12 as [| a b T1 T2 Hab _ IH]; intros T3 H23.
  - inversion H23. constructor.
  - inversion H23 as [| ? c ? T3' Hbc H23']; subst. constructor.
    + eapply same_person_trans; eassumption.
    + apply IH. exact H23'.
Qed.

Lemma update_first_same_person p v (T : list PolicyMember.t) :
  List.Forall2 same_person T (update_first p (PolicyMember.set_base_premium v) T).
Proof.
  induction T as [| m T IH]; cbn; [constructor |].
  destruct (p m); constructor; try apply same_person_set; try reflexivity;
    [apply Forall2_same_person_refl | exact IH].
Qed.

Lemma same_pricing_inputs_refl s : same_pricing_inputs s s.
Proof. repeat split. Qed.

Lemma same_pricing_inputs_members f s : same_pricing_inputs s (with_policy_member f s).
Proof. repeat split. Qed.

(** The member loop of [calculate_premium]. *)
Lemma member_loop s config (L : list PolicyMember.t) :
  forall acc s0,
    same_but_members s s0 ->
    exists s1,
      for_each L (fun member (acc : Decimal * list MemberDetail.t) =>
          if bool_decide (PolicyMember.status member <> MemberStatus.ACTIVE) then mret acc
          else
            member_base ← PricingEngine._calculate_member_premium member config;
            mret ((fst acc + member_base)%Q,
                  (snd acc ++
                     [MemberDetail.mk (PolicyMember.member_id member)
                        (PolicyMember.full_name member)
                        (PolicyMember.age (today s) member)
                        (PolicyMember.gender member)
                        (float member_base)])%list)) acc s0
      = Returned
          (fold_left (fun a m => (a + member_premium s config m)%Q)
             (List.filter is_active L) (fst acc),
           (snd acc ++ map (member_detail s config) (List.filter is_active L))%list) s1
      /\ same_but_members s s1
      /\ List.Forall2 same_person (policy_member s0) (policy_member s1)
      /\ policy_member s1 = fold_left (store_premium s config) L (policy_member s0).
Proof.
  induction L as [| m L IH]; intros [total details] s0 Hs0.
  - exists s0. cbn [List.filter map fold_left for_each mret M_ret fst snd].
    rewrite app_nil_r. repeat split; [exact Hs0 | apply Forall2_same_person_refl].
  - cbn [for_each List.filter]. rewrite bind_eq.
    assert (Hneg : bool_decide (PolicyMember.status m <> MemberStatus.ACTIVE)
                   = negb (is_active m)).
    { unfold is_active.
      destruct (decide (PolicyMember.status m = MemberStatus.ACTIVE)) as [Ha | Ha].
      - rewrite (bool_decide_eq_false_2 _ (fun H => H Ha)), (bool_decide_eq_true_2 _ Ha).
        reflexivity.
      - rewrite (bool_decide_eq_true_2 _ Ha), (bool_decide_eq_false_2 _ Ha).
        reflexivity. }
    rewrite Hneg. cbn [fold_left]. destruct (is_active m) eqn:Hact; cbn [negb].
    + rewrite bind_eq, _calculate_member_premium_eq.
      cbn [mret M_ret fst snd fold_left map].
      assert (Hp : member_premium s0 config m = member_premium s config m).
      { apply member_premium_inputs; [| reflexivity].
        rewrite Hs0. apply same_pricing_inputs_members. }
      rewrite Hp.
      match goal with |- context [for_each L _ ?a ?st] =>
        destruct (IH a st) as (s1 & E & Hs1 & HF & HT)
      end.
      { rewrite Hs0. destruct s; reflexivity. }
      exists s1. cbn [fst snd] in E. rewrite <- app_assoc in E. cbn [app] in E.
      split; [exact E |]. split; [exact Hs1 |]. split.
      * eapply Forall2_same_person_trans; [| exact HF].
        apply update_first_same_person.
      * rewrite HT. f_equal. unfold store_premium. rewrite Hact. reflexivity.
    + cbn [mret M_ret].
      destruct (IH (total, details) s0 Hs0) as (s1 & E & Hs1 & HF & HT).
      exists s1. split; [exact E |]. split; [exact Hs1 |]. split; [exact HF |].
      rewrite HT. f_equal. unfold store_premium. rewrite Hact. reflexivity.
Qed.

Lemma _calculate_factor_breakdown_inputs s s' config :
  same_pricing_inputs s s' ->
  PricingEngine._calculate_factor_breakdown s' config
  = PricingEngine._calculate_factor_breakdown s config.
Proof.
  intros (_ & _ & _ & Hfc & Hfo & Hbs & Htc).
  unfold PricingEngine._calculate_factor_breakdown, benefit_selections, tc_selections,
    factor, option_.
  rewrite Hfc, Hfo, Hbs, Htc. reflexivity.
Qed.

Lemma calculate_premium_effects config_id save s config :
  get config_id s = Some config ->
  exists r s',
    PricingEngine.calculate_premium config_id save s = Returned r s'
    /\ premium_post config_id config r s s'
    /\ premium_effects config_id save config r s s'.
Proof.
  intros Hget. unfold PricingEngine.calculate_premium.
  rewrite bind_eq. cbn [query]. rewrite Hget. rewrite bind_eq.
  destruct (member_loop s config (members s config) (0%Q, []) s (same_but_members_refl s))
    as (s1 & E1 & P1 & F1 & T1).
  match goal with |- context [for_each ?xs ?body ?a0 s] =>
    match type of E1 with _ = ?rhs =>
      assert (E1' : for_each xs body a0 s = rhs) by exact E1
    end
  end.
  rewrite E1'. clear E1 E1'. run_monad.
  assert (Hin : same_pricing_inputs s s1).
  { rewrite P1. apply same_pricing_inputs_members. }
  rewrite (_calculate_factor_breakdown_inputs s s1 config Hin).
  assert (Hget1 : get config_id s1 = Some config) by (rewrite P1; exact Hget).
  assert (Hcfg : policy_config s1 = policy_config s) by (rewrite P1; reflexivity).
  assert (Hwf : approval_workflow s1 = approval_workflow s) by (rewrite P1; reflexivity).
  assert (Hlog : premium_calculation_log s1 = premium_calculation_log s)
    by (rewrite P1; reflexivity).
  destruct Hin as (Ht & Hpt & Hab & Hfc & Hfo & Hbs & Htc).
  destruct save.
  - unfold PricingEngine._save_calculation_log. run_monad.
    eexists _, _. split; [reflexivity |]. split.
    + unfold premium_post, float. cbn.
      repeat split; try reflexivity; try assumption.
      unfold get in *. cbn. apply first_update_first; [reflexivity | exact Hget1].
    + unfold premium_effects, float, same_pricing_inputs. cbn.
      rewrite Hcfg, Hlog. repeat split; try reflexivity; try assumption.
      eexists. split; [reflexivity |]. split; reflexivity.
  - run_monad.
    eexists _, _. split; [reflexivity |]. split.
    + unfold premium_post, float. cbn.
      repeat split; try reflexivity; try assumption.
      unfold get in *. cbn. apply first_update_first; [reflexivity | exact Hget1].
    + unfold premium_effects, float, same_pricing_inputs. cbn.
      rewrite Hcfg. repeat split; try reflexivity; try assumption.
Qed.



Lemma quantize_lower_bound (k : Z) (x : Decimal) :
  (k # 100 <= x)%Q -> (k # 100 <= quantize_ROUND_HALF_UP 2 x)%Q.
Proof.
  intros Hx. destruct (quantize_ROUND_HALF_UP_2dp x) as ([m Hm] & Hclose & _).
  rewrite Hm in *.
  assert (Hlow : (x - (1 # 200) <= m # 100)%Q).
  { apply Qabs_Qle_condition in Hclose. lra. }
  assert (Hk : ((k # 100) - (1 # 200) <= m # 100)%Q) by lra.
  unfold Qle, Qminus, Qplus, Qopp in *. cbn [Qnum Qden] in *. lia.
Qed.



Lemma sum_of_ext {A} (f g : A -> Decimal) (l : list A) :
  (forall x, In x l -> f x = g x) -> sum_of f l = sum_of g l.
Proof.
  unfold sum_of. generalize 0%Q. induction l as [| x l IH]; intros acc H; [reflexivity |].
  cbn [fold_left]. rewrite (H x (or_introl eq_refl)). apply IH.
  intros y Hy. apply H. right. exact Hy.
Qed.

Lemma fold_left_pointwise {A B} (f g : A -> B -> A) (l : list B) :
  (forall a x, f a x = g a x) -> forall a, fold_left f l a = fold_left g l a.
Proof.
  intros H. induction l as [| x l IH]; intros a; [reflexivity |].
  cbn [fold_left]. rewrite H. apply IH.
Qed.

Lemma fold_left_omap {A B C} (f : B -> option C) (g : A -> C -> A) (l : list B) :
  forall a,
    fold_left g (omap f l) a
    = fold_left (fun a x => match f x with Some y => g a y | None => a end) l a.
Proof.
  induction l as [| x l IH]; intros a; [reflexivity |].
  cbn [fold_left omap list_omap]. destruct (f x); cbn [fold_left]; apply IH.
Qed.

Lemma member_premium_sum s config m :
  member_premium s config m = sum_of (member_rate s m) (priced_templates s config).
Proof.
  unfold member_premium, PricingEngine._calculate_member_premium.
  rewrite !bind_eq. cbn [query]. rewrite bind_eq. cbn [modify mret M_ret].
  unfold sum_of, priced_templates. rewrite fold_left_omap.
  apply fold_left_pointwise. intros a sel.
  destruct (BenefitSelection.is_selected sel); [| reflexivity].
  destruct (template s sel); reflexivity.
Qed.

Lemma product_of_cons x l : (product_of (x :: l) == x * product_of l)%Q.
Proof. reflexivity. Qed.

Lemma total_multiplier_product s config :
  (FactorBreakdown.total_multiplier (PricingEngine._calculate_factor_breakdown s config)
   == product_of (selected_factors s config) * product_of (applied_multipliers s config))%Q.
Proof.
  assert (Q1 : forall a : Q, (a == a * 1)%Q) by (intros; ring).
  assert (Q2 : forall a b c : Q, (a * b * c == a * (b * c))%Q) by (intros; ring).
  assert (Q3 : forall a b : Q, (1.000 * a * b == a * b)%Q) by (intros; ring).
  unfold PricingEngine._calculate_factor_breakdown, selected_factors, applied_multipliers.
  set (f1 := fun factors selection => if BenefitSelection.is_selected selection then _ else factors).
  set (f2 := fun factors tc_selection => match factor s tc_selection, option_ s tc_selection with
                                         | Some f, Some o => _ | _, _ => factors end).
  assert (H2 : forall l acc,
    (FactorBreakdown.total_multiplier (fold_left f2 l acc)
     == FactorBreakdown.total_multiplier acc
        * product_of (map PolicyTCSelection.applied_multiplier (List.filter (resolves s) l)))%Q).
  { induction l as [| tc l IH]; intros acc; cbn [fold_left List.filter map].
    - apply Q1.
    - rewrite IH. unfold f2 at 1, resolves at 2.
      destruct (factor s tc), (option_ s tc); cbn [FactorBreakdown.total_multiplier map];
        rewrite ?product_of_cons; try reflexivity. apply Q2. }
  assert (H1 : forall l acc,
    (FactorBreakdown.total_multiplier (fold_left f1 l acc)
     == FactorBreakdown.total_multiplier acc
        * product_of (map BenefitSelection.category_factor
                        (List.filter BenefitSelection.is_selected l)))%Q).
  { induction l as [| sel l IH]; intros acc; cbn [fold_left List.filter map].
    - apply Q1.
    - rewrite IH. unfold f1 at 1.
      destruct (BenefitSelection.is_selected sel); cbn [FactorBreakdown.total_multiplier map];
        rewrite ?product_of_cons; try reflexivity. apply Q2. }
  rewrite H2, H1. cbn [FactorBreakdown.total_multiplier]. apply Q3.
Qed.





Lemma same_person_fields m m' :
  same_person m m' ->
  PolicyMember.member_id m' = PolicyMember.member_id m
  /\ PolicyMember.config_id m' = PolicyMember.config_id m
  /\ PolicyMember.full_name m' = PolicyMember.full_name m
  /\ PolicyMember.date_of_birth m' = PolicyMember.date_of_birth m
  /\ PolicyMember.gender m' = PolicyMember.gender m
  /\ PolicyMember.status m' = PolicyMember.status m.
Proof.
  unfold same_person. destruct m, m'. cbn. intros [= -> -> -> -> -> -> -> ->].
  repeat split.
Qed.

Lemma Forall2_same_person_filter (p : PolicyMember.t -> bool) T T' :
  (forall m m', same_person m m' -> p m' = p m) ->
  List.Forall2 same_person T T' ->
  List.Forall2 same_person (List.filter p T) (List.filter p T').
Proof.
  intros Hp H. induction H as [| m m' T T' Hm _ IH]; [constructor |].
  cbn [List.filter]. rewrite (Hp m m' Hm). destruct (p m); [constructor |]; assumption.
Qed.

Lemma Forall2_same_person_active s s' config config' :
  PolicyConfig.config_id config' = PolicyConfig.config_id config ->
  List.Forall2 same_person (policy_member s) (policy_member s') ->
  List.Forall2 same_person (active_members s config) (active_members s' config').
Proof.
  intros Hid H. unfold active_members, members. rewrite Hid.
  apply Forall2_same_person_filter.
  - intros m m' Hm. unfold is_active.
    destruct (same_person_fields m m' Hm) as (_ & _ & _ & _ & _ & ->). reflexivity.
  - apply Forall2_same_person_filter; [| exact H].
    intros m m' Hm. destruct (same_person_fields m m' Hm) as (_ & -> & _). reflexivity.
Qed.

Lemma member_premium_config s config config' m :
  PolicyConfig.config_id config' = PolicyConfig.config_id config ->
  member_premium s config' m = member_premium s config m.
Proof.
  intros Hid. unfold member_premium, PricingEngine._calculate_member_premium.
  rewrite !bind_eq. cbn [query]. rewrite !bind_eq. cbn [modify mret M_ret].
  unfold benefit_selections. rewrite Hid. reflexivity.
Qed.

Lemma _calculate_factor_breakdown_config s config config' :
  PolicyConfig.config_id config' = PolicyConfig.config_id config ->
  PricingEngine._calculate_factor_breakdown s config'
  = PricingEngine._calculate_factor_breakdown s config.
Proof.
  intros Hid. unfold PricingEngine._calculate_factor_breakdown, benefit_selections,
    tc_selections. rewrite Hid. reflexivity.
Qed.

Lemma sum_of_same_person s s' config config' L L' :
  same_pricing_inputs s s' ->
  PolicyConfig.config_id config' = PolicyConfig.config_id config ->
  List.Forall2 same_person L L' ->
  sum_of (member_premium s' config') L' = sum_of (member_premium s config) L.
Proof.
  intros Hin Hid H. unfold sum_of. generalize 0%Q.
  induction H as [| m m' L L' Hm _ IH]; intros acc; [reflexivity |].
  cbn [fold_left]. rewrite (member_premium_config s' config config' m' Hid).
  rewrite (member_premium_inputs s s' config m m' Hin Hm). apply IH.
Qed.

Lemma member_details_same_person s s' config config' L L' :
  same_pricing_inputs s s' ->
  PolicyConfig.config_id config' = PolicyConfig.config_id config ->
  List.Forall2 same_person L L' ->
  map (member_detail s' config') L' = map (member_detail s config) L.
Proof.
  intros Hin Hid H.
  induction H as [| m m' L L' Hm _ IH]; [reflexivity |].
  cbn [map]. rewrite IH. f_equal. unfold member_detail.
  rewrite (member_premium_config s' config config' m' Hid).
  rewrite (member_premium_inputs s s' config m m' Hin Hm).
  destruct Hin as (Ht & _). rewrite Ht. unfold PolicyMember.age.
  destruct (same_person_fields m m' Hm) as (-> & _ & -> & -> & -> & _). reflexivity.
Qed.

Lemma update_first_idempotent {A} (p : A -> bool) (f : A -> A) (rows : list A) :
  (forall x, p (f x) = p x) -> (forall x, f (f x) = f x) ->
  update_first p f (update_first p f rows) = update_first p f rows.
Proof.
  intros Hp Hf. induction rows as [| r rows IH]; [reflexivity |].
  cbn [update_first]. destruct (p r) eqn:E; cbn [update_first].
  - rewrite Hp, E, Hf. reflexivity.
  - rewrite E, IH. reflexivity.
Qed.



Lemma first_update_first_other {A} (p q : A -> bool) (f : A -> A) (rows : list A) :
  (forall x, q (f x) = q x) -> (forall x, p x = true -> q x = false) ->
  first q (update_first p f rows) = first q rows.
Proof.
  intros Hf Hpq. unfold first. induction rows as [| r rows IH]; [reflexivity |].
  cbn [update_first]. destruct (p r) eqn:E; cbn [find].
  - rewrite Hf, (Hpq r E). reflexivity.
  - rewrite IH. reflexivity.
Qed.



Lemma stores_premium_member_id s config m :
  PolicyMember.member_id (stores_premium s config m) = PolicyMember.member_id m.
Proof. unfold stores_premium. destruct (_ && _); reflexivity. Qed.

Lemma update_first_middle {A} (p : A -> bool) (f : A -> A) (l1 l2 : list A) x :
  (forall y, In y l1 -> p y = false) -> p x = true ->
  update_first p f (l1 ++ x :: l2) = l1 ++ f x :: l2.
Proof.
  intros H1 Hx. induction l1 as [| y l1 IH]; cbn [app update_first].
  - rewrite Hx. reflexivity.
  - rewrite (H1 y (or_introl eq_refl)). rewrite IH; [reflexivity |].
    intros z Hz. apply H1. right. exact Hz.
Qed.

Lemma store_premium_table s config (B : list PolicyMember.t) :
  forall A,
    List.NoDup (map PolicyMember.member_id (A ++ B)) ->
    fold_left (store_premium s config)
      (List.filter (fun r => String.eqb (PolicyMember.config_id r)
                               (PolicyConfig.config_id config)) B)
      (map (stores_premium s config) A ++ B)
    = map (stores_premium s config) (A ++ B).
Proof.
  induction B as [| b B IH]; intros A Hnd.
  - cbn [List.filter fold_left]. rewrite !app_nil_r. reflexivity.
  - assert (Hnd' : List.NoDup (map PolicyMember.member_id ((A ++ [b]) ++ B))).
    { rewrite <- app_assoc. exact Hnd. }
    assert (Hnext : forall v,
              v = stores_premium s config b ->
              fold_left (store_premium s config)
                (List.filter (fun r => String.eqb (PolicyMember.config_id r)
                                         (PolicyConfig.config_id config)) B)
                (map (stores_premium s config) A ++ v :: B)
              = map (stores_premium s config) (A ++ b :: B)).
    { intros v ->. specialize (IH (A ++ [b]) Hnd').
      rewrite map_app in IH. cbn [map] in IH. rewrite <- !app_assoc in IH.
      exact IH. }
    cbn [List.filter].
    destruct (String.eqb (PolicyMember.config_id b) (PolicyConfig.config_id config)) eqn:Hq.
    + cbn [fold_left]. unfold store_premium at 2.
      destruct (is_active b) eqn:Hact.
      * rewrite update_first_middle.
        -- apply Hnext. unfold stores_premium. rewrite Hq, Hact. reflexivity.
        -- intros y Hy. apply in_map_iff in Hy as (a & <- & Ha).
           rewrite stores_premium_member_id. apply String.eqb_neq. intros Heq.
           rewrite map_app in Hnd. cbn [map] in Hnd.
           apply List.NoDup_remove_2 in Hnd. apply Hnd. apply in_or_app. left.
           rewrite <- Heq. apply in_map. exact Ha.
        -- apply String.eqb_refl.
      * apply Hnext. unfold stores_premium. rewrite Hq, Hact. reflexivity.
    + apply Hnext. unfold stores_premium. rewrite Hq. reflexivity.
Qed.



(** *** Submission for approval *)

Lemma threshold_guard (threshold total : Decimal) :
  (0 < threshold)%Q ->
  Decimal_bool total && Decimal_leb threshold total = Decimal_leb threshold total.
Proof.
  intros Hpos. destruct (Decimal_leb threshold total) eqn:E; [| apply andb_false_r].
  rewrite andb_true_r. apply Decimal_bool_true. apply Decimal_leb_le in E.
  intros H0. rewrite H0 in E. lra.
Qed.

Lemma with_approval_workflow_app f g s :
  with_approval_workflow g (with_approval_workflow f s)
  = with_approval_workflow (fun rows => g (f rows)) s.
Proof. reflexivity. Qed.

Lemma _create_approval_workflow_steps config total s :
  PolicyConfig.total_adjusted_premium config = Some total ->
  PricingEngine._create_approval_workflow config s
  = Returned tt
      (with_approval_workflow
         (fun rows => rows ++ approval_steps (PolicyConfig.config_id config) total) s).
Proof.
  intros Htotal. unfold PricingEngine._create_approval_workflow, approval_steps.
  cbn [for_each]. rewrite Htotal.
  rewrite !threshold_guard by reflexivity.
  destruct (Decimal_leb 1000000%Q total), (Decimal_leb 5000000%Q total),
    (Decimal_leb 10000000%Q total); run_monad; f_equal;
    destruct s; unfold with_approval_workflow; cbn; f_equal;
    rewrite <- ?app_assoc, ?app_nil_r; reflexivity.
Qed.

Lemma submit_for_approval_returned config_id submitted_by s config' s' :
  PricingEngine.submit_for_approval config_id submitted_by s = Returned config' s' ->
  exists config r s1,
    get config_id s = Some config
    /\ PolicyConfig.status config = PolicyStatus.DRAFT
    /\ PricingEngine._validate_configuration config s = Returned tt s
    /\ PricingEngine.calculate_premium config_id true s = Returned r s1
    /\ (let pb := CalculationResult.premium_breakdown r in
        config' = PolicyConfig.set_status PolicyStatus.QUOTED
                    (PolicyConfig.set_totals (PremiumBreakdown.base_premium pb)
                       (PremiumBreakdown.adjusted_premium pb)
                       (PremiumBreakdown.total_multiplier pb) config)
        /\ s' = with_approval_workflow
                  (fun rows => rows ++ approval_steps config_id
                                         (PremiumBreakdown.adjusted_premium pb))
                  (with_policy_config
                     (update_first
                        (fun c => String.eqb (PolicyConfig.config_id c) config_id)
                        (PolicyConfig.set_status PolicyStatus.QUOTED)) s1)).
Proof.
  unfold PricingEngine.submit_for_approval. rewrite bind_eq. cbn [query].
  destruct (get config_id s) as [config |] eqn:Hget; [| discriminate].
  rewrite bind_eq. cbn [attr_of mret M_ret].
  destruct (bool_decide (PolicyConfig.status config <> PolicyStatus.DRAFT)) eqn:Hst;
    [discriminate |].
  apply bool_decide_eq_false_1 in Hst.
  assert (Hdraft : PolicyConfig.status config = PolicyStatus.DRAFT).
  { destruct (decide (PolicyConfig.status config = PolicyStatus.DRAFT)); [assumption |].
    exfalso. apply Hst. assumption. }
  rewrite bind_eq.
  destruct (PricingEngine._validate_configuration config s) as [[] s0 | e] eqn:Hval;
    [| discriminate].
  assert (Hs0 : s0 = s).
  { rewrite _validate_configuration_cases in Hval.
    repeat (match type of Hval with context [if ?b then _ else _] => destruct b end;
            try discriminate).
    congruence. }
  subst s0. rewrite bind_eq.
  destruct (calculate_premium_effects config_id true s config Hget) as (r & s1 & E & P & _).
  rewrite E. rewrite bind_eq. cbn [modify]. rewrite bind_eq. cbn [query].
  destruct P as (_ & _ & _ & _ & _ & _ & _ & Hget1 & _).
  set (s2 := with_policy_config _ s1).
  set (pb := CalculationResult.premium_breakdown r) in *.
  set (config2 := PolicyConfig.set_status PolicyStatus.QUOTED
                    (PolicyConfig.set_totals (PremiumBreakdown.base_premium pb)
                       (PremiumBreakdown.adjusted_premium pb)
                       (PremiumBreakdown.total_multiplier pb) config)).
  assert (Hget2 : get config_id s2 = Some config2).
  { unfold get in *. subst s2. cbn. apply first_update_first; [reflexivity | exact Hget1]. }
  rewrite Hget2. rewrite bind_eq. cbn [attr_of mret M_ret]. rewrite bind_eq.
  rewrite (_create_approval_workflow_steps config2 (PremiumBreakdown.adjusted_premium pb) s2)
    by reflexivity.
  rewrite bind_eq. cbn [commit mret M_ret]. intros [= <- <-].
  exists config, r, s1. repeat split; try assumption.
  cbn [PolicyConfig.config_id PolicyConfig.set_status PolicyConfig.set_totals config2].
  rewrite (get_config_id config_id s config Hget). reflexivity.
Qed.

Lemma submit_for_approval_stored config_id submitted_by s config' s' :
  PricingEngine.submit_for_approval config_id submitted_by s = Returned config' s' ->
  get config_id s' = Some config' /\ PolicyConfig.status config' = PolicyStatus.QUOTED.
Proof.
  intros Hsub.
  destruct (submit_for_approval_returned _ _ _ _ _ Hsub)
    as (config & r & s1 & Hget & _ & _ & E & Hc & Hs).
  destruct (calculate_premium_effects config_id true s config Hget) as (r0 & s0 & E0 & P & _).
  rewrite E in E0. injection E0 as <- <-.
  destruct P as (_ & _ & _ & _ & _ & _ & _ & Hget1 & _).
  split; [| rewrite Hc; reflexivity].
  rewrite Hs, Hc. unfold get in *. cbn. apply first_update_first; [reflexivity | exact Hget1].
Qed.





(** *** T&C options *)

Section SortedByKey.
Context {A : Type} (key : A -> Z).

Lemma insert_by_sorted (x : A) (l : list A) :
  StronglySorted (fun a b => key a <= key b) l ->
  StronglySorted (fun a b => key a <= key b) (insert_by Z.ltb key x l).
Proof.
  induction 1 as [| y l Hl IH Hy]; cbn [insert_by].
  - repeat constructor.
  - destruct (key y <? key x) eqn:E.
    + apply Z.ltb_lt in E. constructor; [exact IH |].
      apply List.Forall_forall. intros z Hz. apply In_insert_by in Hz as [-> | Hz]; [lia |].
      rewrite List.Forall_forall in Hy. apply Hy. exact Hz.
    + apply Z.ltb_ge in E. constructor; [constructor; assumption |].
      constructor; [exact E |].
      rewrite List.Forall_forall in Hy. apply List.Forall_forall. intros z Hz.
      specialize (Hy z Hz). lia.
Qed.

Lemma stable_sort_sorted (l : list A) :
  StronglySorted (fun a b => key a <= key b) (stable_sort Z.ltb key l).
Proof.
  induction l as [| x l IH]; cbn; [constructor |]. apply insert_by_sorted. exact IH.
Qed.

End SortedByKey.

(** X10.  For a known factor and an existing configuration,
    [get_applicable_tc_options] reads without writing and returns exactly
    the options of the factor whose bounds, where set, hold for the
    participant count (a bound stored as zero is enforced here), in
    ascending [display_order]. *)
Theorem get_applicable_tc_options_offers
    (s : Session) (config_id : UUID) (factor_code : string)
    (factor : TCFactorConfig.t) (config : PolicyConfig.t) :
  factor_of_code s factor_code = Some factor ->
  get config_id s = Some config ->
  exists options,
    PricingEngine.get_applicable_tc_options config_id factor_code s = Returned options s
    /\ (forall o, In o options <-> offered s config factor o)
    /\ StronglySorted by_display_order options.
Proof.
  intros Hf Hc. unfold PricingEngine.get_applicable_tc_options.
  rewrite bind_eq. cbn [query]. unfold factor_of_code in Hf. rewrite Hf, Hc.
  run_monad. eexists. split; [reflexivity |]. split.
  - intros o. rewrite In_list_sort, filter_In. unfold offered.
    rewrite !andb_true_iff, String.eqb_eq.
    destruct (TCFactorOption.min_participants o) as [mn |],
             (TCFactorOption.max_participants o) as [mx |];
      rewrite ?Z.leb_le; split.
    all: try (intros (Hin & (Hid & Hmn) & Hmx); repeat split; try assumption;
              intros n [= <-]; assumption).
    all: try (intros (Hin & (Hid & Hmn) & Hmx); repeat split; try assumption;
              intros n [=]).
    all: intros (Hin & Hid & Hmn & Hmx); repeat split; try assumption;
      try (apply Hmn; reflexivity); try (apply Hmx; reflexivity).
  - unfold list_sort. apply (stable_sort_sorted TCFactorOption.display_order).
Qed.

Lemma get_applicable_tc_options_offers_witness :
  exists options,
    PricingEngine.get_applicable_tc_options "cfg-20" "NETWORK" Network.session
    = Returned options Network.session
    /\ (forall o, In o options <-> offered Network.session Network.config Network.tc_factor o)
    /\ StronglySorted by_display_order options.
Proof.
  exact (get_applicable_tc_options_offers Network.session "cfg-20" "NETWORK"
           Network.tc_factor Network.config eq_refl eq_refl).
Defined.

(** X11.  Every option that [get_applicable_tc_options] offers is accepted by
    [update_tc_factor]: choosing it by its value, when that value names it
    within the factor, returns the selection carrying the option's id and
    multiplier. *)
Theorem offered_option_is_accepted
    (s : Session) (config_id : UUID) (factor_code : string)
    (factor : TCFactorConfig.t) (config : PolicyConfig.t)
    (options : list TCFactorOption.t) (o : TCFactorOption.t) :
  factor_of_code s factor_code = Some factor ->
  get config_id s = Some config ->
  PricingEngine.get_applicable_tc_options config_id factor_code s = Returned options s ->
  In o options ->
  option_of_value s factor (TCFactorOption.option_value o) = Some o ->
  exists selection s',
    PricingEngine.update_tc_factor config_id factor_code (TCFactorOption.option_value o) s
    = Returned selection s'
    /\ selects selection config_id factor o
    /\ first (this_tc config_id factor) (policy_tc_selection s') = Some selection.
Proof.
  intros Hf Hc Hopts Hin Ho.
  assert (Hoff : offered s config factor o).
  { unfold PricingEngine.get_applicable_tc_options in Hopts.
    rewrite bind_eq in Hopts. cbn [query] in Hopts.
    unfold factor_of_code in Hf. rewrite Hf, Hc in Hopts. run_monad.
    revert Hopts. run_monad. intros [= <-].
    apply In_stable_sort in Hin. apply filter_In in Hin as (Hin & Hb).
    apply andb_true_iff in Hb as [Hb Hmx]. apply andb_true_iff in Hb as [Hid Hmn].
    apply String.eqb_eq in Hid. repeat split; try assumption.
    - intros n Hn. rewrite Hn in Hmn. apply Z.leb_le. exact Hmn.
    - intros n Hn. rewrite Hn in Hmx. apply Z.leb_le. exact Hmx. }
  destruct Hoff as (_ & _ & Hmn & Hmx).
  pose proof (update_tc_factor_cases config_id factor_code (TCFactorOption.option_value o)
                s factor o config Hf Ho Hc) as H.
  cbv zeta in H.
  assert (E1 : optional_int_bool (TCFactorOption.min_participants o)
               && (PolicyConfig.participant_count config
                   <? default 0 (TCFactorOption.min_participants o)) = false).
  { destruct (TCFactorOption.min_participants o) as [n |]; [| reflexivity].
    cbn [default from_option id]. apply andb_false_iff. right. apply Z.ltb_ge.
    apply Hmn. reflexivity. }
  assert (E2 : optional_int_bool (TCFactorOption.max_participants o)
               && (default 0 (TCFactorOption.max_participants o)
                   <? PolicyConfig.participant_count config) = false).
  { destruct (TCFactorOption.max_participants o) as [n |]; [| reflexivity].
    cbn [default from_option id]. apply andb_false_iff. right. apply Z.ltb_ge.
    apply Hmx. reflexivity. }
  rewrite E1, E2 in H. destruct H as (selection & s' & E & Hsel & Hfirst & _).
  exists selection, s'. repeat split; try assumption; apply Hsel.
Qed.

Lemma offered_option_is_accepted_witness :
  exists selection s',
    PricingEngine.update_tc_factor "cfg-20" "NETWORK" "STANDARD" Network.session
    = Returned selection s'
    /\ selects selection "cfg-20" Network.tc_factor Network.standard.
Proof.
  destruct (offered_option_is_accepted Network.session "cfg-20" "NETWORK"
              Network.tc_factor Network.config [Network.standard] Network.standard
              eq_refl eq_refl eq_refl (or_introl eq_refl) eq_refl)
    as (selection & s' & E & Hsel & _).
  exists selection, s'. split; assumption.
Defined.

Lemma count_update_first {A} (p : A -> bool) (f : A -> A) (rows : list A) :
  (forall x, p (f x) = p x) -> count p (update_first p f rows) = count p rows.
Proof.
  intros Hp. unfold count. f_equal.
  induction rows as [| r rows IH]; [reflexivity |].
  cbn [update_first]. destruct (p r) eqn:E; cbn [List.filter].
  - rewrite Hp, E. reflexivity.
  - rewrite E. exact IH.
Qed.

Lemma filter_update_first_other {A} (p q : A -> bool) (f : A -> A) (rows : list A) :
  (forall x, p x = true -> q x = false) -> (forall x, q (f x) = q x) ->
  List.filter q (update_first p f rows) = List.filter q rows.
Proof.
  intros Hpq Hf. induction rows as [| r rows IH]; [reflexivity |].
  cbn [update_first]. destruct (p r) eqn:E; cbn [List.filter].
  - rewrite Hf, (Hpq r E). reflexivity.
  - rewrite IH. reflexivity.
Qed.

Lemma count_first_Some {A} (p : A -> bool) (rows : list A) x :
  first p rows = Some x -> 1 <= count p rows.
Proof.
  unfold first, count. intros H. apply find_some in H as [Hin Hp].
  assert (Hf : In x (List.filter p rows)) by (apply filter_In; auto).
  destruct (List.filter p rows); [destruct Hf |]. cbn [length]. lia.
Qed.

Lemma count_first_None {A} (p : A -> bool) (rows : list A) :
  first p rows = None -> count p rows = 0.
Proof.
  intros H. apply count_zero. intros x Hx. unfold first in H.
  apply (find_none _ _ H). exact Hx.
Qed.

Lemma count_app {A} (p : A -> bool) (l1 l2 : list A) :
  count p (l1 ++ l2) = count p l1 + count p l2.
Proof. unfold count. rewrite List.filter_app, List.length_app. lia. Qed.

Lemma update_tc_factor_table config_id factor_code option_value s selection s' :
  PricingEngine.update_tc_factor config_id factor_code option_value s
  = Returned selection s' ->
  exists factor option,
    factor_of_code s factor_code = Some factor
    /\ option_of_value s factor option_value = Some option
    /\ selects selection config_id factor option
    /\ s' = with_policy_tc_selection (fun _ => policy_tc_selection s') s
    /\ policy_tc_selection s'
       = match first (this_tc config_id factor) (policy_tc_selection s) with
         | Some _ =>
             update_first (this_tc config_id factor)
               (fun r => PolicyTCSelection.mk (PolicyTCSelection.config_id r)
                           (PolicyTCSelection.factor_id r)
                           (Some (TCFactorOption.option_id option))
                           (TCFactorOption.multiplier option))
               (policy_tc_selection s)
         | None => policy_tc_selection s ++ [selection]
         end.
Proof.
  unfold PricingEngine.update_tc_factor, factor_of_code, option_of_value.
  rewrite bind_eq. cbn [query].
  destruct (first _ (tc_factor_config s)) as [factor |]; [| discriminate].
  destruct (first _ (tc_factor_option s)) as [option |] eqn:Eo; [| discriminate].
  cbv zeta. fold (this_tc config_id factor).
  intros H. exists factor, option. split; [reflexivity |]. split; [exact Eo |].
  revert H.
  destruct (optional_int_bool (TCFactorOption.min_participants option));
    destruct (optional_int_bool (TCFactorOption.max_participants option));
    destruct (get config_id s) as [config |]; run_monad; try discriminate;
    repeat (match goal with
            | |- context [if ?b then _ else _] =>
                match type of b with bool => destruct b end
            end; run_monad; try discriminate);
    intros [= <- <-];
    (split; [| split; [destruct s; reflexivity |
                       cbn [policy_tc_selection with_policy_tc_selection];
                       destruct (first (this_tc config_id factor) (policy_tc_selection s));
                       reflexivity]]).
  all: destruct (first (this_tc config_id factor) (policy_tc_selection s)) as [row |] eqn:Erow;
    [| repeat split].
  all: unfold first in Erow; apply find_some in Erow as [_ Hrow];
    unfold this_tc in Hrow; apply andb_true_iff in Hrow as [H1 H2];
    apply String.eqb_eq in H1, H2; repeat split; cbn; assumption.
Qed.

(** X12.  [update_tc_factor] is an upsert: after it the configuration has one
    selection for the factor if it had none, and as many as before
    otherwise; selections of other factors or configurations and all
    other tables are untouched. *)
Theorem update_tc_factor_one_selection_per_factor
    (s : Session) (config_id : UUID) (factor_code option_value : string)
    (selection : PolicyTCSelection.t) (s' : Session) :
  PricingEngine.update_tc_factor config_id factor_code option_value s
  = Returned selection s' ->
  exists factor,
    factor_of_code s factor_code = Some factor
    /\ count (this_tc config_id factor) (policy_tc_selection s')
       = Z.max 1 (count (this_tc config_id factor) (policy_tc_selection s))
    /\ List.filter (fun r => negb (this_tc config_id factor r)) (policy_tc_selection s')
       = List.filter (fun r => negb (this_tc config_id factor r)) (policy_tc_selection s)
    /\ s' = with_policy_tc_selection (fun _ => policy_tc_selection s') s.
Proof.
  intros H.
  destruct (update_tc_factor_table _ _ _ _ _ _ H)
    as (factor & option & Hf & _ & Hsel & Hs & Hrows).
  exists factor. split; [exact Hf |]. split; [| split; [| exact Hs]].
  - rewrite Hrows.
    destruct (first (this_tc config_id factor) (policy_tc_selection s)) as [row |] eqn:Erow.
    + rewrite count_update_first by reflexivity.
      apply count_first_Some in Erow. lia.
    + rewrite count_app, (count_first_None _ _ Erow).
      destruct Hsel as (H1 & H2 & _). unfold count. cbn [List.filter].
      unfold this_tc at 1. rewrite H1, H2, !String.eqb_refl. reflexivity.
  - rewrite Hrows.
    destruct (first (this_tc config_id factor) (policy_tc_selection s)) as [row |] eqn:Erow.
    + apply filter_update_first_other.
      * intros x Hx. rewrite Hx. reflexivity.
      * reflexivity.
    + rewrite List.filter_app. cbn [List.filter].
      destruct Hsel as (H1 & H2 & _).
      unfold this_tc at 2. rewrite H1, H2, !String.eqb_refl. cbn. apply app_nil_r.
Qed.

Lemma update_tc_factor_one_selection_per_factor_witness :
  exists selection s',
    PricingEngine.update_tc_factor "cfg-20" "NETWORK" "STANDARD" Network.session
    = Returned selection s'
    /\ count (this_tc "cfg-20" Network.tc_factor) (policy_tc_selection s') = 1.
Proof.
  eexists _, _. split.
  - vm_compute. reflexivity.
  - edestruct (update_tc_factor_one_selection_per_factor Network.session "cfg-20"
                 "NETWORK" "STANDARD") as (factor & Hf & Hcount & _).
    + vm_compute. reflexivity.
    + injection Hf as <-. exact Hcount.
Defined.

(** *** Benefit categories *)

Lemma update_first_compose {A} (p : A -> bool) (f g : A -> A) (rows : list A) :
  (forall x, p (f x) = p x) ->
  update_first p g (update_first p f rows) = update_first p (fun x => g (f x)) rows.
Proof.
  intros Hp. induction rows as [| r rows IH]; [reflexivity |].
  cbn [update_first]. destruct (p r) eqn:E; cbn [update_first].
  - rewrite Hp, E. reflexivity.
  - rewrite E, IH. reflexivity.
Qed.

Lemma update_first_fixed {A} (p : A -> bool) (f : A -> A) (rows : list A) x :
  first p rows = Some x -> f x = x -> update_first p f rows = rows.
Proof.
  unfold first. induction rows as [| r rows IH]; [reflexivity |].
  cbn [find update_first]. destruct (p r).
  - intros [= ->] ->. reflexivity.
  - intros H1 H2. rewrite IH; auto.
Qed.

Lemma with_benefit_selection_compose f g s :
  with_benefit_selection g (with_benefit_selection f s)
  = with_benefit_selection (fun rows => g (f rows)) s.
Proof. reflexivity. Qed.



(** *** Default T&C selections *)

Lemma _initialize_default_tc_factors_loop s config (factors : list TCFactorConfig.t) :
  forall s0,
    for_each factors (fun f (_ : unit) =>
      let default_option :=
        match first TCFactorOption.is_default (options s f) with
        | Some opt => Some opt
        | None => head (options s f)
        end in
      match default_option with
      | Some opt =>
          modify (with_policy_tc_selection (fun rows =>
            rows ++ [PolicyTCSelection.mk (PolicyConfig.config_id config)
                       (TCFactorConfig.factor_id f)
                       (Some (TCFactorOption.option_id opt))
                       (TCFactorOption.multiplier opt)]))
      | None => mret tt
      end) tt s0
    = Returned tt
        (with_policy_tc_selection
           (fun rows => rows ++ omap (default_selection s config) factors) s0).
Proof.
  induction factors as [| f factors IH]; intros s0.
  - cbn [for_each omap list_omap mret M_ret]. f_equal. destruct s0.
    unfold with_policy_tc_selection. cbn. rewrite app_nil_r. reflexivity.
  - cbn [for_each omap list_omap]. rewrite bind_eq. cbv zeta.
    destruct (match first TCFactorOption.is_default (options s f) with
              | Some opt => Some opt
              | None => head (options s f)
              end) as [opt |] eqn:Eopt.
    + assert (Hsel : default_selection s config f
                     = Some (PolicyTCSelection.mk (PolicyConfig.config_id config)
                               (TCFactorConfig.factor_id f)
                               (Some (TCFactorOption.option_id opt))
                               (TCFactorOption.multiplier opt)))
        by (unfold default_selection; rewrite Eopt; reflexivity).
      rewrite Hsel. cbn [modify]. rewrite IH. f_equal. destruct s0.
      unfold with_policy_tc_selection. cbn. rewrite <- app_assoc. reflexivity.
    + assert (Hsel : default_selection s config f = None)
        by (unfold default_selection; rewrite Eopt; reflexivity).
      rewrite Hsel. cbn [mret M_ret]. rewrite IH. reflexivity.
Qed.

(** X14.  [_initialize_default_tc_factors] appends one selection for every
    active factor that has options, in the order of the factors, and none
    for any other factor.  Each belongs to the configuration, names an
    option of its factor with that option's multiplier, and names a
    default-flagged option whenever the factor has one. *)
Theorem _initialize_default_tc_factors_selections (s : Session) (config : PolicyConfig.t) :
  exists added,
    PricingEngine._initialize_default_tc_factors config s
    = Returned tt (with_policy_tc_selection (fun rows => rows ++ added) s)
    /\ map PolicyTCSelection.factor_id added
       = map TCFactorConfig.factor_id
           (List.filter (fun f => TCFactorConfig.is_active f
                                  && negb (bool_decide (options s f = [])))
              (tc_factor_config s))
    /\ List.Forall (chosen_default s config) added.
Proof.
  exists (omap (default_selection s config)
            (List.filter TCFactorConfig.is_active (tc_factor_config s))).
  split; [| split].
  - unfold PricingEngine._initialize_default_tc_factors. rewrite bind_eq. cbn [query].
    apply _initialize_default_tc_factors_loop.
  - induction (tc_factor_config s) as [| f factors IH]; [reflexivity |].
    cbn [List.filter]. destruct (TCFactorConfig.is_active f); cbn [andb]; [| exact IH].
    cbn [omap list_omap]. unfold default_selection at 1.
    destruct (options s f) as [| o rest] eqn:Eo.
    + cbn. exact IH.
    + rewrite bool_decide_eq_false_2 by discriminate. cbn [negb map].
      destruct (first TCFactorOption.is_default (o :: rest)); cbn [map head];
        rewrite IH; reflexivity.
  - apply List.Forall_forall. intros sel Hsel.
    apply list_elem_of_In, list_elem_of_omap in Hsel as (f & Hf & Hsel).
    unfold default_selection in Hsel. unfold chosen_default.
    assert (Hopt : forall o, In o (options s f) ->
                   In o (tc_factor_option s)
                   /\ TCFactorOption.factor_id o = TCFactorConfig.factor_id f).
    { intros o Ho. unfold options in Ho. apply filter_In in Ho as [Hin Hid].
      apply String.eqb_eq in Hid. auto. }
    destruct (first TCFactorOption.is_default (options s f)) as [opt |] eqn:Ed.
    + injection Hsel as <-. cbn. split; [reflexivity |]. exists opt.
      unfold first in Ed. apply find_some in Ed as [Hin Hd].
      destruct (Hopt opt Hin) as [H1 H2]. repeat split; auto.
    + destruct (options s f) as [| o rest] eqn:Eo; [discriminate |].
      injection Hsel as <-. cbn. split; [reflexivity |]. exists o.
      destruct (Hopt o (or_introl eq_refl)) as [H1 H2]. repeat split; auto.
      right. intros o' Hin' Hid'. unfold first in Ed.
      apply (find_none _ _ Ed). rewrite <- Eo. unfold options.
      apply filter_In. split; [exact Hin' |]. apply String.eqb_eq. exact Hid'.
Qed.

(** *** The model classes of [models.py] *)

Lemma Decimal_or_nonzero (x d : Decimal) : ~ (x == 0)%Q -> Decimal_or (Some x) d = x.
Proof.
  intros H. unfold Decimal_or. cbn. apply Decimal_bool_true in H. rewrite H. reflexivity.
Qed.

(** X15.  [PolicyConfig.calculate_total_factor] of the model class and the
    total multiplier of the engine agree whenever no selected category
    factor and no applied multiplier is zero and every T&C selection
    resolves to a factor and an option.  (The model class replaces a zero
    by 1.000 and counts dangling selections; the engine does neither.) *)
Theorem calculate_total_factor_agrees (s : Session) (config : PolicyConfig.t) :
  (forall selection,
     In selection (benefit_selections s config) ->
     BenefitSelection.is_selected selection = true ->
     ~ (BenefitSelection.category_factor selection == 0)%Q) ->
  (forall tc_selection,
     In tc_selection (tc_selections s config) ->
     resolves s tc_selection = true
     /\ ~ (PolicyTCSelection.applied_multiplier tc_selection == 0)%Q) ->
  calculate_total_factor s config
  = FactorBreakdown.total_multiplier (PricingEngine._calculate_factor_breakdown s config).
Proof.
  intros Hb Ht. unfold PricingEngine._calculate_factor_breakdown.
  set (f1 := fun factors selection => if BenefitSelection.is_selected selection then _ else factors).
  set (f2 := fun factors tc_selection => match factor s tc_selection, option_ s tc_selection with
                                         | Some f, Some o => _ | _, _ => factors end).
  unfold calculate_total_factor.
  set (g1 := fun (total : Q) selection => if BenefitSelection.is_selected selection then _ else total).
  set (g2 := fun (total : Q) tc_selection => (total * _)%Q).
  assert (H1 : forall l acc,
            (forall x, In x l -> BenefitSelection.is_selected x = true ->
                       ~ (BenefitSelection.category_factor x == 0)%Q) ->
            fold_left g1 l (FactorBreakdown.total_multiplier acc)
            = FactorBreakdown.total_multiplier (fold_left f1 l acc)).
  { induction l as [| x l IH]; intros acc Hl; [reflexivity |].
    cbn [fold_left]. rewrite <- IH by (intros y Hy; apply Hl; right; exact Hy).
    f_equal. unfold g1, f1. destruct (BenefitSelection.is_selected x) eqn:E; [| reflexivity].
    cbn [FactorBreakdown.total_multiplier].
    rewrite Decimal_or_nonzero by (apply Hl; [left; reflexivity | exact E]). reflexivity. }
  assert (H2 : forall l acc,
            (forall x, In x l -> resolves s x = true
                       /\ ~ (PolicyTCSelection.applied_multiplier x == 0)%Q) ->
            fold_left g2 l (FactorBreakdown.total_multiplier acc)
            = FactorBreakdown.total_multiplier (fold_left f2 l acc)).
  { induction l as [| x l IH]; intros acc Hl; [reflexivity |].
    cbn [fold_left]. rewrite <- IH by (intros y Hy; apply Hl; right; exact Hy).
    f_equal. unfold g2, f2. destruct (Hl x (or_introl eq_refl)) as [Hr Hnz].
    unfold resolves in Hr. destruct (factor s x); [| discriminate].
    destruct (option_ s x); [| discriminate].
    cbn [FactorBreakdown.total_multiplier].
    rewrite Decimal_or_nonzero by exact Hnz. reflexivity. }
  rewrite <- H2 by exact Ht. rewrite <- H1 by exact Hb. reflexivity.
Qed.

Lemma calculate_total_factor_agrees_witness :
  calculate_total_factor S1.session S1.config
  = FactorBreakdown.total_multiplier
      (PricingEngine._calculate_factor_breakdown S1.session S1.config).
Proof.
  apply calculate_total_factor_agrees.
  - intros selection Hin Hsel. vm_compute in Hin.
    repeat (destruct Hin as [<- | Hin]; [vm_compute; discriminate |]). destruct Hin.
  - intros tc Hin. vm_compute in Hin. destruct Hin.
Defined.

(** X16.  A member's premium depends on the member through age alone below
    18, and through age and gender from 18 on: two members of the same age
    are priced alike when they are minors or of the same gender. *)
Theorem member_premium_by_age_and_gender
    (s : Session) (config : PolicyConfig.t) (member member' : PolicyMember.t) :
  PolicyMember.age (today s) member' = PolicyMember.age (today s) member ->
  (18 <= PolicyMember.age (today s) member ->
   PolicyMember.gender member' = PolicyMember.gender member) ->
  member_premium s config member' = member_premium s config member.
Proof.
  intros Hage Hgender. rewrite !member_premium_sum. apply sum_of_ext. intros t _.
  unfold member_rate, ProductTemplate.get_base_premium,
    PricingEngine._get_age_band_multiplier. rewrite Hage.
  destruct (PolicyMember.age (today s) member <? 18) eqn:E.
  - apply Z.ltb_lt in E.
    assert (E' : (18 <=? PolicyMember.age (today s) member) = false) by (apply Z.leb_gt; lia).
    rewrite E'. reflexivity.
  - apply Z.ltb_ge in E. rewrite (Hgender E). reflexivity.
Qed.

Lemma member_premium_by_age_and_gender_witness :
  member_premium S1.session S1.config
    (S1.employee 11 Gender.FEMALE 2015 MemberStatus.ACTIVE)
  = member_premium S1.session S1.config
      (S1.employee 12 Gender.MALE 2015 MemberStatus.ACTIVE).
Proof.
  apply member_premium_by_age_and_gender.
  - reflexivity.
  - vm_compute. intros H. exfalso. apply H. reflexivity.
Defined.

(** X17.  [RateTable.get_rate] is constant on each age band of
    [PolicyMember.get_age_band]: two members in the same band, both male
    or both not, are given the same rate. *)
Theorem get_rate_by_age_band
    (today : date) (rate : RateTable.t) (member member' : PolicyMember.t) :
  PolicyMember.get_age_band today member' = PolicyMember.get_age_band today member ->
  (PolicyMember.gender member' = Gender.MALE <-> PolicyMember.gender member = Gender.MALE) ->
  RateTable.get_rate rate (PolicyMember.age today member') (PolicyMember.gender member')
  = RateTable.get_rate rate (PolicyMember.age today member) (PolicyMember.gender member).
Proof.
  intros Hband Hg. unfold PolicyMember.get_age_band, RateTable.get_rate in *.
  assert (Hm : bool_decide (PolicyMember.gender member' = Gender.MALE)
               = bool_decide (PolicyMember.gender member = Gender.MALE)).
  { apply bool_decide_ext. exact Hg. }
  rewrite Hm.
  set (a := PolicyMember.age today member) in *.
  set (a' := PolicyMember.age today member') in *.
  destruct (a <? 18), (a' <? 18); try discriminate; try reflexivity;
  destruct (a <=? 55), (a' <=? 55); try discriminate; try reflexivity;
  destruct (a <=? 60), (a' <=? 60); try discriminate; try reflexivity;
  destruct (a <=? 65), (a' <=? 65); try discriminate; try reflexivity;
  destruct (a <=? 70), (a' <=? 70); try discriminate; try reflexivity;
  destruct (a <=? 75), (a' <=? 75); try discriminate; reflexivity.
Qed.

Lemma get_rate_by_age_band_witness :
  RateTable.get_rate sample_rate_table
    (PolicyMember.age (mk_date 2025 6 1) (S1.employee 1 Gender.MALE 1990 MemberStatus.ACTIVE))
    Gender.MALE
  = RateTable.get_rate sample_rate_table
      (PolicyMember.age (mk_date 2025 6 1) (S1.employee 2 Gender.MALE 1975 MemberStatus.ACTIVE))
      Gender.MALE.
Proof.
  apply (get_rate_by_age_band (mk_date 2025 6 1) sample_rate_table
           (S1.employee 2 Gender.MALE 1975 MemberStatus.ACTIVE)
           (S1.employee 1 Gender.MALE 1990 MemberStatus.ACTIVE)).
  - reflexivity.
  - split; reflexivity.
Defined.

(** *** A T&C change and the total multiplier *)

Lemma first_split {A} (p : A -> bool) (rows : list A) x :
  first p rows = Some x ->
  exists l1 l2, rows = l1 ++ x :: l2 /\ (forall y, In y l1 -> p y = false) /\ p x = true.
Proof.
  unfold first. induction rows as [| r rows IH]; [discriminate |].
  cbn [find]. destruct (p r) eqn:E.
  - intros [= ->]. exists [], rows. repeat split; [intros y [] | exact E].
  - intros H. destruct (IH H) as (l1 & l2 & -> & Hl1 & Hx).
    exists (r :: l1), l2. repeat split; [| exact Hx].
    intros y [<- | Hy]; [exact E | apply Hl1; exact Hy].
Qed.

Lemma resolves_inputs s s' tc :
  tc_factor_config s' = tc_factor_config s ->
  tc_factor_option s' = tc_factor_option s ->
  resolves s' tc = resolves s tc.
Proof. intros H1 H2. unfold resolves, factor, option_. rewrite H1, H2. reflexivity. Qed.

Lemma product_of_middle (l1 l2 : list Decimal) (x : Decimal) :
  (product_of (l1 ++ x :: l2) == x * (product_of l1 * product_of l2))%Q.
Proof.
  assert (Q1 : forall a b : Q, (a * b == a * (1 * b))%Q) by (intros; ring).
  assert (Q2 : forall a b c d : Q, (a * (b * (c * d)) == b * (a * c * d))%Q) by (intros; ring).
  induction l1 as [| y l1 IH]; cbn [app].
  - rewrite product_of_cons. apply Q1.
  - rewrite !product_of_cons, IH. apply Q2.
Qed.

Lemma applied_multipliers_middle s (l1 l2 : list PolicyTCSelection.t) x :
  resolves s x = true ->
  (product_of (map PolicyTCSelection.applied_multiplier (List.filter (resolves s) (l1 ++ x :: l2)))
   == PolicyTCSelection.applied_multiplier x
      * (product_of (map PolicyTCSelection.applied_multiplier (List.filter (resolves s) l1))
         * product_of (map PolicyTCSelection.applied_multiplier
                         (List.filter (resolves s) l2))))%Q.
Proof.
  intros Hx. rewrite List.filter_app. cbn [List.filter]. rewrite Hx.
  rewrite map_app. cbn [map]. apply product_of_middle.
Qed.



(** ** More on the validation engine *)

Import Validation.

(** *** The list of results *)

Section SortPermutation.
Context {A K : Type} (ltb : K -> K -> bool) (key : A -> K).

Lemma insert_by_Permutation (x : A) (l : list A) :
  Permutation (insert_by ltb key x l) (x :: l).
Proof.
  induction l as [| y l IH]; cbn [insert_by]; [reflexivity |].
  destruct (ltb (key y) (key x)); [| reflexivity].
  rewrite IH. apply perm_swap.
Qed.

Lemma stable_sort_Permutation (l : list A) : Permutation (stable_sort ltb key l) l.
Proof.
  induction l as [| x l IH]; cbn; [reflexivity |].
  rewrite insert_by_Permutation, IH. reflexivity.
Qed.

Lemma list_sort_Permutation (reverse : bool) (l : list A) :
  Permutation (list_sort ltb key reverse l) l.
Proof.
  unfold list_sort. destruct reverse.
  - rewrite <- Permutation_rev, stable_sort_Permutation, <- Permutation_rev. reflexivity.
  - apply stable_sort_Permutation.
Qed.

End SortPermutation.

Lemma validate_claim_collected self ctx b :
  ClaimsValidationEngine.validate_claim self ctx b
  = list_sort bool3_ltb ClaimsValidationEngine.severity_key true
      (collected self ctx b
         (ClaimsValidationEngine._get_applicable_rules (BenefitConfiguration.category b) ctx)).
Proof. reflexivity. Qed.

Lemma In_validate_claim self ctx b r :
  In r (ClaimsValidationEngine.validate_claim self ctx b)
  <-> exists code rule,
        In code (ClaimsValidationEngine._get_applicable_rules
                   (BenefitConfiguration.category b) ctx)
        /\ ClaimsValidationEngine.validation_rules self !! code = Some rule
        /\ ClaimsValidationEngine._run_validation code rule ctx b = Some r.
Proof. rewrite validate_claim_collected, In_list_sort. apply In_collected. Qed.

Lemma _run_validation_rule_name code rule ctx b r :
  ClaimsValidationEngine._run_validation code rule ctx b = Some r ->
  ValidationResult.rule_name r = Rule.name rule.
Proof.
  unfold ClaimsValidationEngine._run_validation.
  destruct (Rule.function rule ctx b) as [[r0 |] | e]; intros [= <-]; reflexivity.
Qed.

Lemma collected_NoDup self ctx b codes :
  List.NoDup codes ->
  List.NoDup (map ValidationResult.rule_code (collected self ctx b codes)).
Proof.
  induction 1 as [| c codes Hc Hnd IH]; [constructor |].
  rewrite collected_cons.
  destruct (ClaimsValidationEngine.validation_rules self !! c) as [rule |]; [| exact IH].
  destruct (ClaimsValidationEngine._run_validation c rule ctx b) as [r |] eqn:Er;
    [| exact IH].
  cbn [map]. constructor; [| exact IH].
  rewrite (_run_validation_rule_code _ _ _ _ _ Er). intros Hin.
  apply in_map_iff in Hin as (r' & Hcode & Hr').
  apply In_collected in Hr' as (c' & rule' & Hc' & _ & Hrun').
  rewrite (_run_validation_rule_code _ _ _ _ _ Hrun') in Hcode. subst c'.
  apply Hc. exact Hc'.
Qed.

Lemma _get_applicable_rules_NoDup category ctx :
  List.NoDup (ClaimsValidationEngine._get_applicable_rules category ctx).
Proof.
  destruct category; cbn;
    repeat (constructor; [cbn; intuition discriminate |]); constructor.
Qed.

(** X19.  For any registry, every result of [validate_claim] carries the code
    of an applicable, registered rule together with the name registered
    for that code, and no two results carry the same code. *)
Theorem validate_claim_one_result_per_rule
    (self : ClaimsValidationEngine.t) (ctx : ClaimContext.t) (b : BenefitConfiguration.t) :
  let results := ClaimsValidationEngine.validate_claim self ctx b in
  (forall r,
     In r results ->
     exists rule,
       In (ValidationResult.rule_code r)
          (ClaimsValidationEngine._get_applicable_rules (BenefitConfiguration.category b) ctx)
       /\ ClaimsValidationEngine.validation_rules self !! ValidationResult.rule_code r
          = Some rule
       /\ ValidationResult.rule_name r = Rule.name rule)
  /\ List.NoDup (map ValidationResult.rule_code results).
Proof.
  cbv zeta. split.
  - intros r Hr. apply In_validate_claim in Hr as (code & rule & Hcode & Hrule & Hrun).
    exists rule. rewrite (_run_validation_rule_code _ _ _ _ _ Hrun).
    rewrite (_run_validation_rule_name _ _ _ _ _ Hrun). auto.
  - rewrite validate_claim_collected.
    eapply Permutation_NoDup.
    + apply Permutation_map. symmetry. apply list_sort_Permutation.
    + apply collected_NoDup, _get_applicable_rules_NoDup.
Qed.

(** X20.  [can_auto_adjudicate] holds exactly when [get_pend_reasons] is
    empty. *)
Theorem can_auto_adjudicate_iff_no_pend_reasons (results : list ValidationResult.t) :
  ClaimsValidationEngine.can_auto_adjudicate results = true
  <-> ClaimsValidationEngine.get_pend_reasons results = [].
Proof.
  unfold ClaimsValidationEngine.can_auto_adjudicate, ClaimsValidationEngine.get_pend_reasons.
  induction results as [| r results IH]; cbn [existsb List.filter map]; [tauto |].
  destruct (ClaimsValidationEngine.is_failed_or_pending r); cbn [orb negb map].
  - split; discriminate.
  - exact IH.
Qed.

(** X21.  A rule registered under a code that [_get_applicable_rules] does
    not list for the benefit's category is never run: [validate_claim]
    returns the same list with and without it. *)
Theorem register_rule_outside_applicable
    (self : ClaimsValidationEngine.t) (rule_code rule_name : string)
    (validator_func : Validator) (ctx : ClaimContext.t) (b : BenefitConfiguration.t) :
  ~ In rule_code
      (ClaimsValidationEngine._get_applicable_rules (BenefitConfiguration.category b) ctx) ->
  ClaimsValidationEngine.validate_claim
    (ClaimsValidationEngine.register_rule self rule_code rule_name validator_func) ctx b
  = ClaimsValidationEngine.validate_claim self ctx b.
Proof.
  intros Hout. rewrite !validate_claim_collected. f_equal.
  induction (ClaimsValidationEngine._get_applicable_rules (BenefitConfiguration.category b) ctx)
    as [| c codes IH]; [reflexivity |].
  rewrite !collected_cons.
  assert (Hc : c <> rule_code) by (intros ->; apply Hout; left; reflexivity).
  unfold ClaimsValidationEngine.register_rule at 1.
  cbn [ClaimsValidationEngine.validation_rules].
  rewrite lookup_insert_ne by congruence.
  rewrite IH by (intros H; apply Hout; right; exact H). reflexivity.
Qed.

Lemma register_rule_outside_applicable_witness :
  ClaimsValidationEngine.validate_claim
    (ClaimsValidationEngine.register_rule
       (ClaimsValidationEngine.__init__ Sample.no_digest)
       "VAL026" "Provider Blacklist" always_failing)
    Sample.context Sample.benefit
  = ClaimsValidationEngine.validate_claim
      (ClaimsValidationEngine.__init__ Sample.no_digest) Sample.context Sample.benefit.
Proof.
  apply register_rule_outside_applicable.
  cbn. intuition discriminate.
Defined.

(** *** Date arithmetic: [fromordinal] inverts [toordinal] *)

Lemma days_before_year_decomposed a b c e :
  0 <= b <= 3 -> 0 <= c <= 24 -> 0 <= e <= 3 ->
  days_before_year (a * 400 + 1 + b * 100 + c * 4 + e)
  = 146097 * a + 36524 * b + 1461 * c + 365 * e.
Proof.
  intros Hb Hc He. unfold days_before_year. cbv zeta.
  replace (a * 400 + 1 + b * 100 + c * 4 + e - 1) with (400 * a + 100 * b + 4 * c + e) by lia.
  assert (H4 : (400 * a + 100 * b + 4 * c + e) / 4 = 100 * a + 25 * b + c).
  { symmetry. apply (Z.div_unique _ 4 _ e); lia. }
  assert (H100 : (400 * a + 100 * b + 4 * c + e) / 100 = 4 * a + b).
  { symmetry. apply (Z.div_unique _ 100 _ (4 * c + e)); lia. }
  assert (H400 : (400 * a + 100 * b + 4 * c + e) / 400 = a).
  { symmetry. apply (Z.div_unique _ 400 _ (100 * b + 4 * c + e)); lia. }
  rewrite H4, H100, H400. lia.
Qed.

Lemma toordinal_fromordinal (n : Z) : toordinal (fromordinal n) = n.
Proof.
  unfold fromordinal. cbv zeta.
  set (N := n - 1).
  set (a := N / 146097). set (r1 := N mod 146097).
  set (b := r1 / 36524). set (r2 := r1 mod 36524).
  set (c := r2 / 1461). set (r3 := r2 mod 1461).
  set (e := r3 / 365). set (r4 := r3 mod 365).
  assert (E1 : N = 146097 * a + r1) by (apply Z.div_mod; lia).
  assert (B1 : 0 <= r1 < 146097) by (apply Z.mod_pos_bound; lia).
  assert (E2 : r1 = 36524 * b + r2) by (apply Z.div_mod; lia).
  assert (B2 : 0 <= r2 < 36524) by (apply Z.mod_pos_bound; lia).
  assert (E3 : r2 = 1461 * c + r3) by (apply Z.div_mod; lia).
  assert (B3 : 0 <= r3 < 1461) by (apply Z.mod_pos_bound; lia).
  assert (E4 : r3 = 365 * e + r4) by (apply Z.div_mod; lia).
  assert (B4 : 0 <= r4 < 365) by (apply Z.mod_pos_bound; lia).
  assert (Bb : 0 <= b <= 4) by lia.
  assert (Bc : 0 <= c <= 24) by lia.
  assert (Be : 0 <= e <= 4) by lia.
  clearbody a r1 b r2 c r3 e r4. subst N.
  destruct ((e =? 4) || (b =? 4)) eqn:Ecase.
  - unfold toordinal. cbn [year month day].
    assert (Hy : a * 400 + 1 + b * 100 + c * 4 + e - 1
                 = (if b =? 4 then a else a) * 400 + 1
                   + (if b =? 4 then 3 else b) * 100
                   + (if b =? 4 then 24 else c) * 4 + 3).
    { apply orb_true_iff in Ecase as [He | Hb].
      - apply Z.eqb_eq in He. destruct (b =? 4) eqn:Hb; [apply Z.eqb_eq in Hb |]; lia.
      - rewrite Hb. apply Z.eqb_eq in Hb. lia. }
    assert (Hleap : is_leap (a * 400 + 1 + b * 100 + c * 4 + e - 1) = true).
    { unfold is_leap.
      apply orb_true_iff in Ecase as [He | Hb].
      - apply Z.eqb_eq in He.
        assert (Hc : c <= 23) by lia.
        destruct (Z.eq_dec b 4) as [Hb4 | Hb4]; [lia |].
        replace (a * 400 + 1 + b * 100 + c * 4 + e - 1)
          with (4 * (100 * a + 25 * b + c + 1)) by lia.
        assert (M4 : (4 * (100 * a + 25 * b + c + 1)) mod 4 = 0).
        { rewrite Z.mul_comm. apply Z.mod_mul. lia. }
        rewrite M4. cbn [Z.eqb andb].
        assert (M100 : (4 * (100 * a + 25 * b + c + 1)) mod 100 = 4 * c + 4).
        { symmetry. apply (Z.mod_unique _ 100 (4 * a + b)); lia. }
        rewrite M100.
        assert (Hne : (4 * c + 4 =? 0) = false) by (apply Z.eqb_neq; lia).
        rewrite Hne. reflexivity.
      - apply Z.eqb_eq in Hb.
        replace (a * 400 + 1 + b * 100 + c * 4 + e - 1) with ((a + 1) * 400) by lia.
        assert (M4 : ((a + 1) * 400) mod 4 = 0).
        { replace ((a + 1) * 400) with ((a + 1) * 100 * 4) by lia. apply Z.mod_mul. lia. }
        assert (M400 : ((a + 1) * 400) mod 400 = 0) by (apply Z.mod_mul; lia).
        rewrite M4, M400. cbn. apply orb_true_r. }
    assert (Hdbm : days_before_month (a * 400 + 1 + b * 100 + c * 4 + e - 1) 12 = 335).
    { unfold days_before_month. rewrite Hleap. reflexivity. }
    rewrite Hdbm. rewrite Hy. rewrite days_before_year_decomposed.
    + apply orb_true_iff in Ecase as [He | Hb].
      * apply Z.eqb_eq in He. destruct (b =? 4) eqn:Hb; [apply Z.eqb_eq in Hb |]; lia.
      * rewrite Hb. apply Z.eqb_eq in Hb. lia.
    + destruct (b =? 4) eqn:Hb; [| apply Z.eqb_neq in Hb]; lia.
    + destruct (b =? 4) eqn:Hb; lia.
    + lia.
  - apply orb_false_iff in Ecase as [He Hb].
    apply Z.eqb_neq in He, Hb.
    unfold toordinal. cbn [year month day].
    rewrite days_before_year_decomposed by lia. lia.
Qed.

Lemma toordinal_date_add_days (d : date) (n : Z) :
  toordinal (date_add_days d n) = toordinal d + n.
Proof. apply toordinal_fromordinal. Qed.


(** *** What each rule asks of a claim *)

Lemma optional_int_bool_Some n : optional_int_bool (Some n) = negb (n =? 0).
Proof. reflexivity. Qed.

Lemma passes_None f ctx b : f ctx b = None -> passes f ctx b.
Proof. intros H r Hr. congruence. Qed.

Lemma passes_failed f ctx b r :
  f ctx b = Some r -> ValidationResult.status r = ValidationStatus.FAILED ->
  ~ passes f ctx b.
Proof.
  intros Hr Hs Hp. specialize (Hp r Hr).
  unfold ClaimsValidationEngine.is_failed_or_pending in Hp. rewrite Hs in Hp. discriminate.
Qed.

Lemma _validate_age_eligibility_passes ctx b :
  passes ClaimsValidationEngine._validate_age_eligibility ctx b <-> age_eligible ctx b.
Proof.
  unfold age_eligible. cbv zeta.
  destruct (ClaimsValidationEngine._validate_age_eligibility ctx b) as [r |] eqn:E.
  - assert (Hs : ValidationResult.status r = ValidationStatus.FAILED).
    { unfold ClaimsValidationEngine._validate_age_eligibility in E.
      repeat case_match; simplify_eq; reflexivity. }
    split; [intros Hp; exfalso; eapply passes_failed; eassumption |].
    intros [Hmin Hmax]. exfalso.
    unfold ClaimsValidationEngine._validate_age_eligibility in E.
    destruct (BenefitConfiguration.min_age_years b) as [mn |],
             (BenefitConfiguration.max_age_years b) as [mx |];
      rewrite ?optional_int_bool_Some in E; cbn [default from_option id optional_int_bool] in E.
    all: repeat match type of E with
         | context [negb (?n =? 0) && (?x <? ?y)] =>
             let Hb := fresh "Hb" in
             destruct (negb (n =? 0) && (x <? y)) eqn:Hb;
             [apply andb_true_iff in Hb as [Hnz Hlt];
              apply negb_true_iff, Z.eqb_neq in Hnz; apply Z.ltb_lt in Hlt |]
         end; cbn [andb] in E; try discriminate.
    all: try (specialize (Hmin _ eq_refl Hnz); lia).
    all: try (specialize (Hmax _ eq_refl Hnz); lia).
  - split; [| intros _; apply passes_None; exact E].
    intros _. unfold ClaimsValidationEngine._validate_age_eligibility in E.
    split; intros n Hn Hnz; rewrite Hn in E;
      rewrite ?optional_int_bool_Some in E; cbn [default from_option id] in E;
      apply Z.eqb_neq in Hnz; rewrite ?Hnz in E; cbn [negb andb] in E.
    + destruct (ClaimContext.member_age_years ctx <? n) eqn:El; [discriminate |].
      apply Z.ltb_ge in El. exact El.
    + destruct (optional_int_bool (BenefitConfiguration.min_age_years b)
                && (ClaimContext.member_age_years ctx
                    <? default 0 (BenefitConfiguration.min_age_years b)));
        [discriminate |].
      destruct (n <? ClaimContext.member_age_years ctx) eqn:El; [discriminate |].
      apply Z.ltb_ge in El. exact El.
Qed.

Lemma passes_iff_None f ctx b :
  (forall r, f ctx b = Some r -> ValidationResult.status r = ValidationStatus.FAILED) ->
  passes f ctx b <-> f ctx b = None.
Proof.
  intros Hf. split; [| apply passes_None].
  intros Hp. destruct (f ctx b) as [r |] eqn:E; [| reflexivity].
  exfalso. eapply passes_failed; [exact E | apply Hf; reflexivity | exact Hp].
Qed.

Lemma _validate_waiting_period_passes ctx b :
  passes ClaimsValidationEngine._validate_waiting_period ctx b
  <-> waiting_period_served ctx b.
Proof.
  rewrite passes_iff_None.
  2:{ intros r. unfold ClaimsValidationEngine._validate_waiting_period.
      repeat case_match; intros; simplify_eq; reflexivity. }
  unfold ClaimsValidationEngine._validate_waiting_period, waiting_period_served.
  destruct (ClaimContext.member_since_date ctx) as [since |];
    [| split; [intros _ ? [=] | reflexivity]].
  destruct (0 <? BenefitConfiguration.waiting_period_days b) eqn:Ew.
  - apply Z.ltb_lt in Ew.
    destruct (days_between (ClaimContext.service_date ctx) since
              <? BenefitConfiguration.waiting_period_days b) eqn:Ed.
    + apply Z.ltb_lt in Ed. split; [discriminate |].
      intros H. specialize (H since eq_refl Ew). lia.
    + apply Z.ltb_ge in Ed. split; [| reflexivity]. intros _ ? [= <-] _. exact Ed.
  - apply Z.ltb_ge in Ew. split; [| reflexivity]. intros _ ? _ H. lia.
Qed.

Lemma _validate_annual_limit_passes ctx b :
  passes ClaimsValidationEngine._validate_annual_limit ctx b <-> annual_limit_left ctx b.
Proof.
  unfold passes, ClaimsValidationEngine._validate_annual_limit, annual_limit_left.
  fold (used_annual ctx b).
  destruct (BenefitConfiguration.limit_value b) as [l |];
    [| split; [intros _ ? [=] | intros _ ? [=]]].
  destruct (Decimal_bool l) eqn:Eb.
  2:{ apply Decimal_bool_false in Eb. split; [| intros _ ? [=]].
      intros _ ? [= <-] Hnz. contradiction. }
  apply Decimal_bool_true in Eb.
  destruct (Decimal_ltb (l - used_annual ctx b)%Q (ClaimContext.claimed_amount ctx)) eqn:El.
  2:{ apply Decimal_ltb_ge in El. split; [| intros _ ? [=]].
      intros _ ? [= <-] _. left. exact El. }
  apply Decimal_ltb_lt in El.
  destruct (Decimal_leb (l - used_annual ctx b)%Q 0%Q) eqn:Ez.
  - apply Decimal_leb_le in Ez. split.
    + intros H. specialize (H _ eq_refl). discriminate H.
    + intros H. destruct (H l eq_refl Eb) as [H1 | H1]; lra.
  - apply Decimal_leb_gt in Ez. split.
    + intros _ ? [= <-] _. right. exact Ez.
    + intros _ r [= <-]. reflexivity.
Qed.

Lemma _validate_preauthorization_passes ctx b :
  passes ClaimsValidationEngine._validate_preauthorization ctx b <-> preauthorized ctx b.
Proof.
  rewrite passes_iff_None.
  2:{ intros r. unfold ClaimsValidationEngine._validate_preauthorization.
      repeat case_match; intros; simplify_eq; reflexivity. }
  unfold ClaimsValidationEngine._validate_preauthorization, preauthorized.
  destruct (BenefitConfiguration.requires_preauth b), (ClaimContext.is_emergency ctx),
    (ClaimContext.has_preauth ctx); cbn; split; try discriminate; try reflexivity;
    try tauto; try (intros _ _; tauto).
  intros H. destruct (H eq_refl); discriminate.
Qed.

Lemma existsb_eqb_In (x : string) (l : list string) :
  existsb (String.eqb x) l = true <-> In x l.
Proof.
  rewrite existsb_exists. split.
  - intros (y & Hy & E). apply String.eqb_eq in E. subst. exact Hy.
  - intros H. exists x. split; [exact H | apply String.eqb_refl].
Qed.

Lemma _validate_medical_indication_passes ctx b :
  passes ClaimsValidationEngine._validate_medical_indication ctx b
  <-> medically_indicated ctx b.
Proof.
  rewrite passes_iff_None.
  2:{ intros r. unfold ClaimsValidationEngine._validate_medical_indication.
      repeat case_match; intros; simplify_eq; reflexivity. }
  unfold ClaimsValidationEngine._validate_medical_indication, medically_indicated.
  destruct (BenefitConfiguration.requires_medical_indication b);
    [| split; [discriminate | reflexivity]].
  destruct (ClaimContext.diagnosis_codes ctx) as [| d ds] eqn:Ed.
  - split; [discriminate |]. intros H. destruct (H eq_refl) as [H1 _]. congruence.
  - destruct (String.prefix "CIRC" (BenefitConfiguration.benefit_code b)).
    2:{ split; [| reflexivity]. intros _ _. split; [discriminate | discriminate]. }
    destruct (existsb (fun diag => existsb (String.eqb diag) ["N47.0"; "N47.1"; "Z41.2"])
                (d :: ds)) eqn:Ev; cbn [negb].
    + split; [| reflexivity]. intros _ _. split; [discriminate |]. intros _.
      apply existsb_exists in Ev as (x & Hx & Hv). exists x. split; [exact Hx |].
      apply existsb_eqb_In. exact Hv.
    + split; [discriminate |]. intros H. destruct (H eq_refl) as [_ H2].
      destruct (H2 eq_refl) as (x & Hx & Hv). exfalso.
      assert (Ht : existsb (fun diag => existsb (String.eqb diag) ["N47.0"; "N47.1"; "Z41.2"])
                     (d :: ds) = true).
      { apply existsb_exists. exists x. split; [exact Hx | apply existsb_eqb_In; exact Hv]. }
      congruence.
Qed.

Lemma _validate_exclusions_passes ctx b :
  passes ClaimsValidationEngine._validate_exclusions ctx b <-> not_excluded ctx b.
Proof.
  rewrite passes_iff_None.
  2:{ intros r. unfold ClaimsValidationEngine._validate_exclusions.
      repeat case_match; intros; simplify_eq; reflexivity. }
  unfold ClaimsValidationEngine._validate_exclusions, not_excluded.
  destruct (first _ (ClaimContext.diagnosis_codes ctx)) as [d |] eqn:E.
  - split; [discriminate |]. intros H. exfalso.
    unfold first in E. apply find_some in E as [Hin Hex].
    apply existsb_eqb_In in Hex. exact (H d Hin Hex).
  - split; [| reflexivity]. intros _ d Hin Hex.
    unfold first in E. pose proof (find_none _ _ E d Hin) as Hn. cbn beta in Hn.
    apply existsb_eqb_In in Hex. congruence.
Qed.

Lemma _validate_prerequisites_None ctx b :
  ClaimsValidationEngine._validate_prerequisites ctx b = None.
Proof.
  unfold ClaimsValidationEngine._validate_prerequisites.
  destruct (first _ (BenefitConfiguration.prerequisites b)) as [p |] eqn:E; [| reflexivity].
  unfold first in E. apply find_some in E as [_ E]. discriminate E.
Qed.

Lemma int_bool_true n : int_bool n = true <-> n <> 0.
Proof. unfold int_bool. rewrite negb_true_iff, Z.eqb_neq. reflexivity. Qed.

Lemma _validate_pre_post_hosp_passes ctx b :
  passes ClaimsValidationEngine._validate_pre_post_hosp ctx b
  <-> in_hospitalization_window ctx b.
Proof.
  rewrite passes_iff_None.
  2:{ intros r. unfold ClaimsValidationEngine._validate_pre_post_hosp.
      repeat case_match; intros; simplify_eq; reflexivity. }
  unfold ClaimsValidationEngine._validate_pre_post_hosp, in_hospitalization_window, date_ltb.
  cbv zeta.
  set (pre_ok := forall days admission_date, _ -> _ -> _ -> _ <= _).
  set (post_ok := forall days discharge_date, _ -> _ -> _ -> _ <= _).
  assert (Hpre :
    match BenefitConfiguration.pre_hospitalization_days b, ClaimContext.admission_date ctx with
    | Some days, Some admission_date =>
        int_bool days
        && (toordinal (ClaimContext.service_date ctx)
            <? toordinal (date_add_days admission_date (- days)))
    | _, _ => false
    end = false <-> pre_ok).
  { subst pre_ok.
    destruct (BenefitConfiguration.pre_hospitalization_days b) as [days |],
             (ClaimContext.admission_date ctx) as [adm |];
      try (split; [intros _ ? ? ? ? ?; discriminate | reflexivity]).
    rewrite andb_false_iff, toordinal_date_add_days. unfold days_between. split.
    - intros H ? ? [= <-] Hnz [= <-]. destruct H as [H | H].
      + apply int_bool_true in Hnz. congruence.
      + apply Z.ltb_ge in H. lia.
    - intros H. destruct (int_bool days) eqn:Ei; [| left; reflexivity].
      right. apply Z.ltb_ge.
      assert (Hnz : days <> 0) by (apply int_bool_true; exact Ei).
      specialize (H days _ eq_refl Hnz eq_refl). lia. }
  assert (Hpost :
    match BenefitConfiguration.post_hospitalization_days b, ClaimContext.discharge_date ctx with
    | Some days, Some discharge_date =>
        int_bool days
        && (toordinal (date_add_days discharge_date days)
            <? toordinal (ClaimContext.service_date ctx))
    | _, _ => false
    end = false <-> post_ok).
  { subst post_ok.
    destruct (BenefitConfiguration.post_hospitalization_days b) as [days |],
             (ClaimContext.discharge_date ctx) as [dis |];
      try (split; [intros _ ? ? ? ? ?; discriminate | reflexivity]).
    rewrite andb_false_iff, toordinal_date_add_days. unfold days_between. split.
    - intros H ? ? [= <-] Hnz [= <-]. destruct H as [H | H].
      + apply int_bool_true in Hnz. congruence.
      + apply Z.ltb_ge in H. lia.
    - intros H. destruct (int_bool days) eqn:Ei; [| left; reflexivity].
      right. apply Z.ltb_ge.
      assert (Hnz : days <> 0) by (apply int_bool_true; exact Ei).
      specialize (H days _ eq_refl Hnz eq_refl). lia. }
  rewrite <- Hpre, <- Hpost. clear Hpre Hpost pre_ok post_ok.
  destruct (BenefitConfiguration.pre_hospitalization_days b) as [d1 |],
           (ClaimContext.admission_date ctx) as [adm |],
           (BenefitConfiguration.post_hospitalization_days b) as [d2 |],
           (ClaimContext.discharge_date ctx) as [dis |];
    repeat match goal with
           | |- context [int_bool ?d] => destruct (int_bool d)
           end; cbn [andb];
    repeat match goal with
           | |- context [?x <? ?y] => destruct (x <? y)
           end; split; try tauto; try discriminate; intros [? ?]; discriminate.
Qed.

Lemma _validate_visit_limits_passes ctx b :
  passes ClaimsValidationEngine._validate_visit_limits ctx b <-> visits_left ctx b.
Proof.
  rewrite passes_iff_None.
  2:{ intros r. unfold ClaimsValidationEngine._validate_visit_limits.
      repeat case_match; intros; simplify_eq; reflexivity. }
  unfold ClaimsValidationEngine._validate_visit_limits, visits_left.
  fold (used_visits ctx b).
  destruct (BenefitConfiguration.max_visits_per_year b) as [mx |];
    [| split; [intros _ ? [=] | reflexivity]].
  destruct (int_bool mx) eqn:Ei.
  - apply int_bool_true in Ei.
    destruct (Decimal_leb (inject_Z mx) (used_visits ctx b)) eqn:El.
    + apply Decimal_leb_le in El. split; [discriminate |].
      intros H. specialize (H mx eq_refl Ei). lra.
    + apply Decimal_leb_gt in El. split; [| reflexivity]. intros _ ? [= <-] _. exact El.
  - split; [| reflexivity]. intros _ ? [= <-] Hnz. apply int_bool_true in Hnz. congruence.
Qed.

Lemma can_auto_adjudicate_forall (results : list ValidationResult.t) :
  ClaimsValidationEngine.can_auto_adjudicate results = true
  <-> forall r, In r results -> ClaimsValidationEngine.is_failed_or_pending r = false.
Proof.
  unfold ClaimsValidationEngine.can_auto_adjudicate. rewrite negb_true_iff.
  split.
  - intros H r Hr. destruct (ClaimsValidationEngine.is_failed_or_pending r) eqn:E;
      [| reflexivity].
    assert (Ht : existsb ClaimsValidationEngine.is_failed_or_pending results = true)
      by (apply existsb_exists; eauto).
    congruence.
  - intros H. destruct (existsb ClaimsValidationEngine.is_failed_or_pending results) eqn:E;
      [| reflexivity].
    apply existsb_exists in E as (r & Hr & Hb). rewrite (H r Hr) in Hb. discriminate.
Qed.

Lemma run_passes code name f ctx b :
  (forall r,
     ClaimsValidationEngine._run_validation code
       (Rule.mk name (ClaimsValidationEngine.method f)) ctx b = Some r ->
     ClaimsValidationEngine.is_failed_or_pending r = false)
  <-> passes f ctx b.
Proof.
  unfold passes, ClaimsValidationEngine._run_validation, ClaimsValidationEngine.method.
  cbn [Rule.function Rule.name].
  destruct (f ctx b) as [r0 |]; split; intros H r; try discriminate.
  - intros [= <-]. exact (H _ eq_refl).
  - intros [= <-]. exact (H _ eq_refl).
Qed.

Lemma base_rules_applicable category ctx code :
  In code ["VAL001"; "VAL002"; "VAL003"; "VAL004"; "VAL005"; "VAL006"] ->
  In code (ClaimsValidationEngine._get_applicable_rules category ctx).
Proof. destruct category; cbn; tauto. Qed.



(** *** Warnings, the coinsurance note and the allowed amount *)

Lemma validate_claim_rule self ctx b code name f r :
  In code (ClaimsValidationEngine._get_applicable_rules (BenefitConfiguration.category b) ctx) ->
  ClaimsValidationEngine.validation_rules self !! code
  = Some (Rule.mk name (ClaimsValidationEngine.method f)) ->
  In r (ClaimsValidationEngine.validate_claim self ctx b) /\ ValidationResult.rule_code r = code
  <-> exists r0, f ctx b = Some r0 /\ r = ValidationResult.set_rule code name r0.
Proof.
  intros Hin Hrule. split.
  - intros [Hr Hcode]. apply In_validate_claim in Hr as (code' & rule' & _ & Hrule' & Hrun).
    pose proof (_run_validation_rule_code _ _ _ _ _ Hrun) as Hc. rewrite Hcode in Hc. subst code'.
    rewrite Hrule in Hrule'. injection Hrule' as <-.
    unfold ClaimsValidationEngine._run_validation, ClaimsValidationEngine.method in Hrun.
    cbn [Rule.function Rule.name] in Hrun.
    destruct (f ctx b) as [r0 |]; [| discriminate]. injection Hrun as <-. eauto.
  - intros (r0 & Hf & ->). split; [| reflexivity].
    apply In_validate_claim. exists code, (Rule.mk name (ClaimsValidationEngine.method f)).
    split; [exact Hin |]. split; [exact Hrule |].
    unfold ClaimsValidationEngine._run_validation, ClaimsValidationEngine.method.
    cbn [Rule.function Rule.name]. rewrite Hf. reflexivity.
Qed.

Lemma common_rules_applicable category ctx code :
  In code ["VAL001"; "VAL002"; "VAL003"; "VAL004"; "VAL005"; "VAL006"; "VAL007"; "VAL008";
           "VAL009"; "VAL010"; "VAL023"; "VAL024"; "VAL025"] ->
  In code (ClaimsValidationEngine._get_applicable_rules category ctx).
Proof. destruct category; cbn; tauto. Qed.

Lemma days_between_same d : days_between d d = 0.
Proof. unfold days_between. lia. Qed.

(** X23.  With the rules of the source, [validate_claim] reports rule VAL008
    exactly when some previous claim has the hash of this claim and a
    service date less than 30 days away, a previous claim without service
    date counting as of the same day; the report is a WARNING named
    "Duplicate Claim" that can be overridden at authority level 2. *)
Theorem duplicate_claim_warning
    (sha256_hexdigest : fstring -> string) (ctx : ClaimContext.t)
    (b : BenefitConfiguration.t) :
  let results :=
    ClaimsValidationEngine.validate_claim
      (ClaimsValidationEngine.__init__ sha256_hexdigest) ctx b in
  ((exists r, In r results /\ ValidationResult.rule_code r = "VAL008")
   <-> exists prev_claim,
         In prev_claim (ClaimContext.previous_claims ctx)
         /\ looks_like_duplicate sha256_hexdigest ctx prev_claim)
  /\ (forall r,
        In r results -> ValidationResult.rule_code r = "VAL008" ->
        ValidationResult.rule_name r = "Duplicate Claim"
        /\ ValidationResult.status r = ValidationStatus.WARNING
        /\ ValidationResult.can_override r = true
        /\ ValidationResult.required_authority_level r = 2).
Proof.
  cbv zeta.
  assert (Hrule : forall r,
    In r (ClaimsValidationEngine.validate_claim
            (ClaimsValidationEngine.__init__ sha256_hexdigest) ctx b)
    /\ ValidationResult.rule_code r = "VAL008"
    <-> exists r0, ClaimsValidationEngine._validate_duplicate sha256_hexdigest ctx b = Some r0
                   /\ r = ValidationResult.set_rule "VAL008" "Duplicate Claim" r0).
  { intros r. apply validate_claim_rule; [| reflexivity].
    apply common_rules_applicable. cbn. tauto. }
  set (matches := fun prev_claim : PreviousClaim.t =>
         match PreviousClaim.hash prev_claim with
         | Some h => String.eqb h
                       (ClaimsValidationEngine._generate_claim_hash sha256_hexdigest ctx)
         | None => false
         end
         && (Z.abs (days_between (ClaimContext.service_date ctx)
                      (default (ClaimContext.service_date ctx)
                         (PreviousClaim.service_date prev_claim))) <? 30)).
  assert (Hmatch : forall prev_claim,
            matches prev_claim = true <-> looks_like_duplicate sha256_hexdigest ctx prev_claim).
  { intros prev. unfold matches, looks_like_duplicate.
    rewrite andb_true_iff, Z.ltb_lt.
    destruct (PreviousClaim.hash prev) as [h |].
    - rewrite String.eqb_eq.
      destruct (PreviousClaim.service_date prev) as [sd |]; cbn [default from_option id].
      + split.
        * intros [-> Hd]. split; [reflexivity |]. intros ? [= <-]. exact Hd.
        * intros [[= ->] Hd]. split; [reflexivity | apply Hd; reflexivity].
      + rewrite days_between_same. split.
        * intros [-> _]. split; [reflexivity |]. intros ? [=].
        * intros [[= ->] _]. split; [reflexivity | reflexivity].
    - split; [intros [[=] _] | intros [[=] _]]. }
  split.
  - split.
    + intros (r & Hr & Hcode). destruct (proj1 (Hrule r) (conj Hr Hcode)) as (r0 & Hf & _).
      unfold ClaimsValidationEngine._validate_duplicate in Hf. cbv zeta in Hf.
      fold matches in Hf.
      destruct (first matches (ClaimContext.previous_claims ctx)) as [prev |] eqn:E;
        [| discriminate].
      unfold first in E. apply find_some in E as [Hin Hm].
      exists prev. split; [exact Hin | apply Hmatch; exact Hm].
    + intros (prev & Hin & Hdup).
      destruct (first matches (ClaimContext.previous_claims ctx)) as [p |] eqn:E.
      * eexists. apply Hrule. eexists. split; [| reflexivity].
        unfold ClaimsValidationEngine._validate_duplicate. cbv zeta. fold matches.
        rewrite E. reflexivity.
      * exfalso. unfold first in E. pose proof (find_none _ _ E prev Hin) as Hn.
        apply Hmatch in Hdup. congruence.
  - intros r Hr Hcode. destruct (proj1 (Hrule r) (conj Hr Hcode)) as (r0 & Hf & ->).
    unfold ClaimsValidationEngine._validate_duplicate in Hf. cbv zeta in Hf.
    fold matches in Hf.
    destruct (first matches (ClaimContext.previous_claims ctx)); [| discriminate].
    injection Hf as <-. repeat split.
Qed.



